(** * EEWS performance analyzer: record ingestion, planar distance,
      inland/offshore classification, error metrics and statistics.

    A shallow embedding of [eews_analyzer.py] (class [EEWSAnalyzer]:
    [_load_boundary_data], [check_inland], [load_data], [calculate_distance],
    [calculate_errors], [get_statistics]) and of the functions [delaz] and
    [check_seis_r] and the processing-time files of the legacy script
    [ana_forplot.py].

    Numbers.  A Python float is idealised as a real number ([R]); the value
    [np.nan], which the code uses as its missing-value sentinel, is the extra
    point [None] of [option R].  Rounding, infinities and a [nan] read from the
    input text are outside this idealisation.

    Library calls.  Python's [float] is a parameter of the parser, [None]
    standing for [ValueError].  The pandas and numpy reductions the code calls
    ([Series.mean], [Series.std], [numpy.std], ...) are written out with the
    defaults of these libraries.  Methods of the analyzer thread the object
    explicitly and return [Raise e] where Python raises. *)

From Stdlib Require Import Reals Lra Lia ZArith List Bool Arith.
From Stdlib Require Import String Ascii Permutation.
Import ListNotations.

Open Scope R_scope.

(** ** Python values the code relies on *)

Module Py.

(** The exceptions that can leave the modelled functions. *)
Inductive exn : Set :=
| ValueError          (* float() of a token that is no number;
                         a column assigned from a frame without columns *)
| KeyError            (* df['Type'] on a frame without columns *)
| TypeError           (* len(None) *)
| ZeroDivisionError.  (* int / int with a zero divisor *)

Inductive result (A : Type) : Type :=
| Ok (a : A)
| Raise (e : exn).
Arguments Ok {A} a.
Arguments Raise {A} e.

Definition bind {A B} (m : result A) (k : A -> result B) : result B :=
  match m with
  | Ok a => k a
  | Raise e => Raise e
  end.

(** [x > y] and [x < y] on floats, as truth values. *)
Definition Rltb (x y : R) : bool := if Rlt_dec x y then true else false.
Definition Rgtb (x y : R) : bool := Rltb y x.
Definition Rleb (x y : R) : bool := if Rle_dec x y then true else false.

(** [l[i] = v] on a list of integers.  The code only writes indices that
    exist (Python would raise [IndexError] elsewhere; here nothing changes). *)
Fixpoint upd (i : nat) (v : Z) (l : list Z) : list Z :=
  match l, i with
  | [], _ => []
  | _ :: t, O => v :: t
  | h :: t, S i' => h :: upd i' v t
  end.

(** [l[i]] on a list of integers and on a list of floats. *)
Definition getZ (l : list Z) (i : nat) : Z := nth i l 0%Z.
Definition getR (l : list R) (i : nat) : R := nth i l 0.

(** [range(a, b)]. *)
Definition range (a b : nat) : list nat := seq a (b - a).

(** [a / b] on two [int]s: true division, which raises on a zero divisor. *)
Definition truediv (a b : nat) : result R :=
  match b with
  | O => Raise ZeroDivisionError
  | S _ => Ok (INR a / INR b)
  end.

(** [c.isspace()] on the ASCII range: tab to carriage return, the four
    separators 0x1c-0x1f and the blank. *)
Definition isspace (c : ascii) : bool :=
  let n := nat_of_ascii c in
  ((9 <=? n) && (n <=? 13) || (28 <=? n) && (n <=? 32))%nat.

(** [s.split()]: the maximal runs of non-blank characters, in order. *)
Fixpoint split_go (s : string) (cur : string) : list string :=
  match s with
  | EmptyString => if (cur =? "")%string then [] else [cur]
  | String c s' =>
      if isspace c
      then (if (cur =? "")%string then [] else [cur]) ++ split_go s' ""
      else split_go s' (cur ++ String c "")
  end.
Definition split (s : string) : list string := split_go s "".

(** [s.strip()]. *)
Fixpoint lstrip (s : string) : string :=
  match s with
  | EmptyString => EmptyString
  | String c s' => if isspace c then lstrip s' else s
  end.
Fixpoint rstrip (s : string) : string :=
  match s with
  | EmptyString => EmptyString
  | String c s' =>
      let t := rstrip s' in
      if (t =? "")%string && isspace c then EmptyString else String c t
  end.
Definition strip (s : string) : string := lstrip (rstrip s).

(** Truth value of a string: non-empty. *)
Definition truthy (s : string) : bool := negb (s =? "")%string.

(** [c in s] for a one-character string [c]. *)
Fixpoint contains (c : ascii) (s : string) : bool :=
  match s with
  | EmptyString => false
  | String d s' => Ascii.eqb c d || contains c s'
  end.

(** [l[i]] on a list of tokens (only used below the checked length). *)
Definition tok (l : list string) (i : nat) : string := nth i l EmptyString.

End Py.

Notation "x <- m ;; k" := (Py.bind m (fun x => k))
  (at level 61, m at next level, right associativity).

Import Py.

(** ** Planar distance: [EEWSAnalyzer.calculate_distance] and [delaz] *)

(** [calculate_distance(lat1, lon1, lat2, lon2)], eews_analyzer.py. *)
Definition calculate_distance (lat1 lon1 lat2 lon2 : R) : R :=
  let avlat := 0.5 * (lat1 + lat2) in
  let a := 1.840708 + avlat * (0.0015269 + avlat * (-0.00034 + avlat * 1.02337e-6)) in
  let b := 1.843404 + avlat * (-6.93799e-5 + avlat * (8.79993e-6 + avlat * (-6.47527e-8))) in
  let dlat := lat2 - lat1 in
  let dlon := lon2 - lon1 in
  let dx := a * dlon * 60.0 in
  let dy := b * dlat * 60.0 in
  let delta := sqrt (dx * dx + dy * dy) in
  delta.

(** [delaz(elat, elon, slat, slon)], ana_forplot.py. *)
Definition delaz (elat elon slat slon : R) : R :=
  let avlat := 0.5 * (elat + slat) in
  let a := 1.840708 + avlat * (0.0015269 + avlat * (-0.00034 + avlat * (1.02337e-6))) in
  let b := 1.843404 + avlat * (-6.93799e-5 + avlat * (8.79993e-6 + avlat * (-6.47527e-8))) in
  let dlat := slat - elat in
  let dlon := slon - elon in
  let dx := a * dlon * 60.0 in
  let dy := b * dlat * 60.0 in
  let delta := sqrt (dx * dx + dy * dy) in
  delta.

(** The square of the planar distance: [dx*dx + dy*dy] of
    [calculate_distance], before the root is taken. *)
Definition squared_distance (lat1 lon1 lat2 lon2 : R) : R :=
  let avlat := 0.5 * (lat1 + lat2) in
  let a := 1.840708 + avlat * (0.0015269 + avlat * (-0.00034 + avlat * 1.02337e-6)) in
  let b := 1.843404 + avlat * (-6.93799e-5 + avlat * (8.79993e-6 + avlat * (-6.47527e-8))) in
  let dlat := lat2 - lat1 in
  let dlon := lon2 - lon1 in
  let dx := a * dlon * 60.0 in
  let dy := b * dlat * 60.0 in
  dx * dx + dy * dy.

(** ** Inland/offshore classification *)

(** The five [if] statements both classifiers run on the flag list [sta] for
    one boundary point: offsets [x], [y], distance [dist], threshold [r]. *)
Definition set_flags (x y dist r : R) (sta : list Z) : list Z :=
  let sta := if Rgtb x 0 && Rgtb y 0 then upd 0 1%Z sta else sta in
  let sta := if Rltb x 0 && Rltb y 0 then upd 1 1%Z sta else sta in
  let sta := if Rgtb x 0 && Rltb y 0 then upd 2 1%Z sta else sta in
  let sta := if Rltb x 0 && Rgtb y 0 then upd 3 1%Z sta else sta in
  let sta := if Rltb dist r then upd 4 1%Z sta else sta in
  sta.

(** [check == 1 or sta[4] == 1] with [check = sta[0]*sta[1]*sta[2]*sta[3]]. *)
Definition exit_test (sta : list Z) : bool :=
  let check := (getZ sta 0 * getZ sta 1 * getZ sta 2 * getZ sta 3)%Z in
  (check =? 1)%Z || (getZ sta 4 =? 1)%Z.

(** The part of the analyzer object the classifier reads. *)
Record Boundary : Type := mkBoundary {
  boundary_lons : list R;
  boundary_lats : list R;
  near_coast_line_dis : R
}.

(** The [for i in range(len(self.boundary_lons))] loop of [check_inland];
    the value is [result] when the loop is left. *)
Fixpoint check_inland_loop (self : Boundary) (lon lat : R)
    (idx : list nat) (sta : list Z) : Z :=
  match idx with
  | [] => 0%Z
  | i :: rest =>
      let x := getR (boundary_lons self) i - lon in
      let y := getR (boundary_lats self) i - lat in
      let dist := calculate_distance lat lon
                    (getR (boundary_lats self) i) (getR (boundary_lons self) i) in
      let sta := set_flags x y dist (near_coast_line_dis self) sta in
      if exit_test sta then 1%Z
      else check_inland_loop self lon lat rest sta
  end.

(** [EEWSAnalyzer.check_inland]: [None] is Python's [None]. *)
Definition check_inland (self : Boundary) (lon lat : R) : option bool :=
  match boundary_lons self with
  | [] => None
  | _ :: _ =>
      let sta := [0; 0; 0; 0; 0]%Z in
      let result :=
        check_inland_loop self lon lat
          (range 0 (List.length (boundary_lons self))) sta in
      Some (result =? 1)%Z
  end.

(** The [for i in range(1,num_boundary)] loop of [check_seis_r]; five zeros
    are appended to [sta] at the start of every round. *)
Fixpoint check_seis_r_loop (tlon tlat : list R) (elon elat r : R)
    (idx : list nat) (sta : list Z) : Z :=
  match idx with
  | [] => 0%Z
  | i :: rest =>
      let x := getR tlon i - elon in
      let y := getR tlat i - elat in
      let dist := delaz elat elon (getR tlat i) (getR tlon i) in
      let sta := sta ++ [0; 0; 0; 0; 0]%Z in
      let sta := set_flags x y dist r sta in
      if exit_test sta then 1%Z
      else check_seis_r_loop tlon tlat elon elat r rest sta
  end.

(** [check_seis_r(tlon, tlat, elon, elat, num_boundary, r)], ana_forplot.py. *)
Definition check_seis_r (tlon tlat : list R) (elon elat : R)
    (num_boundary : nat) (r : R) : Z :=
  check_seis_r_loop tlon tlat elon elat r (range 1 num_boundary) [].

(** The analyzer of a run whose boundary file held the given points, in file
    order ([_load_boundary_data] appends to both lists in lockstep); the
    threshold is the constant 1.0 km set by [__init__]. *)
Definition boundary_of (pts : list (R * R)) : Boundary :=
  mkBoundary (map fst pts) (map snd pts) 1.0.

(** ** Records: [EEWSAnalyzer.load_data] *)

(** One row of the frame [self.df].  The catalog columns always hold a number;
    the alert columns hold a number or [np.nan] ([None]).  [Is_Inland] is
    [None] on a row of a frame that has no such column. *)
Record row : Type := mkRow {
  Type_ : string;
  ID : string;
  Origin_Time : string;
  Cat_Lon : R;
  Cat_Lat : R;
  Cat_Mag : R;
  Cat_Depth : R;
  EEW_Lon : option R;
  EEW_Lat : option R;
  EEW_Mag : option R;
  EEW_Depth : option R;
  Processing_Time : option R;
  Is_Inland : option bool
}.

(** A pandas frame as the analyzer holds it: [pd.DataFrame([])] has neither
    rows nor columns; every other frame has the columns of [row]. *)
Inductive DataFrame : Type :=
| NoColumns
| Frame (rows : list row).

Definition len (df : DataFrame) : nat :=
  match df with
  | NoColumns => O
  | Frame rows => List.length rows
  end.

(** [pd.DataFrame(data)] for a list of row dictionaries. *)
Definition DataFrame_of (data : list row) : DataFrame :=
  match data with
  | [] => NoColumns
  | _ :: _ => Frame data
  end.

(** The rows of a frame. *)
Definition rows_of (d : DataFrame) : list row :=
  match d with
  | NoColumns => []
  | Frame rows => rows
  end.

Definition set_Is_Inland (v : option bool) (r : row) : row :=
  mkRow (Type_ r) (ID r) (Origin_Time r) (Cat_Lon r) (Cat_Lat r) (Cat_Mag r)
        (Cat_Depth r) (EEW_Lon r) (EEW_Lat r) (EEW_Mag r) (EEW_Depth r)
        (Processing_Time r) v.

Section Parser.

(** Python's [float(token)]: [None] when it raises [ValueError]. *)
Variable float : string -> option R.

Definition to_float (s : string) : result R :=
  match float s with
  | Some v => Ok v
  | None => Raise ValueError
  end.

(** [_load_boundary_data]: the [for line in f] loop, appending to the two
    lists, and the whole method.  The boundary file is [None] when it does
    not exist ([FileNotFoundError] is caught and the lists stay empty); a
    token that is no number makes the constructor fail. *)
Fixpoint read_boundary (lines : list string) (lons lats : list R)
  : result (list R * list R) :=
  match lines with
  | [] => Ok (lons, lats)
  | line :: rest =>
      let data := split line in
      if (2 <=? List.length data)%nat then
        lon <- to_float (tok data 0) ;;
        lat <- to_float (tok data 1) ;;
        read_boundary rest (lons ++ [lon]) (lats ++ [lat])
      else read_boundary rest lons lats
  end.

Definition load_boundary_data (boundary_file : option (list string))
  : result Boundary :=
  match boundary_file with
  | None => Ok (mkBoundary [] [] 1.0)
  | Some lines =>
      r <- read_boundary lines [] [] ;;
      Ok (mkBoundary (fst r) (snd r) 1.0)
  end.

(** The body of the [for line in lines[1:]] loop: [Ok None] when the line adds
    no row, [Ok (Some row)] when [data.append(row)] runs. *)
Definition parse_line (line : string) : result (option row) :=
  if truthy (strip line) then
    let parts := split line in
    if (7 <=? List.length parts)%nat then
      cat_lon <- to_float (tok parts 3) ;;
      cat_lat <- to_float (tok parts 4) ;;
      cat_mag <- to_float (tok parts 5) ;;
      cat_depth <- to_float (tok parts 6) ;;
      if contains "Y" (tok parts 0) && (12 <=? List.length parts)%nat then
        eew_lon <- to_float (tok parts 7) ;;
        eew_lat <- to_float (tok parts 8) ;;
        eew_mag <- to_float (tok parts 9) ;;
        eew_depth <- to_float (tok parts 10) ;;
        processing_time <- to_float (tok parts 11) ;;
        Ok (Some (mkRow (tok parts 0) (tok parts 1) (tok parts 2)
                    cat_lon cat_lat cat_mag cat_depth
                    (Some eew_lon) (Some eew_lat) (Some eew_mag)
                    (Some eew_depth) (Some processing_time) None))
      else
        Ok (Some (mkRow (tok parts 0) (tok parts 1) (tok parts 2)
                    cat_lon cat_lat cat_mag cat_depth
                    None None None None None None))
    else Ok None
  else Ok None.

(** The whole loop: the list [data]. *)
Fixpoint read_rows (lines : list string) : result (list row) :=
  match lines with
  | [] => Ok []
  | line :: rest =>
      r <- parse_line line ;;
      data <- read_rows rest ;;
      Ok (match r with Some x => x :: data | None => data end)
  end.

(** A row of [df_analyzed]: a row of [self.df] with the three error columns. *)
Record arow : Type := mkArow {
  base : row;
  Epicenter_Error_km : option R;
  Magnitude_Error : option R;
  Depth_Error_km : option R
}.

(** The analyzer object: the lines of the data file as [readlines()] gives
    them, the boundary, the frame [self.df] ([None] until loaded) and the
    attribute [df_analyzed] (absent until [calculate_errors] has run). *)
Record EEWSAnalyzer : Type := mkAnalyzer {
  data_lines : list string;
  boundary : Boundary;
  df : option DataFrame;
  df_analyzed : option (list arow)
}.

(** [self.df['Is_Inland'] = self.df.apply(...)]: on a frame without columns
    [apply] gives a frame without columns back, which cannot be assigned to a
    column. *)
Definition add_Is_Inland (b : Boundary) (d : DataFrame) : result DataFrame :=
  match d with
  | NoColumns => Raise ValueError
  | Frame rows =>
      Ok (Frame (map (fun r => set_Is_Inland (check_inland b (Cat_Lon r) (Cat_Lat r)) r)
                     rows))
  end.

(** [EEWSAnalyzer.load_data]. *)
Definition load_data (self : EEWSAnalyzer) : result (DataFrame * EEWSAnalyzer) :=
  data <- read_rows (tl (data_lines self)) ;;
  let d := DataFrame_of data in
  d <- (match boundary_lons (boundary self) with
        | _ :: _ => add_Is_Inland (boundary self) d
        | [] => Ok d
        end) ;;
  Ok (d, mkAnalyzer (data_lines self) (boundary self) (Some d) (df_analyzed self)).

End Parser.

(** The analyzer as [__init__] leaves it: nothing loaded, nothing analyzed. *)
Definition new_analyzer (lines : list string) (b : Boundary) : EEWSAnalyzer :=
  mkAnalyzer lines b None None.

(** ** pandas and numpy reductions *)

(** Arithmetic that meets [np.nan] gives [np.nan]. *)
Definition nan_sub (x y : option R) : option R :=
  match x, y with
  | Some a, Some b => Some (a - b)
  | _, _ => None
  end.
Definition nan_abs (x : option R) : option R := option_map Rabs x.
Definition nan_sqrt (x : option R) : option R := option_map sqrt x.

Definition Rsum (l : list R) : R := fold_right Rplus 0 l.

(** The values of a column that are not [np.nan] (every pandas reduction
    below skips the others). *)
Definition dropna_values (xs : list (option R)) : list R :=
  flat_map (fun x => match x with Some v => [v] | None => [] end) xs.

(** [Series.mean()]. *)
Definition Series_mean (xs : list (option R)) : option R :=
  let v := dropna_values xs in
  match v with
  | [] => None
  | _ :: _ => Some (Rsum v / INR (List.length v))
  end.

(** [Series.std()]: pandas' default [ddof=1]; [np.nan] when fewer than two
    values are left. *)
Definition Series_std (xs : list (option R)) : option R :=
  let v := dropna_values xs in
  let count := List.length v in
  let ddof := 1%nat in
  if (count <=? ddof)%nat then None
  else
    let avg := Rsum v / INR count in
    let sqr := Rsum (map (fun x => (avg - x) * (avg - x)) v) in
    Some (sqrt (sqr / INR (count - ddof))).

(** [Series.max()] and [Series.min()]. *)
Definition Series_max (xs : list (option R)) : option R :=
  match dropna_values xs with
  | [] => None
  | x :: t => Some (fold_left Rmax t x)
  end.
Definition Series_min (xs : list (option R)) : option R :=
  match dropna_values xs with
  | [] => None
  | x :: t => Some (fold_left Rmin t x)
  end.

(** [Series.median()]: the middle of the sorted values. *)
Fixpoint insert_sorted (x : R) (l : list R) : list R :=
  match l with
  | [] => [x]
  | y :: t => if Rleb x y then x :: l else y :: insert_sorted x t
  end.
Definition sorted_values (l : list R) : list R := fold_right insert_sorted [] l.
Definition Series_median (xs : list (option R)) : option R :=
  let v := sorted_values (dropna_values xs) in
  let n := List.length v in
  match n with
  | O => None
  | S _ =>
      if Nat.even n
      then Some ((getR v (n / 2 - 1) + getR v (n / 2)) / 2)
      else Some (getR v (n / 2))
  end.

(** [np.sqrt(np.mean(series**2))]. *)
Definition rms (xs : list (option R)) : option R :=
  nan_sqrt (Series_mean (map (option_map (fun x => x * x)) xs)).

(** [numpy.mean] and [numpy.std] on a list of floats, as ana_forplot.py calls
    them for its report: numpy's default [ddof=0]. *)
Definition numpy_mean (l : list R) : option R :=
  match l with
  | [] => None
  | _ :: _ => Some (Rsum l / INR (List.length l))
  end.
Definition numpy_std (l : list R) : option R :=
  match l with
  | [] => None
  | _ :: _ =>
      let arrmean := Rsum l / INR (List.length l) in
      let x := map (fun v => v - arrmean) l in
      Some (sqrt (Rsum (map (fun d => d * d) x) / INR (List.length l)))
  end.

(** ** Error metrics and statistics *)

(** The three columns [calculate_errors] adds to a row. *)
Definition add_errors (r : row) : arow :=
  mkArow r
    (match EEW_Lat r with
     | None => None
     | Some eew_lat =>
         match EEW_Lon r with
         | Some eew_lon =>
             Some (calculate_distance (Cat_Lat r) (Cat_Lon r) eew_lat eew_lon)
         | None => None
         end
     end)
    (nan_abs (nan_sub (Some (Cat_Mag r)) (EEW_Mag r)))
    (nan_abs (nan_sub (Some (Cat_Depth r)) (EEW_Depth r))).

(** The statistics of one of the two subsets, inland or offshore. *)
Record subset_stats : Type := mkSubset {
  sub_epicenter_error_mean_km : option R;
  sub_epicenter_error_std_km : option R;
  sub_magnitude_error_rms : option R;
  sub_processing_time_mean_s : option R;
  sub_processing_time_std_s : option R
}.

Record breakdown : Type := mkBreakdown {
  inland_count : nat;
  offshore_count : nat;
  inland : option subset_stats;
  offshore : option subset_stats
}.

(** The dictionary [get_statistics] returns; [inland_offshore] is [None] when
    the inland and offshore keys are not added. *)
Record stats : Type := mkStats {
  total_earthquakes : nat;
  eew_detected : nat;
  missed_events : Z;
  detection_rate : R;
  epicenter_error_mean_km : option R;
  epicenter_error_std_km : option R;
  epicenter_error_median_km : option R;
  epicenter_error_max_km : option R;
  epicenter_error_min_km : option R;
  magnitude_error_mean : option R;
  magnitude_error_std : option R;
  magnitude_error_rms : option R;
  depth_error_mean_km : option R;
  depth_error_std_km : option R;
  processing_time_mean_s : option R;
  processing_time_std_s : option R;
  processing_time_median_s : option R;
  processing_time_max_s : option R;
  processing_time_min_s : option R;
  inland_offshore : option breakdown
}.

Definition is_some {A} (o : option A) : bool :=
  match o with Some _ => true | None => false end.

Definition is_inland_eq (v : bool) (a : arow) : bool :=
  match Is_Inland (base a) with
  | Some b => Bool.eqb b v
  | None => false
  end.

Definition stats_of_subset (d : list arow) : option subset_stats :=
  match d with
  | [] => None
  | _ :: _ =>
      Some (mkSubset
              (Series_mean (map Epicenter_Error_km d))
              (Series_std (map Epicenter_Error_km d))
              (rms (map Magnitude_Error d))
              (Series_mean (map (fun a => Processing_Time (base a)) d))
              (Series_std (map (fun a => Processing_Time (base a)) d)))
  end.

Section Analysis.

Variable float : string -> option R.

(** [EEWSAnalyzer.calculate_errors]. *)
Definition calculate_errors (self : EEWSAnalyzer)
  : result (list arow * EEWSAnalyzer) :=
  self <- (match df self with
           | None => r <- load_data float self ;; Ok (snd r)
           | Some _ => Ok self
           end) ;;
  match df self with
  | None => Raise TypeError
  | Some NoColumns => Raise KeyError
  | Some (Frame rows) =>
      let eew_detected := filter (fun r => contains "Y" (Type_ r)) rows in
      let eew_detected := map add_errors eew_detected in
      Ok (eew_detected,
          mkAnalyzer (data_lines self) (boundary self) (df self) (Some eew_detected))
  end.

(** [EEWSAnalyzer.get_statistics].  The attribute [results], a copy of the
    returned dictionary, is left out. *)
Definition get_statistics (self : EEWSAnalyzer) : result (stats * EEWSAnalyzer) :=
  self <- (match df_analyzed self with
           | None => r <- calculate_errors self ;; Ok (snd r)
           | Some _ => Ok self
           end) ;;
  match df_analyzed self, df self with
  | Some analyzed, Some all =>
      let d := filter (fun a => is_some (Epicenter_Error_km a)) analyzed in
      rate <- truediv (List.length d) (len all) ;;
      let proc := map (fun a => Processing_Time (base a)) d in
      Ok (mkStats
            (len all)
            (List.length d)
            (Z.of_nat (len all) - Z.of_nat (List.length d))%Z
            (rate * 100)
            (Series_mean (map Epicenter_Error_km d))
            (Series_std (map Epicenter_Error_km d))
            (Series_median (map Epicenter_Error_km d))
            (Series_max (map Epicenter_Error_km d))
            (Series_min (map Epicenter_Error_km d))
            (Series_mean (map Magnitude_Error d))
            (Series_std (map Magnitude_Error d))
            (rms (map Magnitude_Error d))
            (Series_mean (map Depth_Error_km d))
            (Series_std (map Depth_Error_km d))
            (Series_mean proc)
            (Series_std proc)
            (Series_median proc)
            (Series_max proc)
            (Series_min proc)
            (* 'Is_Inland' in df.columns and df['Is_Inland'].notna().any() *)
            (if existsb (fun a => is_some (Is_Inland (base a))) d
             then
               let df_inland := filter (is_inland_eq true) d in
               let df_offshore := filter (is_inland_eq false) d in
               Some (mkBreakdown (List.length df_inland) (List.length df_offshore)
                       (stats_of_subset df_inland) (stats_of_subset df_offshore))
             else None),
          self)
  | _, _ => Raise TypeError
  end.

End Analysis.

(** ** Processing-time files of ana_forplot.py *)

(** The six files [pro_time_05] ... [pro_time_30] a detected record may be
    written to, and the six [if] statements that choose among them. *)
Inductive time_file : Set :=
| pro_time_05 | pro_time_10 | pro_time_15
| pro_time_20 | pro_time_25 | pro_time_30.

Definition time_files (pro_time : R) : list time_file :=
  (if Rleb pro_time 10 then [pro_time_05] else []) ++
  (if Rgtb pro_time 10 && Rleb pro_time 15 then [pro_time_10] else []) ++
  (if Rgtb pro_time 15 && Rleb pro_time 20 then [pro_time_15] else []) ++
  (if Rgtb pro_time 20 && Rleb pro_time 25 then [pro_time_20] else []) ++
  (if Rgtb pro_time 25 && Rleb pro_time 30 then [pro_time_25] else []) ++
  (if Rgtb pro_time 30 then [pro_time_30] else []).

(** ** Notions the properties are stated with *)

(** The sign pattern of the offset of a boundary point [p = (lon, lat)] seen
    from the candidate point, and the near-boundary test. *)
Definition in_NE (lon lat : R) (p : R * R) : bool :=
  Rgtb (fst p - lon) 0 && Rgtb (snd p - lat) 0.
Definition in_SW (lon lat : R) (p : R * R) : bool :=
  Rltb (fst p - lon) 0 && Rltb (snd p - lat) 0.
Definition in_SE (lon lat : R) (p : R * R) : bool :=
  Rgtb (fst p - lon) 0 && Rltb (snd p - lat) 0.
Definition in_NW (lon lat : R) (p : R * R) : bool :=
  Rltb (fst p - lon) 0 && Rgtb (snd p - lat) 0.
Definition is_near (r lon lat : R) (p : R * R) : bool :=
  Rltb (calculate_distance lat lon (snd p) (fst p)) r.

(** All four sign patterns occur among the boundary points, or some boundary
    point is nearer than [r]: a condition on the set of points. *)
Definition all_quadrants (lon lat : R) (pts : list (R * R)) : bool :=
  existsb (in_NE lon lat) pts && existsb (in_SW lon lat) pts &&
  existsb (in_SE lon lat) pts && existsb (in_NW lon lat) pts.
Definition surrounded_or_near (r lon lat : R) (pts : list (R * R)) : bool :=
  all_quadrants lon lat pts || existsb (is_near r lon lat) pts.

(** A closed ring: at least three distinct corners, the first point repeated
    at the end. *)
Definition closed_ring (pts : list (R * R)) : Prop :=
  (4 <= List.length pts)%nat /\ hd (0, 0) pts = last pts (0, 0).

(** Even-odd rule: the number of ring edges a ray from the point towards
    growing longitude crosses. *)
Definition crosses (lon lat : R) (a b : R * R) : bool :=
  xorb (Rgtb (snd a) lat) (Rgtb (snd b) lat) &&
  Rltb lon ((fst b - fst a) * (lat - snd a) / (snd b - snd a) + fst a).
Fixpoint crossings (lon lat : R) (pts : list (R * R)) : nat :=
  match pts with
  | a :: (b :: _) as rest =>
      ((if crosses lon lat a b then 1 else 0) + crossings lon lat rest)%nat
  | _ => O
  end.

Definition on_segment (lon lat : R) (a b : R * R) : Prop :=
  exists t : R, 0 <= t <= 1 /\
    lon = fst a + t * (fst b - fst a) /\ lat = snd a + t * (snd b - snd a).
Fixpoint on_ring (lon lat : R) (pts : list (R * R)) : Prop :=
  match pts with
  | a :: (b :: _) as rest => on_segment lon lat a b \/ on_ring lon lat rest
  | _ => False
  end.

(** The point is in the interior of the ring: an odd number of crossings,
    and not on the ring itself. *)
Definition strictly_inside (lon lat : R) (pts : list (R * R)) : Prop :=
  Nat.odd (crossings lon lat pts) = true /\ ~ on_ring lon lat pts.

(** The point is outside the bounding box of the points on some axis. *)
Definition outside_box (lon lat : R) (pts : list (R * R)) : Prop :=
  (forall p, In p pts -> fst p < lon) \/ (forall p, In p pts -> lon < fst p) \/
  (forall p, In p pts -> snd p < lat) \/ (forall p, In p pts -> lat < snd p).

(** The population standard deviation [sqrt(mean((x - mean(x))^2))], divisor
    [N], and the sample standard deviation, divisor [N - 1]. *)
Definition mean (l : list R) : R := Rsum l / INR (List.length l).
Definition population_std (l : list R) : R :=
  sqrt (mean (map (fun x => (x - mean l) * (x - mean l)) l)).
Definition sample_std (l : list R) : R :=
  sqrt (Rsum (map (fun x => (x - mean l) * (x - mean l)) l)
        / (INR (List.length l) - 1)).

(** The four dimensions [get_statistics] reports a deviation for: the column
    of [df_analyzed] and the key of the result. *)
Inductive dimension : Set :=
| EpicenterError | MagnitudeError | DepthError | ProcessingTime.

Definition column (d : dimension) (a : arow) : option R :=
  match d with
  | EpicenterError => Epicenter_Error_km a
  | MagnitudeError => Magnitude_Error a
  | DepthError => Depth_Error_km a
  | ProcessingTime => Processing_Time (base a)
  end.

Definition reported_std (d : dimension) (s : stats) : option R :=
  match d with
  | EpicenterError => epicenter_error_std_km s
  | MagnitudeError => magnitude_error_std s
  | DepthError => depth_error_std_km s
  | ProcessingTime => processing_time_std_s s
  end.

(** The defined values of a dimension among the records the statistics are
    taken over (those with a defined epicenter error). *)
Definition defined_values (d : dimension) (analyzed : list arow) : list R :=
  dropna_values
    (map (column d) (filter (fun a => is_some (Epicenter_Error_km a)) analyzed)).

(** The second character of a token is [c]. *)
Definition second_char_is (c : ascii) (s : string) : bool :=
  match s with
  | String _ (String d _) => Ascii.eqb c d
  | _ => false
  end.

(** All five alert columns of a row hold a number, or all hold [np.nan]. *)
Definition alert_populated (r : row) : Prop :=
  is_some (EEW_Lon r) = true /\ is_some (EEW_Lat r) = true /\
  is_some (EEW_Mag r) = true /\ is_some (EEW_Depth r) = true /\
  is_some (Processing_Time r) = true.
Definition alert_missing (r : row) : Prop :=
  EEW_Lon r = None /\ EEW_Lat r = None /\ EEW_Mag r = None /\
  EEW_Depth r = None /\ Processing_Time r = None.

(** A small reader of decimal literals ([-12.5], [8], [0.25]) used to run the
    parser on concrete lines; it rejects everything else, as [float] rejects
    what is no number. *)
Definition digit_of (c : ascii) : option Z :=
  let n := nat_of_ascii c in
  if ((48 <=? n) && (n <=? 57))%nat then Some (Z.of_nat (n - 48)) else None.

Fixpoint read_digits (s : string) (acc : Z) (scale : Z) (seen_dot : bool)
    (any : bool) : option (Z * Z) :=
  match s with
  | EmptyString => if any then Some (acc, scale) else None
  | String c s' =>
      if Ascii.eqb c "."
      then (if seen_dot then None else read_digits s' acc scale true any)
      else match digit_of c with
           | Some d =>
               read_digits s' (10 * acc + d)%Z
                 (if seen_dot then (10 * scale)%Z else scale) seen_dot true
           | None => None
           end
  end.

Definition decimal_float (s : string) : option R :=
  let '(neg, body) :=
    match s with
    | String c s' => if Ascii.eqb c "-" then (true, s') else (false, s)
    | EmptyString => (false, s)
    end in
  match read_digits body 0%Z 1%Z false false with
  | Some (n, k) => Some (IZR (if neg then (- n)%Z else n) / IZR k)
  | None => None
  end.

(** The classifier loop read over the boundary points themselves rather than
    over their indices, and a flag list written with truth values; both are
    used to reason about the two loops above. *)
Fixpoint scan (r lon lat : R) (pts : list (R * R)) (sta : list Z) : Z :=
  match pts with
  | [] => 0%Z
  | p :: rest =>
      let sta := set_flags (fst p - lon) (snd p - lat)
                   (calculate_distance lat lon (snd p) (fst p)) r sta in
      if exit_test sta then 1%Z else scan r lon lat rest sta
  end.

Definition points_at (lons lats : list R) (idx : list nat) : list (R * R) :=
  map (fun i => (getR lons i, getR lats i)) idx.

Definition flags (a b c d e : bool) : list Z :=
  [Z.b2z a; Z.b2z b; Z.b2z c; Z.b2z d; Z.b2z e].

(** A triangular ring and a point of its interior. *)
Definition triangle : list (R * R) :=
  [(120, 22); (122, 22); (121, 25); (120, 22)].

(** A square ring around the point (121, 23). *)
Definition square : list (R * R) :=
  [(120, 22); (122, 22); (122, 24); (120, 24); (120, 22)].

(** What [parse_line] looks at before it reads numbers: the line is not blank
    and has at least 7 tokens; the alert tokens are read when the first token
    contains a [Y] and there are at least 12 tokens; every token that is read
    as a number is one. *)
Definition enough_tokens (line : string) : bool :=
  truthy (strip line) && (7 <=? List.length (split line))%nat.
Definition has_alert (line : string) : bool :=
  contains "Y" (tok (split line) 0) && (12 <=? List.length (split line))%nat.
Definition numbers_parse (float : string -> option R) (line : string) : bool :=
  forallb (fun i => is_some (float (tok (split line) i)))
    (if has_alert line then [3; 4; 5; 6; 7; 8; 9; 10; 11] else [3; 4; 5; 6])%nat.

(** Lines for running the parser. *)
Definition header_line : string :=
  "Type ID Origin_Time Cat_Lon Cat_Lat Cat_Mag Cat_Depth".
Definition missed_line : string :=
  "oN 1001 2024-04-03T07:58:09 121.67 23.77 7.2 15.5".
Definition broken_line : string :=
  "oN 1002 2024-04-03T08:11:25 121.6x 23.8 5.1 10.0".
Definition detected_line : string :=
  "oY 1003 2024-04-03T08:11:25 121.0 23.0 5.5 10 121.1 23.05 5.3 12 8.0".
Definition leading_Y_line : string :=
  "Yo 1004 2024-04-03T08:35:36 121.6 23.8 5.1 10.0 121.7 23.9 5.0 12.0 8.0".
Definition no_boundary : Boundary := mkBoundary [] [] 1.0.

(** The record of the scenario: catalog (lon 121.0, lat 23.0, mag 5.5,
    depth 10), alert (lon 121.1, lat 23.05, mag 5.3, depth 12, processing
    time 8.0), a detected event. *)
Definition scenario_record : row :=
  mkRow "oY" "1003" "2024-04-03T08:11:25" 121.0 23.0 5.5 10
        (Some 121.1) (Some 23.05) (Some 5.3) (Some 12) (Some 8.0) None.

(** A second detected event, with processing time 10.0, and the analyzer
    after [calculate_errors] has run on the file of the two events. *)
Definition second_line : string :=
  "oY 1005 2024-04-03T09:02:11 121.5 24.0 5.0 20 121.6 24.1 5.4 15 10.0".
Definition second_record : row :=
  mkRow "oY" "1005" "2024-04-03T09:02:11" 121.5 24.0 5.0 20
        (Some 121.6) (Some 24.1) (Some 5.4) (Some 15) (Some 10.0) None.
Definition two_lines : list string := [header_line; detected_line; second_line].
Definition two_records : EEWSAnalyzer :=
  mkAnalyzer two_lines no_boundary
    (Some (Frame [scenario_record; second_record]))
    (Some [add_errors scenario_record; add_errors second_record]).

(** ** Further notions: distance scale *)

(** The two latitude-dependent coefficients of [calculate_distance], and the
    separation of two points in degrees. *)
Definition coef_a (avlat : R) : R :=
  1.840708 + avlat * (0.0015269 + avlat * (-0.00034 + avlat * 1.02337e-6)).
Definition coef_b (avlat : R) : R :=
  1.843404 + avlat * (-6.93799e-5 + avlat * (8.79993e-6 + avlat * (-6.47527e-8))).
Definition degrees_apart (lat1 lon1 lat2 lon2 : R) : R :=
  sqrt ((lon2 - lon1) * (lon2 - lon1) + (lat2 - lat1) * (lat2 - lat1)).


(** ** Further notions: boundary files and analysed frames *)

(** A line of the boundary file that yields a point: at least two tokens. *)
Definition has_point (line : string) : bool :=
  (2 <=? List.length (split line))%nat.

Definition lines_of (file : option (list string)) : list string :=
  match file with
  | Some lines => lines
  | None => []
  end.

(** A boundary file of three lines, the second one blank. *)
Definition boundary_lines : list string :=
  ["120.0 22.0"; ""; "122.0 24.0"]%string.

(** A row counts as detected in the statistics when its type contains [Y]
    and both alert coordinates are present. *)
Definition counted_detected (r : row) : bool :=
  contains "Y" (Type_ r) && is_some (EEW_Lat r) && is_some (EEW_Lon r).


(** The mean [get_statistics] reports for a dimension. *)
Definition reported_mean (d : dimension) (s : stats) : option R :=
  match d with
  | EpicenterError => epicenter_error_mean_km s
  | MagnitudeError => magnitude_error_mean s
  | DepthError => depth_error_mean_km s
  | ProcessingTime => processing_time_mean_s s
  end.

(** The analyzer after a caller has assigned a frame to [self.df]. *)
Definition set_df (d : DataFrame) (self : EEWSAnalyzer) : EEWSAnalyzer :=
  mkAnalyzer (data_lines self) (boundary self) (Some d) (df_analyzed self).


(** The missed event of [missed_line], and the analyzers after
    [calculate_errors] on a file with that event only and on a file with the
    scenario event only. *)
Definition missed_record : row :=
  mkRow "oN" "1001" "2024-04-03T07:58:09" 121.67 23.77 7.2 15.5
        None None None None None None.
Definition only_missed : EEWSAnalyzer :=
  mkAnalyzer [header_line; missed_line] no_boundary
    (Some (Frame [missed_record])) (Some []).
Definition one_record : EEWSAnalyzer :=
  mkAnalyzer [header_line; detected_line] no_boundary
    (Some (Frame [scenario_record])) (Some [add_errors scenario_record]).


(** ** Queries of the analyzer: filters and event lists *)

(** [df[mask]] for a row-wise condition on columns of the data file: the
    column lookup raises [KeyError] on a frame without columns. *)
Definition select (mask : row -> bool) (d : DataFrame) : result DataFrame :=
  match d with
  | NoColumns => Raise KeyError
  | Frame rows => Ok (Frame (filter mask rows))
  end.

(** [x >= y] and [x <= y] on floats are [Rleb y x] and [Rleb x y]. *)
Definition magnitude_mask (min_mag max_mag : R) (r : row) : bool :=
  Rleb min_mag (Cat_Mag r) && Rleb (Cat_Mag r) max_mag.
Definition depth_mask (max_depth : R) (r : row) : bool :=
  Rleb (Cat_Depth r) max_depth.
Definition region_mask (lon_range lat_range : R * R) (r : row) : bool :=
  Rleb (fst lon_range) (Cat_Lon r) && Rleb (Cat_Lon r) (snd lon_range)
  && Rleb (fst lat_range) (Cat_Lat r) && Rleb (Cat_Lat r) (snd lat_range).

(** [str.contains('Y')] and [str.contains('N|L')] on the type column. *)
Definition detected_mask (r : row) : bool := contains "Y" (Type_ r).
Definition missed_mask (r : row) : bool :=
  contains "N" (Type_ r) || contains "L" (Type_ r).

Section Queries.

Variable float : string -> option R.

(** [if self.df is None: self.load_data()], the first statement of every
    query, followed by the selection. *)
Definition query (mask : row -> bool) (self : EEWSAnalyzer)
  : result (DataFrame * EEWSAnalyzer) :=
  self <- (match df self with
           | None => r <- load_data float self ;; Ok (snd r)
           | Some _ => Ok self
           end) ;;
  match df self with
  | Some d => r <- select mask d ;; Ok (r, self)
  | None => Raise TypeError
  end.

(** [filter_by_magnitude], [filter_by_depth], [filter_by_region],
    [get_missed_events], [get_detected_events]. *)
Definition filter_by_magnitude (self : EEWSAnalyzer) (min_mag max_mag : R) :=
  query (magnitude_mask min_mag max_mag) self.
Definition filter_by_depth (self : EEWSAnalyzer) (max_depth : R) :=
  query (depth_mask max_depth) self.
Definition filter_by_region (self : EEWSAnalyzer) (lon_range lat_range : R * R) :=
  query (region_mask lon_range lat_range) self.
Definition get_missed_events (self : EEWSAnalyzer) := query missed_mask self.
Definition get_detected_events (self : EEWSAnalyzer) := query detected_mask self.

(** [analyzer.df = analyzer.filter_by_magnitude(a, b)] followed by
    [analyzer.df = analyzer.filter_by_depth(d)], as analyze_eews.py and
    examples.py chain them, and the two filters in the other order. *)
Definition magnitude_then_depth (self : EEWSAnalyzer) (min_mag max_mag max_depth : R)
  : result EEWSAnalyzer :=
  r <- filter_by_magnitude self min_mag max_mag ;;
  let self := set_df (fst r) (snd r) in
  r <- filter_by_depth self max_depth ;;
  Ok (set_df (fst r) (snd r)).
Definition depth_then_magnitude (self : EEWSAnalyzer) (min_mag max_mag max_depth : R)
  : result EEWSAnalyzer :=
  r <- filter_by_depth self max_depth ;;
  let self := set_df (fst r) (snd r) in
  r <- filter_by_magnitude self min_mag max_mag ;;
  Ok (set_df (fst r) (snd r)).

End Queries.


(** ** The main loop of ana_forplot.py *)

(** The script's module-level counters, lists and output files, by name.
    A line of an output file is kept as the list of numbers it is formatted
    from; [data.dat] receives the raw input line. *)
Inductive counter_var : Set := count_Y | count_N | count_L.

Inductive list_var : Set :=
| all_time | inland_time | offshore_time
| all_time_f42 | inland_time_f42 | offshore_time_f42
| inland_loc | offshore_loc | inland_loc_f42 | offshore_loc_f42
| miss_mag | miss_dep | loc_err | mag_err
| loc_inland_err | mag_inland_err | loc_offshore_err | mag_offshore_err
| loc_inland_err_f42 | mag_inland_err_f42
| loc_offshore_err_f42 | mag_offshore_err_f42
| arrmag_sd.

Inductive out_file : Set :=
| dis_pro_time   (* f1 *)
| miss           (* f3 *)
| dis_loc_err    (* f4 *)
| no             (* f5 *)
| yes            (* f6 *)
| cmag_emag      (* f8 *)
| pro_time_file (f : time_file).

Definition counter_var_eq_dec (a b : counter_var) : {a = b} + {a <> b}.
Proof. decide equality. Defined.
Definition list_var_eq_dec (a b : list_var) : {a = b} + {a <> b}.
Proof. decide equality. Defined.
Definition time_file_eq_dec (a b : time_file) : {a = b} + {a <> b}.
Proof. decide equality. Defined.
Definition out_file_eq_dec (a b : out_file) : {a = b} + {a <> b}.
Proof. decide equality. apply time_file_eq_dec. Defined.

Record script_state : Type := mkScript {
  counters : counter_var -> nat;
  lists : list_var -> list R;
  files : out_file -> list (list R);
  data_dat : list string
}.

(** The state before the loop: every counter 0, every list and file empty. *)
Definition script_start : script_state :=
  mkScript (fun _ => O) (fun _ => []) (fun _ => []) [].

(** [c += 1], [v.append(x)], [f.write(...)]. *)
Definition incr (c : counter_var) (st : script_state) : script_state :=
  mkScript (fun d => if counter_var_eq_dec d c then S (counters st d) else counters st d)
           (lists st) (files st) (data_dat st).
Definition append (v : list_var) (x : R) (st : script_state) : script_state :=
  mkScript (counters st)
           (fun w => if list_var_eq_dec w v then lists st w ++ [x] else lists st w)
           (files st) (data_dat st).
Definition write (f : out_file) (line : list R) (st : script_state) : script_state :=
  mkScript (counters st) (lists st)
           (fun g => if out_file_eq_dec g f then files st g ++ [line] else files st g)
           (data_dat st).
Definition write_data_dat (rr : string) (st : script_state) : script_state :=
  mkScript (counters st) (lists st) (files st) (data_dat st ++ [rr]).

(** The two exceptions that can stop the script, and its results. *)
Inductive script_exn : Set :=
| ScriptValueError   (* float() of a token that is no number *)
| ScriptIndexError.  (* a token or character that is not there *)

Inductive script_result (A : Type) : Type :=
| Returns (a : A)
| Raises (e : script_exn).
Arguments Returns {A} a.
Arguments Raises {A} e.

Definition script_bind {A B} (m : script_result A) (k : A -> script_result B)
  : script_result B :=
  match m with
  | Returns a => k a
  | Raises e => Raises e
  end.

Notation "x <~ m ;; k" := (script_bind m (fun x => k))
  (at level 61, m at next level, right associativity).

Section Script.

Variable float : string -> option R.

(** The boundary the script read from taiwan.txt before the loop. *)
Variables (tlon tlat : list R) (num_boundary : nat).

(** [float(qq[i])]. *)
Definition number_at (qq : list string) (i : nat) : script_result R :=
  match nth_error qq i with
  | None => Raises ScriptIndexError
  | Some t =>
      match float t with
      | Some v => Returns v
      | None => Raises ScriptValueError
      end
  end.

(** [rr[i]]. *)
Definition char_at (rr : string) (i : nat) : script_result ascii :=
  match String.get i rr with
  | Some c => Returns c
  | None => Raises ScriptIndexError
  end.

(** The six [if] statements on [pro_time]: one line per chosen file. *)
Definition write_time_files (lon1 lat1 pro_time : R) (st : script_state)
  : script_state :=
  fold_left (fun s f => write (pro_time_file f) [lon1; lat1; 0.03 * pro_time] s)
            (time_files pro_time) st.

(** The body of [if rr[1]== 'Y':].  A [continue] returns the state as it
    is. *)
Definition branch_Y (rr : string) (st : script_state) : script_result script_state :=
  let qq := split rr in
  lon1 <~ number_at qq 3 ;;
  lat1 <~ number_at qq 4 ;;
  mag1 <~ number_at qq 5 ;;
  dep1 <~ number_at qq 6 ;;
  lon2 <~ number_at qq 7 ;;
  lat2 <~ number_at qq 8 ;;
  mag2 <~ number_at qq 9 ;;
  if Rltb lat1 21.0 then Returns st else
  if Rgtb lat1 26.0 then Returns st else
  if Rltb lon1 119 then Returns st else
  if Rgtb lon1 123 then Returns st else
  if Rgtb dep1 40 then Returns st else
  if Rltb mag1 5.0 then Returns st else
  pro_time <~ number_at qq 11 ;;
  pro_time1 <~ (if (12 <? List.length qq)%nat then number_at qq 12 else Returns 0.0) ;;
  let dis := delaz lat1 lon1 lat2 lon2 in
  let diff := Rabs (mag1 - mag2) in
  let st := append arrmag_sd (diff * diff) st in
  let flag := check_seis_r tlon tlat lon1 lat1 num_boundary 1.0 in
  let st := incr count_Y st in
  let st := write_data_dat rr st in
  let st := write dis_pro_time [lon1; lat1; 0.03 * pro_time] st in
  let st := write dis_loc_err [lon1; lat1; 0.018 * dis; dis; dep1; mag1] st in
  let st := write yes [lon1; lat1; dep1; mag1] st in
  let st := write cmag_emag [mag1; mag2] st in
  let st := write_time_files lon1 lat1 pro_time st in
  let st := append loc_err dis st in
  let st := append mag_err diff st in
  let st := append all_time pro_time st in
  let st := if Rltb pro_time1 0.1 then st else append all_time_f42 pro_time1 st in
  let st :=
    if (flag =? 1)%Z then
      let st := append inland_time pro_time st in
      let st := append inland_loc dis st in
      let st := append loc_inland_err dis st in
      let st := append mag_inland_err (diff * diff) st in
      if Rltb pro_time1 0.1 then st
      else
        let st := append inland_time_f42 pro_time1 st in
        let st := append loc_inland_err_f42 dis st in
        append mag_inland_err_f42 (diff * diff) st
    else st in
  let st :=
    if negb (flag =? 1)%Z then
      let st := append offshore_time pro_time st in
      let st := append offshore_loc dis st in
      let st := append loc_offshore_err dis st in
      let st := append mag_offshore_err (diff * diff) st in
      if Rltb pro_time1 0.1 then st
      else
        let st := append offshore_time_f42 pro_time1 st in
        let st := append loc_offshore_err_f42 dis st in
        append mag_offshore_err_f42 (diff * diff) st
    else st in
  Returns st.

(** The bodies of [if rr[1]== 'N':] and [if rr[1]== 'L':]. *)
Definition branch_N (rr : string) (st : script_state) : script_result script_state :=
  let qq := split rr in
  lon1 <~ number_at qq 3 ;;
  lat1 <~ number_at qq 4 ;;
  mag1 <~ number_at qq 5 ;;
  dep1 <~ number_at qq 6 ;;
  let st := incr count_N st in
  Returns (write no [lon1; lat1; dep1; mag1] st).

Definition branch_L (rr : string) (st : script_state) : script_result script_state :=
  let qq := split rr in
  lon1 <~ number_at qq 3 ;;
  lat1 <~ number_at qq 4 ;;
  mag1 <~ number_at qq 5 ;;
  dep1 <~ number_at qq 6 ;;
  let st := incr count_L st in
  let st := write miss [lon1; lat1; dep1; mag1] st in
  let st := append miss_mag mag1 st in
  Returns (append miss_dep dep1 st).

(** One round of [for rr in file.readlines():].  The three tests of [rr[1]]
    exclude one another, so the [continue] statements of the first branch
    skip nothing that would run. *)
Definition script_step (rr : string) (st : script_state)
  : script_result script_state :=
  let qq11 := split rr in
  lonn1 <~ number_at qq11 3 ;;
  latt1 <~ number_at qq11 4 ;;
  magg1 <~ number_at qq11 5 ;;
  depp1 <~ number_at qq11 6 ;;
  if Rltb magg1 5.0 then Returns st else
  if Rgtb depp1 40.0 then Returns st else
  c <~ char_at rr 1 ;;
  st <~ (if Ascii.eqb c "Y" then branch_Y rr st else Returns st) ;;
  st <~ (if Ascii.eqb c "N" then branch_N rr st else Returns st) ;;
  if Ascii.eqb c "L" then branch_L rr st else Returns st.

(** The whole loop. *)
Fixpoint script_loop (lines : list string) (st : script_state)
  : script_result script_state :=
  match lines with
  | [] => Returns st
  | rr :: rest => st <~ script_step rr st ;; script_loop rest st
  end.

Definition script_run (lines : list string) : script_result script_state :=
  script_loop lines script_start.

End Script.

(** [ss2 = np.sqrt(np.mean(arrmag_sd))], the value written to
    [mag_line_std] and [mag_txt]. *)
Definition ss2 (st : script_state) : option R :=
  nan_sqrt (numpy_mean (lists st arrmag_sd)).

(** What holds between the counters, lists and files after every round. *)
Definition total_time_lines (st : script_state) : nat :=
  (List.length (files st (pro_time_file pro_time_05))
   + List.length (files st (pro_time_file pro_time_10))
   + List.length (files st (pro_time_file pro_time_15))
   + List.length (files st (pro_time_file pro_time_20))
   + List.length (files st (pro_time_file pro_time_25))
   + List.length (files st (pro_time_file pro_time_30)))%nat.

Record script_invariant (st : script_state) : Prop := mkInvariant {
  inv_all_time : List.length (lists st all_time) = counters st count_Y;
  inv_loc_err : List.length (lists st loc_err) = counters st count_Y;
  inv_mag_err : List.length (lists st mag_err) = counters st count_Y;
  inv_yes : List.length (files st yes) = counters st count_Y;
  inv_data_dat : List.length (data_dat st) = counters st count_Y;
  inv_split : (List.length (lists st inland_time)
               + List.length (lists st offshore_time))%nat = counters st count_Y;
  inv_time_files : total_time_lines st = counters st count_Y;
  inv_f42 : (List.length (lists st inland_time_f42)
             + List.length (lists st offshore_time_f42))%nat
            = List.length (lists st all_time_f42)
            /\ (List.length (lists st all_time_f42) <= counters st count_Y)%nat;
  inv_no : List.length (files st no) = counters st count_N;
  inv_miss : List.length (files st miss) = counters st count_L
             /\ List.length (lists st miss_mag) = counters st count_L
             /\ List.length (lists st miss_dep) = counters st count_L;
  inv_squares : lists st arrmag_sd = map (fun d => d * d) (lists st mag_err)
}.

(** The events written to the files [yes], [no] and [miss] passed the
    script's filters: magnitude at least 5 and depth at most 40 km, and for
    [yes] the box 119..123 by 21..26 degrees. *)
Definition strong_and_shallow (line : list R) : Prop :=
  exists lon lat dep mag,
    line = [lon; lat; dep; mag] /\ 5 <= mag /\ dep <= 40.
Definition in_study_box (line : list R) : Prop :=
  exists lon lat dep mag,
    line = [lon; lat; dep; mag] /\ 119 <= lon <= 123 /\ 21 <= lat <= 26.

Record script_filtered (st : script_state) : Prop := mkFiltered {
  flt_yes : Forall (fun l => strong_and_shallow l /\ in_study_box l) (files st yes);
  flt_no : Forall strong_and_shallow (files st no);
  flt_miss : Forall strong_and_shallow (files st miss)
}.


(** What one accepted detected event adds to the state. *)
Definition adds_detected (rr : string) (st st' : script_state) : Prop :=
  exists lon1 lat1 dep1 mag1 dis diff pro_time,
    counters st' count_Y = S (counters st count_Y)
    /\ counters st' count_N = counters st count_N
    /\ counters st' count_L = counters st count_L
    /\ lists st' all_time = lists st all_time ++ [pro_time]
    /\ lists st' loc_err = lists st loc_err ++ [dis]
    /\ lists st' mag_err = lists st mag_err ++ [diff]
    /\ lists st' arrmag_sd = lists st arrmag_sd ++ [diff * diff]
    /\ files st' yes = files st yes ++ [[lon1; lat1; dep1; mag1]]
    /\ data_dat st' = data_dat st ++ [rr]
    /\ (119 <= lon1 <= 123 /\ 21 <= lat1 <= 26 /\ dep1 <= 40 /\ 5 <= mag1)
    /\ ((lists st' inland_time = lists st inland_time ++ [pro_time]
         /\ lists st' offshore_time = lists st offshore_time)
        \/ (lists st' inland_time = lists st inland_time
            /\ lists st' offshore_time = lists st offshore_time ++ [pro_time]))
    /\ total_time_lines st' = S (total_time_lines st)
    /\ ((lists st' all_time_f42 = lists st all_time_f42
         /\ lists st' inland_time_f42 = lists st inland_time_f42
         /\ lists st' offshore_time_f42 = lists st offshore_time_f42)
        \/ (exists t1,
              lists st' all_time_f42 = lists st all_time_f42 ++ [t1]
              /\ ((lists st' inland_time_f42 = lists st inland_time_f42 ++ [t1]
                   /\ lists st' offshore_time_f42 = lists st offshore_time_f42)
                  \/ (lists st' inland_time_f42 = lists st inland_time_f42
                      /\ lists st' offshore_time_f42
                         = lists st offshore_time_f42 ++ [t1]))))
    /\ files st' no = files st no
    /\ files st' miss = files st miss
    /\ lists st' miss_mag = lists st miss_mag
    /\ lists st' miss_dep = lists st miss_dep.

(** What one accepted event without alert adds: to [no] (second character
    [N]) or to [miss] and the two lists of missed events ([L]). *)
Definition adds_no (st st' : script_state) : Prop :=
  exists lon1 lat1 dep1 mag1,
    5 <= mag1 /\ dep1 <= 40
    /\ counters st' count_N = S (counters st count_N)
    /\ counters st' count_Y = counters st count_Y
    /\ counters st' count_L = counters st count_L
    /\ lists st' = lists st /\ data_dat st' = data_dat st
    /\ files st' no = files st no ++ [[lon1; lat1; dep1; mag1]]
    /\ files st' yes = files st yes /\ files st' miss = files st miss
    /\ total_time_lines st' = total_time_lines st.

Definition adds_miss (st st' : script_state) : Prop :=
  exists lon1 lat1 dep1 mag1,
    5 <= mag1 /\ dep1 <= 40
    /\ counters st' count_L = S (counters st count_L)
    /\ counters st' count_Y = counters st count_Y
    /\ counters st' count_N = counters st count_N
    /\ lists st' miss_mag = lists st miss_mag ++ [mag1]
    /\ lists st' miss_dep = lists st miss_dep ++ [dep1]
    /\ (forall v, v <> miss_mag -> v <> miss_dep -> lists st' v = lists st v)
    /\ data_dat st' = data_dat st
    /\ files st' miss = files st miss ++ [[lon1; lat1; dep1; mag1]]
    /\ files st' yes = files st yes /\ files st' no = files st no
    /\ total_time_lines st' = total_time_lines st.


(** ** The analyzer cache of mcp_server/server.py *)

(** [_analyzer_cache], a dictionary from the path of a data file to the
    analyzer built for it. *)
Definition cache : Type := string -> option EEWSAnalyzer.

Definition empty_cache : cache := fun _ => None.

(** [_analyzer_cache[data_file] = analyzer], and likewise an assignment to
    an attribute of the analyzer the cache holds. *)
Definition store (data_file : string) (analyzer : EEWSAnalyzer) (c : cache) : cache :=
  fun k => if String.eqb k data_file then Some analyzer else c k.

(** The entries of [arguments] the statistics tools read; a key that is
    absent is [None]. *)
Record arguments : Type := mkArguments {
  data_file : option string;
  min_magnitude : option R;
  max_magnitude : option R;
  max_depth : option R
}.

(** [arguments.get(key, default)]. *)
Definition get_default (o : option R) (default : R) : R :=
  match o with
  | Some v => v
  | None => default
  end.

(** The tools that compute statistics.  The four tools
    [get_detection_statistics], [get_epicenter_error_statistics],
    [get_magnitude_error_statistics] and [get_processing_time_statistics] run
    the same statements and differ in the statistics they print. *)
Inductive tool : Set :=
| analyze_eews_data
| get_statistics_tool.

(** A response is kept as the statistics its text is formatted from, or as
    the exception the handler of [call_tool] turns into an error text. *)
Inductive response : Type :=
| Text (s : stats)
| Error (e : exn).

Section Server.

Variable float : string -> option R.

(** The lines of each data file, and the boundary [__init__] loads. *)
Variable read_lines : string -> list string.
Variable taiwan : Boundary.

(** [get_analyzer].  An exception leaves the cache as it was. *)
Definition get_analyzer (data_file : string) (c : cache)
  : result (EEWSAnalyzer * cache) :=
  match c data_file with
  | Some analyzer => Ok (analyzer, c)
  | None =>
      let analyzer := new_analyzer (read_lines data_file) taiwan in
      r <- load_data float analyzer ;;
      r <- calculate_errors float (snd r) ;;
      Ok (snd r, store data_file (snd r) c)
  end.

(** [analyzer.df = analyzer.filter_by_...(...)] followed by
    [analyzer.calculate_errors()], on the analyzer the cache holds: the
    second component is the analyzer as the last completed statement left
    it, whether an exception followed or not. *)
Definition narrow (filter_by : EEWSAnalyzer -> result (DataFrame * EEWSAnalyzer))
    (analyzer : EEWSAnalyzer) : result unit * EEWSAnalyzer :=
  match filter_by analyzer with
  | Raise e => (Raise e, analyzer)
  | Ok (d, analyzer) =>
      let analyzer := set_df d analyzer in
      match calculate_errors float analyzer with
      | Raise e => (Raise e, analyzer)
      | Ok (_, analyzer) => (Ok tt, analyzer)
      end
  end.

(** The branches of [call_tool] for the statistics tools, with the handler
    [except Exception] around them. *)
Definition call_tool (name : tool) (args : arguments) (c : cache)
  : response * cache :=
  match data_file args with
  | None => (Error KeyError, c)
  | Some file =>
      match get_analyzer file c with
      | Raise e => (Error e, c)
      | Ok (analyzer, c) =>
          match name with
          | analyze_eews_data =>
              let (r, analyzer) :=
                if is_some (min_magnitude args) || is_some (max_magnitude args)
                then
                  narrow (fun a => filter_by_magnitude float a
                                     (get_default (min_magnitude args) 0.0)
                                     (get_default (max_magnitude args) 10.0))
                         analyzer
                else (Ok tt, analyzer) in
              match r with
              | Raise e => (Error e, store file analyzer c)
              | Ok _ =>
                  let (r, analyzer) :=
                    match max_depth args with
                    | Some d => narrow (fun a => filter_by_depth float a d) analyzer
                    | None => (Ok tt, analyzer)
                    end in
                  match r with
                  | Raise e => (Error e, store file analyzer c)
                  | Ok _ =>
                      match get_statistics float analyzer with
                      | Raise e => (Error e, store file analyzer c)
                      | Ok (s, analyzer) => (Text s, store file analyzer c)
                      end
                  end
              end
          | get_statistics_tool =>
              match get_statistics float analyzer with
              | Raise e => (Error e, c)
              | Ok (s, analyzer) => (Text s, store file analyzer c)
              end
          end
      end
  end.

(** A session: the calls one after another on the same cache. *)
Fixpoint serve (calls : list (tool * arguments)) (c : cache)
  : list response * cache :=
  match calls with
  | [] => ([], c)
  | (name, args) :: rest =>
      let (r, c) := call_tool name args c in
      let (rs, c) := serve rest c in
      (r :: rs, c)
  end.

(** The records a statistics call on [file] would report on: those of the
    cached analyzer, or those of the file when no analyzer is cached. *)
Definition rows_served (c : cache) (file : string) : option (list row) :=
  match c file with
  | Some analyzer =>
      match df analyzer with
      | Some (Frame rows) => Some rows
      | _ => None
      end
  | None =>
      match load_data float (new_analyzer (read_lines file) taiwan) with
      | Ok (Frame rows, _) => Some rows
      | _ => None
      end
  end.

End Server.

(** The condition one call asks for, and the conditions all the
    [analyze_eews_data] calls of a session ask for on one file. *)
Definition requested (args : arguments) (r : row) : bool :=
  (if is_some (min_magnitude args) || is_some (max_magnitude args)
   then magnitude_mask (get_default (min_magnitude args) 0.0)
                       (get_default (max_magnitude args) 10.0) r
   else true)
  && match max_depth args with
     | Some d => depth_mask d r
     | None => true
     end.

Definition asks_on (file : string) (call : tool * arguments) : bool :=
  match call with
  | (analyze_eews_data, args) =>
      match data_file args with
      | Some f => String.eqb f file
      | None => false
      end
  | (get_statistics_tool, _) => false
  end.

Fixpoint requested_all (file : string) (calls : list (tool * arguments))
    (r : row) : bool :=
  match calls with
  | [] => true
  | call :: rest =>
      (if asks_on file call then requested (snd call) r else true)
      && requested_all file rest r
  end.


(** The error columns [calculate_errors] computes for a frame, and a cache
    whose analyzers all hold a frame together with the error columns of that
    same frame. *)
Definition analysis_of (rows : list row) : list arow :=
  map add_errors (filter (fun r => contains "Y" (Type_ r)) rows).

Definition consistent (c : cache) : Prop :=
  forall file analyzer,
    c file = Some analyzer ->
    exists rows,
      df analyzer = Some (Frame rows)
      /\ df_analyzed analyzer = Some (analysis_of rows).

(** The condition a call puts on the records of [file]. *)
Definition condition (file : string) (call : tool * arguments) (r : row) : bool :=
  if asks_on file call then requested (snd call) r else true.

(** A statistics call on [file] without filters. *)
Definition statistics_of (file : string) : arguments :=
  mkArguments (Some file) None None None.


(** ** The dashboard (app.py) and the summary script
       (analyze_2014_2024_summary.py) *)

(** The seven conditions of [load_and_analyze_data], and the six of the
    summary script, whose magnitude and depth bounds are strict. *)
Definition dashboard_mask (min_mag max_mag max_depth min_lon max_lon min_lat max_lat : R)
    (r : row) : bool :=
  Rleb min_mag (Cat_Mag r) && Rleb (Cat_Mag r) max_mag
  && Rleb (Cat_Depth r) max_depth
  && Rleb min_lon (Cat_Lon r) && Rleb (Cat_Lon r) max_lon
  && Rleb min_lat (Cat_Lat r) && Rleb (Cat_Lat r) max_lat.

Definition summary_mask (r : row) : bool :=
  Rgtb (Cat_Mag r) 5.0 && Rltb (Cat_Depth r) 40.0
  && Rleb 119.0 (Cat_Lon r) && Rleb (Cat_Lon r) 123.0
  && Rleb 21.0 (Cat_Lat r) && Rleb (Cat_Lat r) 26.0.

(** The numbers of the summary script's overall statistics:
    [filtered_count], [len(df_detected)], their difference, the alert rate,
    [len(df_inland)] and [len(df_offshore)]. *)
Record summary : Type := mkSummary {
  filtered_count : nat;
  alerts_issued : nat;
  alerts_missed : Z;
  alert_rate : R;
  inland_alerts : nat;
  offshore_alerts : nat
}.

Section Callers.

Variable float : string -> option R.

(** [load_and_analyze_data] of app.py.  [file] is [None] when the path
    does not exist and the lines of the file otherwise; the result [None] is
    the pair [None, None]. *)
Definition load_and_analyze_data (file : option (list string)) (taiwan : Boundary)
    (min_mag max_mag max_depth min_lon max_lon min_lat max_lat : R)
  : result (option (EEWSAnalyzer * stats)) :=
  match file with
  | None => Ok None
  | Some lines =>
      r <- load_data float (new_analyzer lines taiwan) ;;
      let analyzer := snd r in
      d <- (match df analyzer with
            | Some d =>
                select (dashboard_mask min_mag max_mag max_depth
                          min_lon max_lon min_lat max_lat) d
            | None => Raise TypeError
            end) ;;
      let analyzer := set_df d analyzer in
      r <- calculate_errors float analyzer ;;
      r <- get_statistics float (snd r) ;;
      Ok (Some (snd r, fst r))
  end.

(** [main] of the summary script up to its overall statistics.  The
    result [None] is the early [return] after the warning that no event
    passed the filters.  The column [Is_Inland] is in the frame exactly when
    the analyzer has boundary points. *)
Definition summary_main (lines : list string) (taiwan : Boundary)
  : result (option summary) :=
  r <- load_data float (new_analyzer lines taiwan) ;;
  let analyzer := snd r in
  d <- (match df analyzer with
        | Some d => select summary_mask d
        | None => Raise TypeError
        end) ;;
  let analyzer := set_df d analyzer in
  let filtered_count := len d in
  if (filtered_count =? 0)%nat then Ok None
  else
    r <- calculate_errors float analyzer ;;
    match df_analyzed (snd r) with
    | None => Raise TypeError
    | Some df_detected =>
        let classified :=
          match boundary_lons (boundary (snd r)) with
          | [] => false
          | _ :: _ => true
          end in
        let df_inland :=
          if classified then filter (is_inland_eq true) df_detected else [] in
        let df_offshore :=
          if classified then filter (is_inland_eq false) df_detected else [] in
        rate <- truediv (List.length df_detected) filtered_count ;;
        Ok (Some (mkSummary filtered_count (List.length df_detected)
                    (Z.of_nat filtered_count - Z.of_nat (List.length df_detected))%Z
                    (rate * 100)
                    (List.length df_inland) (List.length df_offshore)))
    end.

End Callers.


(** * Properties *)

(** ** Comparisons *)

Lemma Rltb_true (x y : R) : Rltb x y = true <-> x < y.
Proof.
  unfold Rltb. destruct (Rlt_dec x y); split; intros; try easy; lra.
Qed.

Lemma Rltb_false (x y : R) : Rltb x y = false <-> y <= x.
Proof.
  unfold Rltb. destruct (Rlt_dec x y); split; intros; try easy; lra.
Qed.

Lemma Rleb_true (x y : R) : Rleb x y = true <-> x <= y.
Proof.
  unfold Rleb. destruct (Rle_dec x y); split; intros; try easy; lra.
Qed.

Lemma Rleb_false (x y : R) : Rleb x y = false <-> y < x.
Proof.
  unfold Rleb. destruct (Rle_dec x y); split; intros; try easy; lra.
Qed.

Ltac Rbool :=
  repeat match goal with
  | |- Rltb _ _ = true => apply Rltb_true
  | |- Rltb _ _ = false => apply Rltb_false
  | |- Rgtb _ _ = true => unfold Rgtb; apply Rltb_true
  | |- Rgtb _ _ = false => unfold Rgtb; apply Rltb_false
  | |- Rleb _ _ = true => apply Rleb_true
  | |- Rleb _ _ = false => apply Rleb_false
  end.

(** ** Planar distance *)

Lemma delaz_calculate_distance (elat elon slat slon : R) :
  delaz elat elon slat slon = calculate_distance elat elon slat slon.
Proof. reflexivity. Qed.

Lemma calculate_distance_nonneg (lat1 lon1 lat2 lon2 : R) :
  0 <= calculate_distance lat1 lon1 lat2 lon2.
Proof. unfold calculate_distance. apply sqrt_pos. Qed.

Lemma calculate_distance_self (lat lon : R) :
  calculate_distance lat lon lat lon = 0.
Proof.
  unfold calculate_distance.
  replace (lon - lon) with 0 by ring.
  replace (lat - lat) with 0 by ring.
  rewrite !Rmult_0_r, !Rmult_0_l, Rplus_0_r. apply sqrt_0.
Qed.

(** C10. [calculate_distance] (and with it [delaz]) gives the same value when
    the two points are exchanged, each point keeping its (lat, lon) order. *)
Theorem calculate_distance_symmetric (lat1 lon1 lat2 lon2 : R) :
  calculate_distance lat1 lon1 lat2 lon2 = calculate_distance lat2 lon2 lat1 lon1
  /\ delaz lat1 lon1 lat2 lon2 = delaz lat2 lon2 lat1 lon1.
Proof.
  assert (H : calculate_distance lat1 lon1 lat2 lon2
              = calculate_distance lat2 lon2 lat1 lon1).
  { unfold calculate_distance.
    replace (0.5 * (lat2 + lat1)) with (0.5 * (lat1 + lat2)) by ring.
    set (avlat := 0.5 * (lat1 + lat2)).
    set (a := 1.840708 + _). set (b := 1.843404 + _).
    f_equal. ring. }
  split; [exact H | rewrite !delaz_calculate_distance; exact H].
Qed.

(** ** The two classifier loops *)

Lemma check_inland_loop_scan (self : Boundary) (lon lat : R) (idx : list nat) :
  forall sta,
    check_inland_loop self lon lat idx sta
    = scan (near_coast_line_dis self) lon lat
        (points_at (boundary_lons self) (boundary_lats self) idx) sta.
Proof.
  induction idx as [|i rest IH]; intros sta; simpl; [reflexivity|].
  rewrite IH. reflexivity.
Qed.

Lemma points_at_all (pts : list (R * R)) :
  points_at (map fst pts) (map snd pts) (seq 0 (List.length pts)) = pts.
Proof.
  unfold points_at. induction pts as [|[x y] pts IH]; simpl; [reflexivity|].
  f_equal. rewrite <- seq_shift, map_map. exact IH.
Qed.

Lemma points_at_tail (p : R * R) (pts : list (R * R)) :
  points_at (map fst (p :: pts)) (map snd (p :: pts)) (seq 1 (List.length pts))
  = pts.
Proof.
  unfold points_at. rewrite <- seq_shift, map_map. simpl.
  apply (points_at_all pts).
Qed.

Lemma set_flags_flags (x y dist r : R) (a b c d e : bool) :
  set_flags x y dist r (flags a b c d e)
  = flags (a || (Rgtb x 0 && Rgtb y 0)) (b || (Rltb x 0 && Rltb y 0))
          (c || (Rgtb x 0 && Rltb y 0)) (d || (Rltb x 0 && Rgtb y 0))
          (e || Rltb dist r).
Proof.
  unfold set_flags, flags.
  destruct (Rgtb x 0 && Rgtb y 0), (Rltb x 0 && Rltb y 0),
           (Rgtb x 0 && Rltb y 0), (Rltb x 0 && Rgtb y 0), (Rltb dist r);
    simpl; rewrite ?orb_true_r, ?orb_false_r; reflexivity.
Qed.

Lemma exit_test_flags (a b c d e : bool) :
  exit_test (flags a b c d e) = (a && b && c && d) || e.
Proof. destruct a, b, c, d, e; reflexivity. Qed.

Lemma test_stays_passed (a b c d e A B C D E : bool) :
  (a && b && c && d) || e = true ->
  ((a || A) && (b || B) && (c || C) && (d || D)) || (e || E) = true.
Proof.
  destruct a, b, c, d, e; simpl; try discriminate; intros _;
    rewrite ?orb_true_r; reflexivity.
Qed.

(** The loop leaves with 1 exactly when the flags gathered over all points
    pass the test: flags are only ever set, so a test passed after some round
    is still passed by the flags of the whole list. *)
Lemma scan_flags (r lon lat : R) (pts : list (R * R)) :
  forall a b c d e,
    (a && b && c && d) || e = false ->
    scan r lon lat pts (flags a b c d e)
    = Z.b2z (((a || existsb (in_NE lon lat) pts) && (b || existsb (in_SW lon lat) pts)
              && (c || existsb (in_SE lon lat) pts) && (d || existsb (in_NW lon lat) pts))
             || (e || existsb (is_near r lon lat) pts)).
Proof.
  induction pts as [|p pts IH]; intros a b c d e Hq.
  - simpl. rewrite !orb_false_r, Hq. reflexivity.
  - cbn [scan existsb]. rewrite set_flags_flags, exit_test_flags.
    fold (in_NE lon lat p) (in_SW lon lat p) (in_SE lon lat p) (in_NW lon lat p)
         (is_near r lon lat p).
    rewrite (orb_assoc a), (orb_assoc b), (orb_assoc c), (orb_assoc d), (orb_assoc e).
    destruct ((a || in_NE lon lat p) && (b || in_SW lon lat p)
              && (c || in_SE lon lat p) && (d || in_NW lon lat p)
              || (e || is_near r lon lat p)) eqn:Hq'.
    + rewrite test_stays_passed by exact Hq'. reflexivity.
    + rewrite IH by exact Hq'. reflexivity.
Qed.

Lemma scan_zeros (r lon lat : R) (pts : list (R * R)) :
  scan r lon lat pts [0; 0; 0; 0; 0]%Z = Z.b2z (surrounded_or_near r lon lat pts).
Proof.
  change [0; 0; 0; 0; 0]%Z with (flags false false false false false).
  rewrite scan_flags by reflexivity. reflexivity.
Qed.

Lemma b2z_eqb_1 (b : bool) : (Z.b2z b =? 1)%Z = b.
Proof. destruct b; reflexivity. Qed.

(** What [check_inland] computes, on the boundary of a run. *)
Lemma check_inland_spec (p : R * R) (pts : list (R * R)) (lon lat : R) :
  check_inland (boundary_of (p :: pts)) lon lat
  = Some (surrounded_or_near 1.0 lon lat (p :: pts)).
Proof.
  unfold check_inland. cbn [boundary_of boundary_lons map].
  rewrite check_inland_loop_scan. unfold range. rewrite Nat.sub_0_r.
  change (fst p :: map fst pts) with (map fst (p :: pts)).
  unfold boundary_of. cbn [boundary_lons boundary_lats near_coast_line_dis].
  rewrite length_map, points_at_all, scan_zeros, b2z_eqb_1. reflexivity.
Qed.

Lemma upd_length (i : nat) (v : Z) (l : list Z) :
  List.length (upd i v l) = List.length l.
Proof.
  revert i; induction l as [|h t IH]; intros [|i]; simpl; auto.
Qed.

Lemma set_flags_length (x y dist r : R) (sta : list Z) :
  List.length (set_flags x y dist r sta) = List.length sta.
Proof.
  unfold set_flags.
  repeat match goal with
         | |- context [if ?c then _ else _] => destruct c
         end; rewrite ?upd_length; reflexivity.
Qed.

Ltac five sta H :=
  destruct sta as [|? [|? [|? [|? [|? [|? ?]]]]]]; try discriminate H.

Lemma set_flags_app (x y dist r : R) (sta tail : list Z) :
  List.length sta = 5%nat ->
  set_flags x y dist r (sta ++ tail) = set_flags x y dist r sta ++ tail.
Proof.
  intros H. five sta H. unfold set_flags.
  repeat match goal with
         | |- context [if ?c then _ else _] => destruct c
         end; reflexivity.
Qed.

Lemma exit_test_app (sta tail : list Z) :
  List.length sta = 5%nat -> exit_test (sta ++ tail) = exit_test sta.
Proof. intros H. five sta H. reflexivity. Qed.

(** The zeros [check_seis_r] appends land behind the five flags in use and
    are never read: its loop is the same scan. *)
Lemma check_seis_r_loop_scan (tlon tlat : list R) (elon elat r : R)
    (idx : list nat) :
  forall sta tail,
    List.length sta = 5%nat ->
    check_seis_r_loop tlon tlat elon elat r idx (sta ++ tail)
    = scan r elon elat (points_at tlon tlat idx) sta.
Proof.
  induction idx as [|i rest IH]; intros sta tail H; [reflexivity|].
  cbn [check_seis_r_loop points_at map scan fst snd].
  rewrite <- app_assoc, delaz_calculate_distance, set_flags_app, exit_test_app
    by (rewrite ?set_flags_length; exact H).
  destruct (exit_test _); [reflexivity|].
  apply IH. rewrite set_flags_length. exact H.
Qed.

Lemma check_seis_r_scan (tlon tlat : list R) (elon elat : R) (n : nat) (r : R) :
  check_seis_r tlon tlat elon elat n r
  = scan r elon elat (points_at tlon tlat (range 1 n)) [0; 0; 0; 0; 0]%Z.
Proof.
  unfold check_seis_r. destruct (range 1 n) as [|i rest]; [reflexivity|].
  cbn [check_seis_r_loop points_at map scan fst snd app].
  rewrite delaz_calculate_distance.
  destruct (exit_test _); [reflexivity|].
  rewrite <- (app_nil_r (set_flags _ _ _ _ _)) at 1.
  apply check_seis_r_loop_scan. apply set_flags_length.
Qed.

(** What [check_seis_r] computes when called as the script calls it: the
    first boundary point is never looked at. *)
Lemma check_seis_r_spec (pts : list (R * R)) (lon lat r : R) :
  check_seis_r (map fst pts) (map snd pts) lon lat (List.length pts) r
  = Z.b2z (surrounded_or_near r lon lat (tl pts)).
Proof.
  rewrite check_seis_r_scan. destruct pts as [|p pts]; [reflexivity|].
  unfold range. cbn [List.length tl]. rewrite Nat.sub_succ, Nat.sub_0_r.
  rewrite points_at_tail. apply scan_zeros.
Qed.

Lemma existsb_same_elements {A} (f : A -> bool) (l l' : list A) :
  (forall x, In x l <-> In x l') -> existsb f l = existsb f l'.
Proof.
  intros H. apply eq_true_iff_eq. rewrite !existsb_exists.
  split; intros [x [Hx Hf]]; exists x; split; auto; apply H; exact Hx.
Qed.

(** The classification is a function of the set of boundary points. *)
Lemma surrounded_or_near_same_elements (r lon lat : R) (pts pts' : list (R * R)) :
  (forall p, In p pts <-> In p pts') ->
  surrounded_or_near r lon lat pts = surrounded_or_near r lon lat pts'.
Proof.
  intros H. unfold surrounded_or_near, all_quadrants.
  rewrite (existsb_same_elements (in_NE lon lat) _ _ H),
          (existsb_same_elements (in_SW lon lat) _ _ H),
          (existsb_same_elements (in_SE lon lat) _ _ H),
          (existsb_same_elements (in_NW lon lat) _ _ H),
          (existsb_same_elements (is_near r lon lat) _ _ H).
  reflexivity.
Qed.

(** C6. On a non-empty boundary [check_inland] returns the truth value of
    "all four quadrant sign patterns occur among the boundary-point offsets,
    or some boundary point is nearer than 1.0 km", and the value does not
    change when the boundary points are permuted. *)
Theorem check_inland_order_independent (lon lat : R) (pts pts' : list (R * R)) :
  pts <> [] ->
  Permutation pts pts' ->
  check_inland (boundary_of pts) lon lat = Some (surrounded_or_near 1.0 lon lat pts)
  /\ check_inland (boundary_of pts') lon lat = check_inland (boundary_of pts) lon lat.
Proof.
  intros Hne Hperm.
  assert (Hne' : pts' <> []).
  { intros ->. apply Permutation_sym, Permutation_nil in Hperm. exact (Hne Hperm). }
  destruct pts as [|p pts]; [contradiction|].
  destruct pts' as [|p' pts']; [contradiction|].
  rewrite !check_inland_spec. split; [reflexivity|].
  f_equal. apply surrounded_or_near_same_elements.
  intros q; split; apply Permutation_in;
    [apply Permutation_sym|]; exact Hperm.
Qed.

Lemma check_inland_order_independent_witness :
  check_inland (boundary_of [(120, 22); (122, 24)]) 121 23
  = Some (surrounded_or_near 1.0 121 23 [(120, 22); (122, 24)])
  /\ check_inland (boundary_of [(122, 24); (120, 22)]) 121 23
     = check_inland (boundary_of [(120, 22); (122, 24)]) 121 23.
Proof.
  apply check_inland_order_independent; [discriminate | apply perm_swap].
Defined.

(** ** Deciding comparisons on given numbers *)

Lemma calculate_distance_sqrt (lat1 lon1 lat2 lon2 : R) :
  calculate_distance lat1 lon1 lat2 lon2
  = sqrt (squared_distance lat1 lon1 lat2 lon2).
Proof. reflexivity. Qed.

Lemma squared_distance_nonneg (lat1 lon1 lat2 lon2 : R) :
  0 <= squared_distance lat1 lon1 lat2 lon2.
Proof.
  unfold squared_distance. cbv zeta.
  apply Rplus_le_le_0_compat; apply Rle_0_sqr.
Qed.

Lemma distance_ge (lat1 lon1 lat2 lon2 r : R) :
  0 <= r -> r * r <= squared_distance lat1 lon1 lat2 lon2 ->
  r <= calculate_distance lat1 lon1 lat2 lon2.
Proof.
  intros Hr H. rewrite calculate_distance_sqrt.
  rewrite <- (sqrt_square r Hr). apply sqrt_le_1_alt. exact H.
Qed.

Lemma distance_pos (lat1 lon1 lat2 lon2 : R) :
  0 < squared_distance lat1 lon1 lat2 lon2 ->
  0 < calculate_distance lat1 lon1 lat2 lon2.
Proof. intros H. rewrite calculate_distance_sqrt. apply sqrt_lt_R0. exact H. Qed.

Lemma is_near_false (r lon lat : R) (p : R * R) :
  0 <= r -> r * r <= squared_distance lat lon (snd p) (fst p) ->
  is_near r lon lat p = false.
Proof.
  intros Hr H. unfold is_near. apply Rltb_false. apply distance_ge; assumption.
Qed.

(** Rewrites every comparison of two given numbers to its truth value. *)
Ltac Rdecide :=
  unfold Rgtb in *;
  repeat (progress (
    cbn [andb orb xorb negb fst snd];
    try match goal with
    | |- context [Rltb ?x ?y] =>
        first [ rewrite (proj2 (Rltb_true x y)) by lra
              | rewrite (proj2 (Rltb_false x y)) by lra ]
    | |- context [Rleb ?x ?y] =>
        first [ rewrite (proj2 (Rleb_true x y)) by lra
              | rewrite (proj2 (Rleb_false x y)) by lra ]
    end)).

Lemma distance_gt (lat1 lon1 lat2 lon2 r : R) :
  0 <= r -> r * r < squared_distance lat1 lon1 lat2 lon2 ->
  r < calculate_distance lat1 lon1 lat2 lon2.
Proof.
  intros Hr H. rewrite calculate_distance_sqrt.
  rewrite <- (sqrt_square r Hr). apply sqrt_lt_1_alt. split; [nra | exact H].
Qed.

Lemma existsb_false {A} (f : A -> bool) (l : list A) :
  (forall x, In x l -> f x = false) -> existsb f l = false.
Proof.
  intros H. induction l as [|x l IH]; [reflexivity|]. simpl.
  rewrite (H x (or_introl eq_refl)), IH; [reflexivity|].
  intros y Hy. apply H. right. exact Hy.
Qed.

(** C7. A boundary whose first point alone decides: the candidate point
    coincides with the first boundary point, the second one is far away.
    [check_inland] answers inland, [check_seis_r], called with
    [num_boundary] the number of points and the threshold 1.0, answers 0:
    its loop starts at index 1. *)
Theorem check_seis_r_skips_first_point :
  check_inland (boundary_of [(121, 23); (130, 30)]) 121 23 = Some true
  /\ check_seis_r [121; 130] [23; 30] 121 23 2 1.0 = 0%Z.
Proof.
  split.
  - rewrite check_inland_spec. f_equal.
    unfold surrounded_or_near. cbn [existsb].
    assert (H : is_near 1.0 121 23 (121, 23) = true).
    { unfold is_near. cbn [fst snd]. rewrite calculate_distance_self.
      apply Rltb_true. lra. }
    rewrite H. apply orb_true_r.
  - change [121; 130] with (map fst [(121, 23); (130, 30)]).
    change [23; 30] with (map snd [(121, 23); (130, 30)]).
    change 2%nat with (List.length [(121, 23); (130, 30)]).
    rewrite check_seis_r_spec. cbn [tl].
    unfold surrounded_or_near, all_quadrants. cbn [existsb].
    rewrite is_near_false.
    + unfold in_NE, in_SW, in_SE, in_NW. cbn [fst snd]. Rdecide. reflexivity.
    + lra.
    + unfold squared_distance. cbn [fst snd]. lra.
Qed.

(** ** Rings and far points *)

(** The claim of C5 fails on a triangle: a ring of three corners never shows
    four sign patterns, so its interior point (121, 23), more than 100 km
    from every corner, is classified offshore. *)
Lemma triangle_interior_classified_offshore :
  closed_ring triangle
  /\ strictly_inside 121 23 triangle
  /\ check_inland (boundary_of triangle) 121 23 = Some false.
Proof.
  unfold triangle. split; [|split].
  - split; [simpl; lia | reflexivity].
  - split.
    + cbn [crossings]. unfold crosses. Rdecide. reflexivity.
    + cbn [on_ring]. unfold on_segment. cbn [fst snd].
      intros [H | [H | [H | []]]]; destruct H as [t [Ht [H1 H2]]]; lra.
  - rewrite check_inland_spec. f_equal.
    unfold surrounded_or_near, all_quadrants. cbn [existsb].
    rewrite !is_near_false;
      try (unfold squared_distance; cbn [fst snd]; lra).
    unfold in_NE, in_SW, in_SE, in_NW. Rdecide. reflexivity.
Qed.

(** C5 (amended). On a non-empty boundary, a closed ring in particular,
    [check_inland] returns true for every point that has boundary points in
    all four open quadrants around it or a boundary point nearer than 1.0 km;
    it returns false for every point that is farther than 1.0 km from every
    boundary point and outside the bounding box on at least one axis. *)
Theorem check_inland_surrounded_or_far (lon lat : R) (pts : list (R * R)) :
  pts <> [] ->
  ((all_quadrants lon lat pts = true
    \/ (exists p, In p pts /\ calculate_distance lat lon (snd p) (fst p) < 1.0)) ->
   check_inland (boundary_of pts) lon lat = Some true)
  /\ (outside_box lon lat pts ->
      (forall p, In p pts -> calculate_distance lat lon (snd p) (fst p) > 1.0) ->
      check_inland (boundary_of pts) lon lat = Some false).
Proof.
  intros Hne. destruct pts as [|p0 pts]; [contradiction|].
  rewrite check_inland_spec. unfold surrounded_or_near. split.
  - intros [H | [p [Hin Hp]]]; f_equal.
    + rewrite H. reflexivity.
    + apply orb_true_iff. right. apply existsb_exists. exists p.
      split; [exact Hin|]. unfold is_near. apply Rltb_true. exact Hp.
  - intros Hbox Hfar. f_equal. apply orb_false_iff. split.
    + unfold all_quadrants.
      destruct Hbox as [H | [H | [H | H]]].
      * rewrite (existsb_false (in_NE lon lat)); [reflexivity|].
        intros p Hp. specialize (H p Hp). unfold in_NE, Rgtb.
        rewrite (proj2 (Rltb_false 0 (fst p - lon))) by lra. reflexivity.
      * rewrite (existsb_false (in_SW lon lat)); [rewrite andb_false_r; reflexivity|].
        intros p Hp. specialize (H p Hp). unfold in_SW.
        rewrite (proj2 (Rltb_false (fst p - lon) 0)) by lra. reflexivity.
      * rewrite (existsb_false (in_NE lon lat)); [reflexivity|].
        intros p Hp. specialize (H p Hp). unfold in_NE, Rgtb.
        rewrite (proj2 (Rltb_false 0 (snd p - lat))) by lra. apply andb_false_r.
      * rewrite (existsb_false (in_SW lon lat)); [rewrite andb_false_r; reflexivity|].
        intros p Hp. specialize (H p Hp). unfold in_SW.
        rewrite (proj2 (Rltb_false (snd p - lat) 0)) by lra. apply andb_false_r.
    + apply existsb_false. intros p Hp. specialize (Hfar p Hp).
      unfold is_near. apply Rltb_false. lra.
Qed.

Lemma check_inland_surrounded_or_far_witness :
  check_inland (boundary_of square) 121 23 = Some true
  /\ check_inland (boundary_of square) 125 23 = Some false.
Proof.
  assert (Hne : square <> []) by discriminate.
  split.
  - apply (proj1 (check_inland_surrounded_or_far 121 23 square Hne)).
    left. unfold square, all_quadrants, in_NE, in_SW, in_SE, in_NW.
    cbn [existsb]. Rdecide. reflexivity.
  - apply (proj2 (check_inland_surrounded_or_far 125 23 square Hne)).
    + left. unfold square. intros p Hp. cbn [In] in Hp.
      repeat (destruct Hp as [<- | Hp]; [cbn [fst]; lra|]). contradiction.
    + unfold square. intros p Hp. cbn [In] in Hp.
      repeat (destruct Hp as [<- | Hp];
              [apply Rlt_gt, distance_gt;
               [lra | unfold squared_distance; cbn [fst snd]; lra]|]).
      contradiction.
Defined.

(** ** The record parser *)

Section ParserFacts.

Variable float : string -> option R.

(** Every boundary the constructor builds is a list of points: the two
    coordinate lists are filled in lockstep. *)
Lemma read_boundary_points (lines : list string) :
  forall pts lons lats,
    read_boundary float lines (map fst pts) (map snd pts) = Ok (lons, lats) ->
    exists pts', lons = map fst pts' /\ lats = map snd pts'.
Proof.
  induction lines as [|line rest IH]; intros pts lons lats H;
    cbn [read_boundary] in H.
  - injection H as <- <-. exists pts. split; reflexivity.
  - destruct (2 <=? List.length (split line))%nat; [|exact (IH _ _ _ H)].
    unfold bind, to_float in H.
    destruct (float (tok (split line) 0)) as [lon|]; [|discriminate H].
    destruct (float (tok (split line) 1)) as [lat|]; [|discriminate H].
    apply (IH (pts ++ [(lon, lat)])). rewrite !map_app. exact H.
Qed.

Lemma load_boundary_data_points (boundary_file : option (list string))
    (b : Boundary) :
  load_boundary_data float boundary_file = Ok b ->
  exists pts, b = boundary_of pts.
Proof.
  destruct boundary_file as [lines|]; simpl.
  - unfold bind. destruct (read_boundary float lines [] []) as [[lons lats]|] eqn:E;
      [|discriminate].
    intros H. injection H as <-.
    destruct (read_boundary_points lines [] lons lats E) as [pts [-> ->]].
    exists pts. reflexivity.
  - intros H. injection H as <-. exists []. reflexivity.
Qed.

(** A missing boundary file leaves the analyzer without boundary. *)
Lemma load_boundary_data_missing_file :
  load_boundary_data float None = Ok no_boundary.
Proof. reflexivity. Qed.

(** The three ways one line can go. *)
Lemma parse_line_cases (line : string) :
  (enough_tokens line = false /\ parse_line float line = Ok None)
  \/ (enough_tokens line = true /\ numbers_parse float line = false
      /\ parse_line float line = Raise ValueError)
  \/ (enough_tokens line = true /\ numbers_parse float line = true
      /\ exists r, parse_line float line = Ok (Some r)
           /\ Is_Inland r = None
           /\ (has_alert line = true ->
               EEW_Lon r = float (tok (split line) 7)
               /\ EEW_Lat r = float (tok (split line) 8)
               /\ EEW_Mag r = float (tok (split line) 9)
               /\ EEW_Depth r = float (tok (split line) 10)
               /\ Processing_Time r = float (tok (split line) 11)
               /\ alert_populated r)
           /\ (has_alert line = false -> alert_missing r)).
Proof.
  unfold parse_line, enough_tokens, numbers_parse, has_alert, to_float, bind.
  destruct (truthy (strip line)); [|left; split; reflexivity].
  destruct (7 <=? List.length (split line))%nat; [|left; split; reflexivity].
  right. cbn [andb].
  destruct (contains "Y" (tok (split line) 0) && (12 <=? List.length (split line))%nat);
    cbn [forallb];
    repeat match goal with
           | |- context [float ?s] =>
               let E := fresh "E" in
               destruct (float s) eqn:E; cbn [is_some andb];
               [| left; repeat split; reflexivity]
           end;
    right; (split; [reflexivity|]); (split; [reflexivity|]);
    eexists; (split; [reflexivity|]); cbn;
    (split; [reflexivity|]); split; intros H; try discriminate H;
    unfold alert_populated, alert_missing; cbn; repeat split; reflexivity.
Qed.

Lemma parse_line_Is_Inland (line : string) (r : row) :
  parse_line float line = Ok (Some r) -> Is_Inland r = None.
Proof.
  intros H.
  destruct (parse_line_cases line)
    as [[_ E] | [[_ [_ E]] | [_ [_ [r' [E [Hi _]]]]]]];
    rewrite E in H; try discriminate H.
  injection H as <-. exact Hi.
Qed.

Lemma read_rows_Is_Inland (lines : list string) :
  forall data, read_rows float lines = Ok data ->
               Forall (fun r => Is_Inland r = None) data.
Proof.
  induction lines as [|line rest IH]; intros data H; simpl in H.
  - injection H as <-. constructor.
  - unfold bind in H.
    destruct (parse_line float line) as [o|] eqn:E; [|discriminate H].
    destruct (read_rows float rest) as [data'|]; [|discriminate H].
    injection H as <-. specialize (IH _ eq_refl).
    destruct o as [r|]; [constructor; [eapply parse_line_Is_Inland; exact E|]|];
      exact IH.
Qed.

Lemma read_rows_raises (lines : list string) :
  Exists (fun l => enough_tokens l = true /\ numbers_parse float l = false) lines ->
  read_rows float lines = Raise ValueError.
Proof.
  induction 1 as [line rest [Hk Hn] | line rest _ IH]; simpl; unfold bind.
  - destruct (parse_line_cases line)
      as [[E _] | [[_ [_ E]] | [_ [E _]]]]; try congruence.
    rewrite E. reflexivity.
  - rewrite IH.
    destruct (parse_line_cases line)
      as [[_ E] | [[_ [_ E]] | [_ [_ [r [E _]]]]]]; rewrite E; reflexivity.
Qed.

Lemma read_rows_returns (lines : list string) :
  Forall (fun l => enough_tokens l = true -> numbers_parse float l = true) lines ->
  exists data,
    read_rows float lines = Ok data
    /\ Forall2 (fun l r => parse_line float l = Ok (Some r))
         (filter enough_tokens lines) data.
Proof.
  induction 1 as [|line rest Hl _ [data [E F]]]; simpl.
  - exists []. split; [reflexivity | constructor].
  - unfold bind. rewrite E.
    destruct (parse_line_cases line)
      as [[Hk Ep] | [[Hk [Hn _]] | [Hk [_ [r [Ep _]]]]]]; rewrite ?Ep, Hk.
    + exists data. split; [reflexivity | exact F].
    + rewrite (Hl Hk) in Hn. discriminate Hn.
    + exists (r :: data). split; [reflexivity|]. constructor; assumption.
Qed.

End ParserFacts.

Lemma set_Is_Inland_same (r : row) : set_Is_Inland (Is_Inland r) r = r.
Proof. destruct r; reflexivity. Qed.

Lemma rows_of_DataFrame_of (data : list row) : rows_of (DataFrame_of data) = data.
Proof. destruct data; reflexivity. Qed.

Section LoadData.

Variable float : string -> option R.

Lemma load_data_no_boundary (self : EEWSAnalyzer) :
  boundary_lons (boundary self) = [] ->
  load_data float self
  = (data <- read_rows float (tl (data_lines self)) ;;
     Ok (DataFrame_of data,
         mkAnalyzer (data_lines self) (boundary self) (Some (DataFrame_of data))
                    (df_analyzed self))).
Proof.
  intros H. unfold load_data, bind. rewrite H.
  destruct (read_rows float (tl (data_lines self))); reflexivity.
Qed.

(** C3 (amended). [load_data] skips exactly the blank lines and the lines
    with fewer than 7 tokens.  A line with at least 7 tokens on which a
    required numeric field does not parse makes [load_data] raise
    [ValueError]: no frame is produced.  When there is no such line, the loop
    yields one row for each line with at least 7 tokens, in order.  If there
    is at least one such row, or no boundary point is loaded, [load_data]
    returns and these rows (up to the [Is_Inland] column) are the rows of the
    frame, which is also the frame the analyzer holds; in the one case left,
    boundary points loaded and no line with at least 7 tokens, [load_data]
    raises [ValueError] when it assigns the [Is_Inland] column. *)
Theorem load_data_skips_short_lines_only (self : EEWSAnalyzer) :
  (Exists (fun l => enough_tokens l = true /\ numbers_parse float l = false)
     (tl (data_lines self)) ->
   load_data float self = Raise ValueError)
  /\ (Forall (fun l => enough_tokens l = true -> numbers_parse float l = true)
        (tl (data_lines self)) ->
      exists data,
        read_rows float (tl (data_lines self)) = Ok data
        /\ Forall2 (fun l r => parse_line float l = Ok (Some r))
             (filter enough_tokens (tl (data_lines self))) data
        /\ (filter enough_tokens (tl (data_lines self)) <> []
            \/ boundary_lons (boundary self) = [] ->
            exists d self',
              load_data float self = Ok (d, self')
              /\ df self' = Some d
              /\ Forall2 (fun r0 r => r = set_Is_Inland (Is_Inland r) r0)
                   data (rows_of d))
        /\ (filter enough_tokens (tl (data_lines self)) = [] ->
            boundary_lons (boundary self) <> [] ->
            load_data float self = Raise ValueError)).
Proof.
  split.
  - intros H. unfold load_data, bind. rewrite (read_rows_raises float _ H).
    reflexivity.
  - intros H. destruct (read_rows_returns float _ H) as [data [E F]].
    exists data. split; [exact E|]. split; [exact F|]. split.
    + intros Hd. unfold load_data, bind. rewrite E.
      destruct (boundary_lons (boundary self)) as [|x lons] eqn:Hb.
      * eexists. eexists. split; [reflexivity|]. split; [reflexivity|].
        rewrite rows_of_DataFrame_of. clear.
        induction data as [|r data IH]; constructor;
          [symmetry; apply set_Is_Inland_same | exact IH].
      * destruct data as [|r data].
        { inversion F as [Hnil|]. destruct Hd as [Hd | Hd]; congruence. }
        cbn [DataFrame_of add_Is_Inland].
        eexists. eexists. split; [reflexivity|]. split; [reflexivity|].
        cbn [rows_of].
        generalize (r :: data). clear. intros l.
        induction l as [|r l IH]; constructor; [reflexivity | exact IH].
    + intros Hnone Hb. rewrite Hnone in F. inversion F; subst.
      unfold load_data, bind. rewrite E.
      destruct (boundary_lons (boundary self)) as [|x lons]; [contradiction|].
      reflexivity.
Qed.

(** The case left: a file whose only line after the header has three
    tokens, read by an analyzer that has the boundary [square]. *)
Example load_data_no_record_with_boundary :
  load_data decimal_float
    (new_analyzer [header_line; "oN 1001 2024-04-03T07:58:09"%string]
       (boundary_of square))
  = Raise ValueError.
Proof. vm_compute. reflexivity. Qed.

(** C4 (amended). For every line that yields a row, the five alert columns
    hold the numbers read from tokens 7 to 11 if and only if the first token
    contains the character [Y] (at any position) and the line has at least
    12 tokens; in every other case all five hold the missing-value sentinel
    [np.nan], never zero. *)
Theorem alert_fields_populated_iff (line : string) (r : row) :
  parse_line float line = Ok (Some r) ->
  (alert_populated r <->
   contains "Y" (tok (split line) 0) = true /\ (12 <= List.length (split line))%nat)
  /\ (alert_populated r ->
      EEW_Lon r = float (tok (split line) 7)
      /\ EEW_Lat r = float (tok (split line) 8)
      /\ EEW_Mag r = float (tok (split line) 9)
      /\ EEW_Depth r = float (tok (split line) 10)
      /\ Processing_Time r = float (tok (split line) 11))
  /\ (~ alert_populated r -> alert_missing r).
Proof.
  intros H.
  destruct (parse_line_cases float line)
    as [[_ E] | [[_ [_ E]] | [_ [_ [r' [E [_ [Hy Hn]]]]]]]];
    rewrite E in H; try discriminate H.
  injection H as <-.
  assert (Hcond : has_alert line = true <->
                  contains "Y" (tok (split line) 0) = true
                  /\ (12 <= List.length (split line))%nat).
  { unfold has_alert. rewrite andb_true_iff, Nat.leb_le. reflexivity. }
  destruct (has_alert line) eqn:Ha.
  - destruct (Hy eq_refl) as [H1 [H2 [H3 [H4 [H5 Hp]]]]].
    split; [|split].
    + split; intros _; [apply Hcond; reflexivity | exact Hp].
    + intros _. repeat split; assumption.
    + intros Hnp. contradiction.
  - specialize (Hn eq_refl).
    assert (Hnp : ~ alert_populated r').
    { intros [Hp _]. destruct Hn as [Hn _]. rewrite Hn in Hp. discriminate Hp. }
    split; [|split].
    + split; intros Hp; [contradiction|]. apply Hcond in Hp. discriminate Hp.
    + intros Hp. contradiction.
    + intros _. exact Hn.
Qed.

(** C9. With no boundary polyline (the list of boundary longitudes is
    empty) [check_inland] returns [None] for every point, and in a run of
    the analyzer no row ever gets an [Is_Inland] value: not in the frame
    [load_data] builds, not in the analyzed rows, and the statistics carry no
    inland or offshore entries. *)
Theorem no_boundary_is_unknown (lines : list string) (b : Boundary) :
  boundary_lons b = [] ->
  (forall lon lat, check_inland b lon lat = None)
  /\ (forall d self',
        load_data float (new_analyzer lines b) = Ok (d, self') ->
        Forall (fun r => Is_Inland r = None) (rows_of d))
  /\ (forall analyzed self',
        calculate_errors float (new_analyzer lines b) = Ok (analyzed, self') ->
        Forall (fun a => Is_Inland (base a) = None) analyzed)
  /\ (forall s self',
        get_statistics float (new_analyzer lines b) = Ok (s, self') ->
        inland_offshore s = None).
Proof.
  intros Hb.
  assert (Hload : forall d self',
            load_data float (new_analyzer lines b) = Ok (d, self') ->
            Forall (fun r => Is_Inland r = None) (rows_of d)
            /\ self' = mkAnalyzer lines b (Some d) None).
  { intros d self' H. rewrite load_data_no_boundary in H by exact Hb.
    unfold bind in H. cbn [new_analyzer data_lines boundary df_analyzed] in H.
    destruct (read_rows float (tl lines)) as [data|] eqn:E; [|discriminate H].
    injection H as <- <-. rewrite rows_of_DataFrame_of.
    split; [exact (read_rows_Is_Inland float _ _ E) | reflexivity]. }
  assert (Hcalc : forall analyzed self',
            calculate_errors float (new_analyzer lines b) = Ok (analyzed, self') ->
            Forall (fun a => Is_Inland (base a) = None) analyzed
            /\ df_analyzed self' = Some analyzed /\ df self' <> None).
  { intros analyzed self' H. unfold calculate_errors, bind in H.
    cbn [new_analyzer df] in H. fold (new_analyzer lines b) in H.
    destruct (load_data float (new_analyzer lines b)) as [[d s1]|] eqn:E;
      [|discriminate H].
    destruct (Hload _ _ eq_refl) as [Hd ->]. cbn [snd df] in H.
    destruct d as [|rows]; [discriminate H|].
    injection H as <- <-. cbn [rows_of] in Hd. split; [|split; [reflexivity|discriminate]].
    apply Forall_forall. intros a Ha. apply in_map_iff in Ha.
    destruct Ha as [r [<- Hr]]. apply filter_In in Hr. cbn [add_errors base].
    rewrite Forall_forall in Hd. apply Hd. apply Hr. }
  split; [|split; [|split]].
  - intros lon lat. unfold check_inland. rewrite Hb. reflexivity.
  - intros d self' H. apply (Hload _ _ H).
  - intros analyzed self' H. apply (Hcalc _ _ H).
  - intros s self' H. unfold get_statistics in H.
    cbn [new_analyzer df_analyzed] in H. fold (new_analyzer lines b) in H.
    unfold bind at 1 2 in H.
    destruct (calculate_errors float (new_analyzer lines b)) as [[analyzed s1]|] eqn:E;
      [|discriminate H].
    destruct (Hcalc _ _ eq_refl) as [Ha [Hs1 Hdf]]. cbn [snd] in H. rewrite Hs1 in H.
    destruct (df s1) as [all|]; [|contradiction].
    unfold bind in H. destruct (truediv _ _); [|discriminate H].
    injection H as <- _. cbn [inland_offshore].
    rewrite existsb_false; [reflexivity|].
    intros x Hin. apply filter_In in Hin. rewrite Forall_forall in Ha.
    rewrite (Ha x (proj1 Hin)). reflexivity.
Qed.

End LoadData.

(** ** Evaluating the parser on lines *)

(** The claim of C3 fails on a file whose second record has a longitude that
    is no number: the first record is well formed, and [load_data] raises
    [ValueError] instead of returning it. *)
Lemma load_data_aborts_on_unparseable_number :
  decimal_float "121.6x" = None
  /\ (exists r, parse_line decimal_float missed_line = Ok (Some r))
  /\ load_data decimal_float
       (new_analyzer [header_line; missed_line; broken_line] no_boundary)
     = Raise ValueError.
Proof.
  split; [reflexivity|]. split.
  - eexists. vm_compute. reflexivity.
  - vm_compute. reflexivity.
Qed.

Lemma alert_fields_populated_iff_witness :
  exists r,
    parse_line decimal_float detected_line = Ok (Some r)
    /\ (alert_populated r <->
        contains "Y" (tok (split detected_line) 0) = true
        /\ (12 <= List.length (split detected_line))%nat)
    /\ (alert_populated r ->
        EEW_Lon r = decimal_float (tok (split detected_line) 7)
        /\ EEW_Lat r = decimal_float (tok (split detected_line) 8)
        /\ EEW_Mag r = decimal_float (tok (split detected_line) 9)
        /\ EEW_Depth r = decimal_float (tok (split detected_line) 10)
        /\ Processing_Time r = decimal_float (tok (split detected_line) 11))
    /\ (~ alert_populated r -> alert_missing r).
Proof.
  assert (H : {r | parse_line decimal_float detected_line = Ok (Some r)}).
  { eexists. vm_compute. reflexivity. }
  destruct H as [r Hr]. exists r. split; [exact Hr|].
  exact (alert_fields_populated_iff decimal_float detected_line r Hr).
Defined.

(** The claim of C4 fails on a first token that has its [Y] elsewhere than
    in second place: the alert columns are filled all the same. *)
Lemma alert_fields_populated_without_second_Y :
  exists r,
    parse_line decimal_float leading_Y_line = Ok (Some r)
    /\ (12 <= List.length (split leading_Y_line))%nat
    /\ second_char_is "Y" (tok (split leading_Y_line) 0) = false
    /\ alert_populated r.
Proof.
  eexists. split; [vm_compute; reflexivity|].
  split; [vm_compute; lia|]. split; [reflexivity|].
  unfold alert_populated. cbn. repeat split; reflexivity.
Qed.

Lemma no_boundary_is_unknown_witness :
  (forall lon lat, check_inland no_boundary lon lat = None)
  /\ (forall d self',
        load_data decimal_float
          (new_analyzer [header_line; detected_line] no_boundary) = Ok (d, self') ->
        Forall (fun r => Is_Inland r = None) (rows_of d))
  /\ (forall analyzed self',
        calculate_errors decimal_float
          (new_analyzer [header_line; detected_line] no_boundary)
        = Ok (analyzed, self') ->
        Forall (fun a => Is_Inland (base a) = None) analyzed)
  /\ (forall s self',
        get_statistics decimal_float
          (new_analyzer [header_line; detected_line] no_boundary) = Ok (s, self') ->
        inland_offshore s = None).
Proof.
  apply (no_boundary_is_unknown decimal_float
           [header_line; detected_line] no_boundary).
  reflexivity.
Defined.

(** The scenario line, read with a decimal reader, is the scenario record,
    and a run without boundary returns it. *)
Lemma detected_line_parses :
  parse_line decimal_float detected_line = Ok (Some scenario_record).
Proof.
  assert (H : exists r, parse_line decimal_float detected_line = Ok (Some r)
                        /\ r = scenario_record).
  { eexists. split; [vm_compute; reflexivity|].
    unfold scenario_record. repeat f_equal; lra. }
  destruct H as [r [H ->]]. exact H.
Qed.

Lemma no_boundary_run_returns :
  exists self',
    load_data decimal_float
      (new_analyzer [header_line; detected_line] no_boundary)
    = Ok (Frame [scenario_record], self').
Proof.
  rewrite load_data_no_boundary by reflexivity.
  cbn [new_analyzer data_lines tl read_rows]. rewrite detected_line_parses.
  eexists. reflexivity.
Qed.

(** ** Error metrics *)

Lemma second_char_contains (c : ascii) (s : string) :
  second_char_is c s = true -> contains c s = true.
Proof.
  destruct s as [|a [|b s]]; simpl; try discriminate.
  intros ->. apply orb_true_iff. right. reflexivity.
Qed.

Section Errors.

Variable float : string -> option R.

(** C8. For every record of the frame whose type code is Detected (second
    character [Y]) and whose alert is present, [calculate_errors] produces
    the epicenter error [calculate_distance(cat lat, cat lon, alert lat,
    alert lon)], the magnitude error [|cat mag - alert mag|] and the depth
    error [|cat depth - alert depth|].  For the scenario record these are a
    strictly positive distance, 0.2 and 2.0, and its processing time 8.0 is
    written to the file of the at-most-10-seconds bucket only. *)
Theorem error_calculator_contract :
  (forall (self : EEWSAnalyzer) (rows : list row) (r : row)
          (lon2 lat2 mag2 dep2 : R),
      df self = Some (Frame rows) -> In r rows ->
      second_char_is "Y" (Type_ r) = true ->
      EEW_Lon r = Some lon2 -> EEW_Lat r = Some lat2 ->
      EEW_Mag r = Some mag2 -> EEW_Depth r = Some dep2 ->
      exists analyzed self',
        calculate_errors float self = Ok (analyzed, self')
        /\ In (mkArow r
                 (Some (calculate_distance (Cat_Lat r) (Cat_Lon r) lat2 lon2))
                 (Some (Rabs (Cat_Mag r - mag2)))
                 (Some (Rabs (Cat_Depth r - dep2))))
              analyzed)
  /\ (exists e self',
        calculate_errors float
          (mkAnalyzer [] no_boundary (Some (Frame [scenario_record])) None)
        = Ok ([mkArow scenario_record (Some e) (Some 0.2) (Some 2.0)], self')
        /\ e = calculate_distance 23.0 121.0 23.05 121.1
        /\ 0 < e
        /\ time_files 8.0 = [pro_time_05]).
Proof.
  split.
  - intros self rows r lon2 lat2 mag2 dep2 Hdf Hin Hy Hlon Hlat Hmag Hdep.
    unfold calculate_errors, bind. rewrite Hdf. cbn [df]. rewrite Hdf.
    eexists. eexists. split; [reflexivity|].
    apply in_map_iff. exists r. split.
    + unfold add_errors. rewrite Hlon, Hlat, Hmag, Hdep. reflexivity.
    + apply filter_In. split; [exact Hin|]. apply second_char_contains. exact Hy.
  - exists (calculate_distance 23.0 121.0 23.05 121.1). eexists.
    split; [|split; [reflexivity|split]].
    + assert (H : add_errors scenario_record
                  = mkArow scenario_record
                      (Some (calculate_distance 23.0 121.0 23.05 121.1))
                      (Some 0.2) (Some 2.0)).
      { unfold add_errors, scenario_record.
        cbn [EEW_Lat EEW_Lon EEW_Mag EEW_Depth Cat_Lat Cat_Lon Cat_Mag Cat_Depth
             nan_sub nan_abs option_map].
        replace (Rabs (5.5 - 5.3)) with 0.2 by (rewrite Rabs_pos_eq; lra).
        replace (Rabs (10 - 12)) with 2.0 by (rewrite Rabs_left; lra).
        reflexivity. }
      unfold calculate_errors, bind. cbn [df].
      change (filter (fun r => contains "Y" (Type_ r)) [scenario_record])
        with [scenario_record].
      cbn [map]. rewrite H. reflexivity.
    + apply distance_pos. unfold squared_distance. cbv zeta. lra.
    + unfold time_files. Rdecide. reflexivity.
Qed.

End Errors.

(** ** Statistics *)

Lemma Rsum_squares_nonneg (m : R) (l : list R) :
  0 <= Rsum (map (fun x => (x - m) * (x - m)) l).
Proof.
  induction l as [|x l IH]; simpl; [lra|].
  pose proof (Rle_0_sqr (x - m)) as H. unfold Rsqr in H. lra.
Qed.

Lemma INR_length_pos {A} (l : list A) : (2 <= List.length l)%nat -> 1 < INR (List.length l).
Proof. intros H. apply le_INR in H. simpl in H. lra. Qed.

(** pandas' [std] is the sample standard deviation. *)
Lemma Series_std_sample (xs : list (option R)) :
  (2 <= List.length (dropna_values xs))%nat ->
  Series_std xs = Some (sample_std (dropna_values xs)).
Proof.
  intros H. unfold Series_std, sample_std, mean.
  destruct (Nat.leb_spec (List.length (dropna_values xs)) 1) as [Hle | _]; [lia|].
  f_equal. f_equal. rewrite minus_INR by lia. simpl (INR 1).
  f_equal. f_equal. apply map_ext. intros x. ring.
Qed.

(** numpy's [std] is the population standard deviation. *)
Lemma numpy_std_population (l : list R) :
  l <> [] -> numpy_std l = Some (population_std l).
Proof.
  intros H. destruct l as [|x l]; [contradiction|].
  unfold numpy_std, population_std, mean. rewrite map_map, length_map. reflexivity.
Qed.

(** Bessel's factor between the two deviations. *)
Lemma sample_std_population_std (l : list R) :
  (2 <= List.length l)%nat ->
  sample_std l
  = sqrt (INR (List.length l) / (INR (List.length l) - 1)) * population_std l.
Proof.
  intros H. pose proof (INR_length_pos l H) as Hn.
  unfold sample_std, population_std. unfold mean at 3.
  rewrite length_map.
  set (n := INR (List.length l)) in *.
  pose proof (Rsum_squares_nonneg (mean l) l) as HS.
  set (S := Rsum (map (fun x => (x - mean l) * (x - mean l)) l)) in *.
  rewrite <- sqrt_mult.
  - f_equal. field. lra.
  - apply Rlt_le, Rdiv_lt_0_compat; lra.
  - apply Rle_mult_inv_pos; lra.
Qed.

Section Statistics.

Variable float : string -> option R.

(** [calculate_errors] stores the rows it returns. *)
Lemma calculate_errors_df_analyzed (self self1 : EEWSAnalyzer)
    (analyzed : list arow) :
  calculate_errors float self = Ok (analyzed, self1) ->
  df_analyzed self1 = Some analyzed.
Proof.
  intros Hc. unfold calculate_errors, bind in Hc.
  destruct (match df self with
            | Some _ => Ok self
            | None => match load_data float self with
                      | Ok a => Ok (snd a)
                      | Raise e => Raise e
                      end
            end) as [s0|]; [|discriminate Hc].
  destruct (df s0) as [[|rows]|]; try discriminate Hc.
  injection Hc as <- <-. reflexivity.
Qed.

(** [get_statistics] first runs [calculate_errors] when that has not run. *)
Lemma get_statistics_fresh (self self1 : EEWSAnalyzer) (analyzed : list arow) :
  df_analyzed self = None ->
  calculate_errors float self = Ok (analyzed, self1) ->
  get_statistics float self = get_statistics float self1.
Proof.
  intros Hn Hc.
  pose proof (calculate_errors_df_analyzed _ _ _ Hc) as Ha.
  unfold get_statistics at 1. rewrite Hn, Hc. unfold bind at 1. cbn [snd].
  unfold get_statistics. rewrite Ha. reflexivity.
Qed.

(** [get_statistics] on an analyzer that holds a frame and analyzed rows. *)
Lemma get_statistics_loaded (self : EEWSAnalyzer) (analyzed : list arow)
    (all : DataFrame) :
  df_analyzed self = Some analyzed -> df self = Some all -> len all <> O ->
  exists s,
    get_statistics float self = Ok (s, self)
    /\ total_earthquakes s = len all
    /\ eew_detected s
       = List.length (filter (fun a => is_some (Epicenter_Error_km a)) analyzed)
    /\ detection_rate s = INR (eew_detected s) / INR (total_earthquakes s) * 100
    /\ forall dim,
         reported_std dim s
         = Series_std (map (column dim)
                         (filter (fun a => is_some (Epicenter_Error_km a)) analyzed)).
Proof.
  intros Ha Hd Hn. unfold get_statistics. rewrite Ha. unfold bind at 1.
  rewrite Ha, Hd. unfold truediv, bind.
  destruct (len all) as [|n] eqn:El; [contradiction|].
  eexists. split; [reflexivity|]. cbn [total_earthquakes eew_detected detection_rate].
  repeat split. intros [| | |]; reflexivity.
Qed.

Lemma get_statistics_no_records (self : EEWSAnalyzer) (analyzed : list arow)
    (all : DataFrame) :
  df_analyzed self = Some analyzed -> df self = Some all -> len all = O ->
  get_statistics float self = Raise ZeroDivisionError.
Proof.
  intros Ha Hd Hn. unfold get_statistics. rewrite Ha. unfold bind at 1.
  rewrite Ha, Hd, Hn. reflexivity.
Qed.

(** Whenever [get_statistics] returns, the analyzer it leaves holds a
    non-empty frame and analyzed rows, and the statistics are those of that
    analyzer. *)
Lemma get_statistics_returns (self self' : EEWSAnalyzer) (s : stats) :
  get_statistics float self = Ok (s, self') ->
  exists analyzed all,
    df_analyzed self' = Some analyzed /\ df self' = Some all /\ len all <> O
    /\ get_statistics float self' = Ok (s, self').
Proof.
  assert (Hloaded : forall self0 analyzed,
            df_analyzed self0 = Some analyzed ->
            get_statistics float self0 = Ok (s, self') ->
            exists analyzed all,
              df_analyzed self' = Some analyzed /\ df self' = Some all
              /\ len all <> O /\ get_statistics float self' = Ok (s, self')).
  { intros self0 analyzed Ha H. pose proof H as H0.
    unfold get_statistics in H. rewrite Ha in H. unfold bind at 1 in H.
    rewrite Ha in H. destruct (df self0) as [all|] eqn:Hd; [|discriminate H].
    unfold truediv, bind in H. destruct (len all) eqn:El; [discriminate H|].
    injection H as _ <-. exists analyzed, all.
    repeat split; [exact Ha | exact Hd | rewrite El; discriminate | exact H0]. }
  intros H. destruct (df_analyzed self) as [analyzed|] eqn:Ha.
  - exact (Hloaded self analyzed Ha H).
  - destruct (calculate_errors float self) as [[analyzed self1]|] eqn:Hc.
    + rewrite (get_statistics_fresh self self1 analyzed Ha Hc) in H.
      exact (Hloaded self1 analyzed (calculate_errors_df_analyzed _ _ _ Hc) H).
    + unfold get_statistics in H. rewrite Ha, Hc in H. discriminate H.
Qed.

(** C1 (amended). For every non-empty record set and every dimension with at
    least two defined values, the standard deviation [get_statistics]
    reports is the sample standard deviation, divisor [N - 1]: the
    population standard deviation [sqrt(mean((x - mean(x))^2))] multiplied by
    [sqrt(N / (N - 1))].  The population standard deviation itself is what
    [numpy.std] gives in the report of ana_forplot.py. *)
Theorem reported_std_is_sample_std (self : EEWSAnalyzer) (analyzed : list arow)
    (all : DataFrame) (dim : dimension) :
  df_analyzed self = Some analyzed -> df self = Some all -> len all <> O ->
  (2 <= List.length (defined_values dim analyzed))%nat ->
  exists s,
    get_statistics float self = Ok (s, self)
    /\ reported_std dim s = Some (sample_std (defined_values dim analyzed))
    /\ sample_std (defined_values dim analyzed)
       = sqrt (INR (List.length (defined_values dim analyzed))
               / (INR (List.length (defined_values dim analyzed)) - 1))
         * population_std (defined_values dim analyzed)
    /\ numpy_std (defined_values dim analyzed)
       = Some (population_std (defined_values dim analyzed)).
Proof.
  intros Ha Hd Hn H2.
  destruct (get_statistics_loaded self analyzed all Ha Hd Hn)
    as [s [Hs [_ [_ [_ Hstd]]]]].
  exists s. split; [exact Hs|]. split; [|split].
  - rewrite Hstd. apply Series_std_sample. exact H2.
  - apply sample_std_population_std. exact H2.
  - apply numpy_std_population. intros E. rewrite E in H2. simpl in H2. lia.
Qed.

(** C2. An empty record set.  With a data file that holds only its header
    line (and no boundary file) the frame has no columns and
    [get_statistics] leaves with the [KeyError] of [calculate_errors]; with
    a frame that kept its columns but no rows, as a caller's filter leaves
    it, the division [len(df) / len(self.df)] is reached and raises
    [ZeroDivisionError].  Neither run returns statistics. *)
Theorem get_statistics_empty_record_set :
  get_statistics float (new_analyzer [header_line] no_boundary) = Raise KeyError
  /\ get_statistics float
       (mkAnalyzer [header_line; detected_line] no_boundary (Some (Frame [])) None)
     = Raise ZeroDivisionError.
Proof. split; reflexivity. Qed.

(** On a non-empty record set the division is defined. *)
Lemma get_statistics_detection_rate (self : EEWSAnalyzer) (analyzed : list arow)
    (all : DataFrame) :
  df_analyzed self = Some analyzed -> df self = Some all -> len all <> O ->
  exists s,
    get_statistics float self = Ok (s, self)
    /\ total_earthquakes s <> O
    /\ detection_rate s = INR (eew_detected s) / INR (total_earthquakes s) * 100.
Proof.
  intros Ha Hd Hn.
  destruct (get_statistics_loaded self analyzed all Ha Hd Hn)
    as [s [Hs [Ht [_ [Hr _]]]]].
  exists s. split; [exact Hs|]. split; [rewrite Ht; exact Hn | exact Hr].
Qed.

End Statistics.

Lemma sqrt_2_not_1 : sqrt 2 <> 1.
Proof.
  intros H. pose proof (sqrt_sqrt 2) as H2. rewrite H in H2. lra.
Qed.

(** The run on the file of the two events. *)
Lemma second_line_parses :
  parse_line decimal_float second_line = Ok (Some second_record).
Proof.
  assert (H : exists r, parse_line decimal_float second_line = Ok (Some r)
                        /\ r = second_record).
  { eexists. split; [vm_compute; reflexivity|].
    unfold second_record. repeat f_equal; lra. }
  destruct H as [r [H ->]]. exact H.
Qed.

Lemma two_lines_run :
  calculate_errors decimal_float (new_analyzer two_lines no_boundary)
  = Ok ([add_errors scenario_record; add_errors second_record], two_records).
Proof.
  unfold calculate_errors. cbn [new_analyzer df].
  fold (new_analyzer two_lines no_boundary).
  rewrite load_data_no_boundary by reflexivity.
  cbn [new_analyzer data_lines two_lines tl read_rows].
  rewrite detected_line_parses, second_line_parses. reflexivity.
Qed.

Lemma two_records_processing_times :
  defined_values ProcessingTime [add_errors scenario_record; add_errors second_record]
  = [8.0; 10.0].
Proof. reflexivity. Qed.

(** The claim of C1 fails on the run of the two events, whose processing
    times are 8.0 and 10.0: the population standard deviation is 1, the
    reported one is [sqrt 2]. *)
Lemma reported_std_is_not_population_std :
  exists s,
    get_statistics decimal_float (new_analyzer two_lines no_boundary)
    = Ok (s, two_records)
    /\ defined_values ProcessingTime
         [add_errors scenario_record; add_errors second_record] = [8.0; 10.0]
    /\ population_std [8.0; 10.0] = 1
    /\ reported_std ProcessingTime s = Some (sqrt 2)
    /\ reported_std ProcessingTime s <> Some (population_std [8.0; 10.0]).
Proof.
  assert (Hm : mean [8.0; 10.0] = 9).
  { unfold mean, Rsum. cbn [fold_right List.length INR]. lra. }
  assert (Hp : population_std [8.0; 10.0] = 1).
  { unfold population_std. rewrite Hm. unfold mean, Rsum.
    cbn [map fold_right List.length INR].
    replace (((8.0 - 9) * (8.0 - 9) + ((10.0 - 9) * (10.0 - 9) + 0)) / (1 + 1))
      with 1 by lra.
    apply sqrt_1. }
  assert (Hs : sample_std [8.0; 10.0] = sqrt 2).
  { unfold sample_std. rewrite Hm. unfold Rsum.
    cbn [map fold_right List.length INR]. f_equal. lra. }
  destruct (get_statistics_loaded decimal_float two_records
              [add_errors scenario_record; add_errors second_record]
              (Frame [scenario_record; second_record])
              eq_refl eq_refl) as [s [Hget [_ [_ [_ Hstd]]]]];
    [discriminate|].
  exists s. split.
  { rewrite (get_statistics_fresh decimal_float
               (new_analyzer two_lines no_boundary) two_records _
               eq_refl two_lines_run).
    exact Hget. }
  split; [exact two_records_processing_times|]. split; [exact Hp|].
  assert (Hr : reported_std ProcessingTime s = Some (sqrt 2)).
  { rewrite Hstd.
    fold (defined_values ProcessingTime
            [add_errors scenario_record; add_errors second_record]).
    rewrite Series_std_sample.
    - fold (defined_values ProcessingTime
              [add_errors scenario_record; add_errors second_record]).
      rewrite two_records_processing_times, Hs. reflexivity.
    - fold (defined_values ProcessingTime
              [add_errors scenario_record; add_errors second_record]).
      rewrite two_records_processing_times. simpl. lia. }
  split; [exact Hr|].
  rewrite Hr, Hp. intros E. injection E as E. exact (sqrt_2_not_1 E).
Qed.

Lemma reported_std_is_sample_std_witness :
  exists s,
    get_statistics decimal_float two_records = Ok (s, two_records)
    /\ reported_std ProcessingTime s = Some (sample_std [8.0; 10.0])
    /\ sample_std [8.0; 10.0]
       = sqrt (INR (List.length [8.0; 10.0]) / (INR (List.length [8.0; 10.0]) - 1))
         * population_std [8.0; 10.0]
    /\ numpy_std [8.0; 10.0] = Some (population_std [8.0; 10.0]).
Proof.
  rewrite <- two_records_processing_times.
  apply (reported_std_is_sample_std decimal_float two_records
           [add_errors scenario_record; add_errors second_record]
           (Frame [scenario_record; second_record]) ProcessingTime
           eq_refl eq_refl).
  - discriminate.
  - rewrite two_records_processing_times. simpl. lia.
Defined.

(** * Further properties of the code *)

(** ** Scale of the planar distance *)

Lemma coef_a_bounds (av : R) : 21 <= av <= 26 -> 1.65 <= coef_a av <= 1.74.
Proof.
  intros H. unfold coef_a.
  set (p := -0.00034 + av * 1.02337e-6).
  assert (Hp : -0.00032 <= p <= -0.00031) by (unfold p; lra).
  set (q := 0.0015269 + av * p).
  assert (Hq : -0.0068 <= q <= -0.0049).
  { unfold q. generalize dependent p. intros p Hp. split; nra. }
  generalize dependent q. intros q Hq. split; nra.
Qed.

Lemma coef_b_bounds (av : R) : 21 <= av <= 26 -> 1.84 <= coef_b av <= 1.85.
Proof.
  intros H. unfold coef_b.
  set (p := 8.79993e-6 + av * (-6.47527e-8)).
  assert (Hp : 7.0e-6 <= p <= 7.5e-6) by (unfold p; lra).
  set (q := -6.93799e-5 + av * p).
  assert (Hq : 7.0e-5 <= q <= 1.3e-4).
  { unfold q. generalize dependent p. intros p Hp. split; nra. }
  generalize dependent q. intros q Hq. split; nra.
Qed.

Lemma squared_distance_coefs (lat1 lon1 lat2 lon2 : R) :
  squared_distance lat1 lon1 lat2 lon2
  = (coef_a (0.5 * (lat1 + lat2)) * 60) * (coef_a (0.5 * (lat1 + lat2)) * 60)
      * ((lon2 - lon1) * (lon2 - lon1))
    + (coef_b (0.5 * (lat1 + lat2)) * 60) * (coef_b (0.5 * (lat1 + lat2)) * 60)
      * ((lat2 - lat1) * (lat2 - lat1)).
Proof.
  unfold squared_distance, coef_a, coef_b. cbv zeta.
  set (a := 1.840708 + _). set (b := 1.843404 + _).
  replace 60.0 with 60 by lra. ring.
Qed.

Lemma sqrt_scaled (k x : R) : 0 <= k -> 0 <= x -> k * sqrt x = sqrt (k * k * x).
Proof.
  intros Hk Hx. rewrite sqrt_mult by nra. rewrite sqrt_square by exact Hk.
  reflexivity.
Qed.

(** X1. Between two points whose latitudes lie in the band 21..26 degrees
    (the band the scripts restrict their events to) the distance is at least
    99 km and at most 111 km per degree of separation. *)
Theorem calculate_distance_scale (lat1 lon1 lat2 lon2 : R) :
  21 <= lat1 <= 26 -> 21 <= lat2 <= 26 ->
  99 * degrees_apart lat1 lon1 lat2 lon2
    <= calculate_distance lat1 lon1 lat2 lon2
    <= 111 * degrees_apart lat1 lon1 lat2 lon2.
Proof.
  intros H1 H2.
  assert (Hav : 21 <= 0.5 * (lat1 + lat2) <= 26) by lra.
  pose proof (coef_a_bounds _ Hav) as Ha.
  pose proof (coef_b_bounds _ Hav) as Hb.
  rewrite calculate_distance_sqrt, squared_distance_coefs.
  unfold degrees_apart.
  set (a60 := coef_a (0.5 * (lat1 + lat2)) * 60) in *.
  set (b60 := coef_b (0.5 * (lat1 + lat2)) * 60) in *.
  assert (Ha60 : 99 <= a60 <= 104.4) by (unfold a60; lra).
  assert (Hb60 : 110.4 <= b60 <= 111) by (unfold b60; lra).
  set (u := (lon2 - lon1) * (lon2 - lon1)).
  set (v := (lat2 - lat1) * (lat2 - lat1)).
  assert (Hu : 0 <= u) by (unfold u; apply Rle_0_sqr).
  assert (Hv : 0 <= v) by (unfold v; apply Rle_0_sqr).
  assert (Haa : 99 * 99 <= a60 * a60 <= 111 * 111) by nra.
  assert (Hbb : 99 * 99 <= b60 * b60 <= 111 * 111) by nra.
  rewrite !sqrt_scaled by lra.
  split; apply sqrt_le_1_alt; nra.
Qed.

Lemma calculate_distance_scale_witness :
  99 * degrees_apart 23 121 24 122
    <= calculate_distance 23 121 24 122
    <= 111 * degrees_apart 23 121 24 122.
Proof. apply calculate_distance_scale; lra. Defined.

(** X2. In that band the distance is zero exactly when the two points are
    the same point. *)
Theorem calculate_distance_zero_iff (lat1 lon1 lat2 lon2 : R) :
  21 <= lat1 <= 26 -> 21 <= lat2 <= 26 ->
  (calculate_distance lat1 lon1 lat2 lon2 = 0 <-> lat1 = lat2 /\ lon1 = lon2).
Proof.
  intros H1 H2. split.
  - intros H0.
    assert (Hav : 21 <= 0.5 * (lat1 + lat2) <= 26) by lra.
    pose proof (coef_a_bounds _ Hav) as Ha.
    pose proof (coef_b_bounds _ Hav) as Hb.
    rewrite calculate_distance_sqrt in H0.
    apply sqrt_eq_0 in H0; [|apply squared_distance_nonneg].
    rewrite squared_distance_coefs in H0.
    set (a60 := coef_a (0.5 * (lat1 + lat2)) * 60) in *.
    set (b60 := coef_b (0.5 * (lat1 + lat2)) * 60) in *.
    assert (Ha60 : 99 <= a60) by (unfold a60; lra).
    assert (Hb60 : 110.4 <= b60) by (unfold b60; lra).
    replace (a60 * a60 * ((lon2 - lon1) * (lon2 - lon1)))
      with (Rsqr (a60 * (lon2 - lon1))) in H0 by (unfold Rsqr; ring).
    replace (b60 * b60 * ((lat2 - lat1) * (lat2 - lat1)))
      with (Rsqr (b60 * (lat2 - lat1))) in H0 by (unfold Rsqr; ring).
    apply Rplus_sqr_eq_0 in H0. destruct H0 as [Hx Hy].
    apply Rmult_integral in Hx. apply Rmult_integral in Hy.
    split; [destruct Hy | destruct Hx]; lra.
  - intros [-> ->]. apply calculate_distance_self.
Qed.

Lemma calculate_distance_zero_iff_witness :
  calculate_distance 23 121 23 121 = 0 <-> 23 = 23 /\ 121 = 121.
Proof. apply calculate_distance_zero_iff; lra. Defined.

(** ** More on the classifier *)

Lemma existsb_incl {A} (f : A -> bool) (l l' : list A) :
  incl l l' -> existsb f l = true -> existsb f l' = true.
Proof.
  intros Hi H. apply existsb_exists in H. destruct H as [x [Hx Hf]].
  apply existsb_exists. exists x. split; [apply Hi; exact Hx | exact Hf].
Qed.

Lemma surrounded_or_near_incl (r lon lat : R) (pts pts' : list (R * R)) :
  incl pts pts' ->
  surrounded_or_near r lon lat pts = true ->
  surrounded_or_near r lon lat pts' = true.
Proof.
  intros Hi. unfold surrounded_or_near, all_quadrants.
  rewrite !orb_true_iff, !andb_true_iff.
  intros [[[[H1 H2] H3] H4] | H5]; [left | right];
    repeat split; eapply existsb_incl; eassumption.
Qed.

(** X3. Adding boundary points never turns an inland answer into an
    offshore one: if [check_inland] answers inland for a boundary, it answers
    inland for every boundary that contains the same points. *)
Theorem check_inland_more_points (lon lat : R) (pts pts' : list (R * R)) :
  incl pts pts' ->
  check_inland (boundary_of pts) lon lat = Some true ->
  check_inland (boundary_of pts') lon lat = Some true.
Proof.
  intros Hi H. destruct pts as [|p pts]; [discriminate H|].
  destruct pts' as [|p' pts'].
  { exfalso. apply (Hi p). left. reflexivity. }
  rewrite check_inland_spec in *. injection H as H. f_equal.
  eapply surrounded_or_near_incl; eassumption.
Qed.

Lemma square_center_inland :
  check_inland (boundary_of square) 121 23 = Some true.
Proof.
  unfold square. rewrite check_inland_spec. f_equal.
  unfold surrounded_or_near, all_quadrants, in_NE, in_SW, in_SE, in_NW.
  cbn [existsb]. Rdecide. reflexivity.
Qed.

Lemma check_inland_more_points_witness :
  check_inland (boundary_of ((125, 30) :: square)) 121 23 = Some true.
Proof.
  apply (check_inland_more_points 121 23 square ((125, 30) :: square)).
  - intros p Hp. right. exact Hp.
  - exact square_center_inland.
Defined.

(** The four sign patterns exclude one another. *)
Lemma quadrants_exclusive (lon lat : R) (p : R * R) :
  (in_NE lon lat p = true -> in_SW lon lat p = false /\ in_SE lon lat p = false
                             /\ in_NW lon lat p = false)
  /\ (in_SW lon lat p = true -> in_SE lon lat p = false /\ in_NW lon lat p = false)
  /\ (in_SE lon lat p = true -> in_NW lon lat p = false).
Proof.
  unfold in_NE, in_SW, in_SE, in_NW, Rgtb.
  split; [|split]; intros Hq; apply andb_true_iff in Hq; destruct Hq as [Hx Hy];
    apply Rltb_true in Hx; apply Rltb_true in Hy;
    repeat split; apply andb_false_iff;
    first [ left; apply Rltb_false; lra | right; apply Rltb_false; lra ].
Qed.

Lemma all_quadrants_four_points (lon lat : R) (pts : list (R * R)) :
  all_quadrants lon lat pts = true -> (4 <= List.length pts)%nat.
Proof.
  unfold all_quadrants. rewrite !andb_true_iff, !existsb_exists.
  intros [[[[p1 [I1 H1]] [p2 [I2 H2]]] [p3 [I3 H3]]] [p4 [I4 H4]]].
  change 4%nat with (List.length [p1; p2; p3; p4]).
  apply NoDup_incl_length.
  - destruct (quadrants_exclusive lon lat p1) as [E1 _].
    destruct (quadrants_exclusive lon lat p2) as [_ [E2 _]].
    destruct (quadrants_exclusive lon lat p3) as [_ [_ E3]].
    specialize (E1 H1). specialize (E2 H2). specialize (E3 H3).
    repeat constructor; cbn [In]; intros H;
      repeat (destruct H as [<- | H]; [congruence|]); try contradiction;
      intuition congruence.
  - intros q Hq. cbn [In] in Hq.
    repeat (destruct Hq as [<- | Hq]; [assumption|]). contradiction.
Qed.

(** X4. A boundary of fewer than four points can classify a point as inland
    only through the near-boundary test: the answer of [check_inland] is
    then "some boundary point is nearer than 1.0 km". *)
Theorem check_inland_few_points (lon lat : R) (pts : list (R * R)) :
  pts <> [] -> (List.length pts < 4)%nat ->
  check_inland (boundary_of pts) lon lat
  = Some (existsb (is_near 1.0 lon lat) pts).
Proof.
  intros Hne Hlen. destruct pts as [|p pts]; [contradiction|].
  rewrite check_inland_spec. f_equal. unfold surrounded_or_near.
  destruct (all_quadrants lon lat (p :: pts)) eqn:E; [|reflexivity].
  apply all_quadrants_four_points in E. lia.
Qed.

Lemma check_inland_few_points_witness :
  check_inland (boundary_of [(120, 22); (122, 22); (121, 25)]) 121 23
  = Some (existsb (is_near 1.0 121 23) [(120, 22); (122, 22); (121, 25)]).
Proof.
  apply check_inland_few_points; [discriminate | simpl; lia].
Defined.

(** X5. On a boundary whose first point occurs again later in the list, as
    in a closed ring, the legacy function [check_seis_r], called with the
    number of points and the threshold 1.0, and [check_inland] give the same
    answer: the point the legacy loop skips is seen at its later position. *)
Theorem check_seis_r_agrees_on_closed_boundary (lon lat : R) (p : R * R)
    (rest : list (R * R)) :
  In p rest ->
  check_inland (boundary_of (p :: rest)) lon lat
  = Some (check_seis_r (map fst (p :: rest)) (map snd (p :: rest)) lon lat
            (List.length (p :: rest)) 1.0 =? 1)%Z.
Proof.
  intros Hin. rewrite check_inland_spec, check_seis_r_spec, b2z_eqb_1.
  f_equal. cbn [tl]. apply surrounded_or_near_same_elements.
  intros q. split.
  - intros [<- | Hq]; assumption.
  - intros Hq. right. exact Hq.
Qed.

Lemma check_seis_r_agrees_on_closed_boundary_witness :
  check_inland (boundary_of square) 121 23
  = Some (check_seis_r (map fst square) (map snd square) 121 23
            (List.length square) 1.0 =? 1)%Z.
Proof.
  apply (check_seis_r_agrees_on_closed_boundary 121 23 (120, 22)
           [(122, 22); (122, 24); (120, 24); (120, 22)]).
  cbn [In]. auto.
Defined.

(** ** The boundary file *)

Section BoundaryFile.

Variable float : string -> option R.

Lemma read_boundary_lengths (lines : list string) :
  forall lons lats lons' lats',
    read_boundary float lines lons lats = Ok (lons', lats') ->
    List.length lons' = (List.length lons + List.length (filter has_point lines))%nat
    /\ List.length lats' = (List.length lats + List.length (filter has_point lines))%nat.
Proof.
  induction lines as [|line rest IH]; intros lons lats lons' lats' H;
    cbn [read_boundary] in H; cbn [filter].
  - injection H as <- <-. cbn [List.length]. lia.
  - fold (has_point line) in H. destruct (has_point line).
    + unfold bind, to_float in H.
      destruct (float (tok (split line) 0)); [|discriminate H].
      destruct (float (tok (split line) 1)); [|discriminate H].
      apply IH in H. rewrite !length_app in H. cbn [List.length] in *. lia.
    + apply IH in H. exact H.
Qed.

(** X6. Whenever the constructor's [_load_boundary_data] succeeds, the two
    coordinate lists of the analyzer have the same length: one entry for
    every line of the boundary file with at least two tokens (none when the
    file does not exist), and the threshold is 1.0 km. *)
Theorem boundary_lists_in_lockstep (boundary_file : option (list string))
    (b : Boundary) :
  load_boundary_data float boundary_file = Ok b ->
  List.length (boundary_lons b) = List.length (boundary_lats b)
  /\ List.length (boundary_lons b)
     = List.length (filter has_point (lines_of boundary_file))
  /\ near_coast_line_dis b = 1.0.
Proof.
  destruct boundary_file as [lines|]; cbn [load_boundary_data lines_of].
  - unfold bind.
    destruct (read_boundary float lines [] []) as [[lons lats]|] eqn:E;
      [|discriminate].
    intros H. injection H as <-. cbn [boundary_lons boundary_lats near_coast_line_dis fst snd].
    apply read_boundary_lengths in E. cbn [List.length] in E. split; [lia|].
    split; [lia | reflexivity].
  - intros H. injection H as <-. repeat split.
Qed.

(** X7. A line of the boundary file with at least two tokens whose first or
    second token is no number makes the constructor fail with [ValueError]:
    such a line is not skipped. *)
Theorem boundary_file_bad_number (lines : list string) :
  Exists (fun l => has_point l = true
                   /\ (float (tok (split l) 0) = None
                       \/ float (tok (split l) 1) = None)) lines ->
  load_boundary_data float (Some lines) = Raise ValueError.
Proof.
  intros H. cbn [load_boundary_data].
  assert (E : forall lons lats, read_boundary float lines lons lats = Raise ValueError).
  { induction H as [line rest [Hp Hbad] | line rest _ IH]; intros lons lats;
      cbn [read_boundary]; fold (has_point line).
    - rewrite Hp. unfold bind, to_float.
      destruct Hbad as [-> | Hbad]; [reflexivity|].
      destruct (float (tok (split line) 0)); [rewrite Hbad|]; reflexivity.
    - destruct (has_point line); [|apply IH].
      unfold bind, to_float.
      destruct (float (tok (split line) 0)); [|reflexivity].
      destruct (float (tok (split line) 1)); [|reflexivity].
      apply IH. }
  rewrite E. reflexivity.
Qed.

End BoundaryFile.

Lemma boundary_lists_in_lockstep_witness :
  exists b,
    load_boundary_data decimal_float (Some boundary_lines) = Ok b
    /\ List.length (boundary_lons b) = List.length (boundary_lats b)
    /\ List.length (boundary_lons b)
       = List.length (filter has_point (lines_of (Some boundary_lines)))
    /\ near_coast_line_dis b = 1.0.
Proof.
  assert (H : {b | load_boundary_data decimal_float (Some boundary_lines) = Ok b}).
  { eexists. vm_compute. reflexivity. }
  destruct H as [b Hb]. exists b. split; [exact Hb|].
  exact (boundary_lists_in_lockstep decimal_float (Some boundary_lines) b Hb).
Defined.

Lemma boundary_file_bad_number_witness :
  load_boundary_data decimal_float (Some ["120.0 22.0"; "121.0 north"]%string)
  = Raise ValueError.
Proof.
  apply boundary_file_bad_number.
  apply Exists_cons_tl. apply Exists_cons_hd.
  split; [reflexivity | right; reflexivity].
Defined.

(** ** Reductions *)

Lemma dropna_values_map (f : R -> R) (xs : list (option R)) :
  dropna_values (map (option_map f) xs) = map f (dropna_values xs).
Proof.
  induction xs as [|[x|] xs IH]; simpl; [reflexivity | f_equal; exact IH | exact IH].
Qed.

Lemma Rsum_deviations (m : R) (l : list R) :
  Rsum (map (fun x => (x - m) * (x - m)) l)
  = Rsum (map (fun x => x * x) l) - 2 * m * Rsum l + INR (List.length l) * (m * m).
Proof.
  induction l as [|x l IH]; [simpl; ring|].
  cbn [map Rsum fold_right List.length]. fold (Rsum (map (fun x => (x - m) * (x - m)) l)).
  fold (Rsum (map (fun x => x * x) l)). fold (Rsum l).
  rewrite IH, S_INR. ring.
Qed.

(** The square of the mean is at most the mean of the squares. *)
Lemma mean_square_le (l : list R) :
  l <> [] ->
  (Rsum l / INR (List.length l)) * (Rsum l / INR (List.length l))
  <= Rsum (map (fun x => x * x) l) / INR (List.length l).
Proof.
  intros Hne.
  assert (Hn : 0 < INR (List.length l)).
  { destruct l; [contradiction|]. apply lt_0_INR. simpl. lia. }
  pose proof (Rsum_squares_nonneg (Rsum l / INR (List.length l)) l) as H.
  rewrite Rsum_deviations in H.
  set (n := INR (List.length l)) in *. set (S1 := Rsum l) in *.
  set (S2 := Rsum (map (fun x => x * x) l)) in *.
  assert (E : S2 - 2 * (S1 / n) * S1 + n * (S1 / n * (S1 / n))
              = n * (S2 / n - S1 / n * (S1 / n))) by (field; lra).
  rewrite E in H.
  assert (0 <= S2 / n - S1 / n * (S1 / n)); [|lra].
  apply Rmult_le_reg_l with n; [exact Hn|]. lra.
Qed.

Lemma abs_mean_le_rms (l : list R) :
  l <> [] ->
  Rabs (Rsum l / INR (List.length l))
  <= sqrt (Rsum (map (fun x => x * x) l) / INR (List.length l)).
Proof.
  intros Hne. rewrite <- sqrt_Rsqr_abs. apply sqrt_le_1_alt.
  unfold Rsqr. apply mean_square_le. exact Hne.
Qed.

Lemma fold_left_Rmin_le (t : list R) :
  forall x y, In y (x :: t) -> fold_left Rmin t x <= y.
Proof.
  induction t as [|a t IH]; intros x y Hy; cbn [fold_left].
  - destruct Hy as [<- | []]. lra.
  - destruct Hy as [<- | [<- | Hy]].
    + eapply Rle_trans; [apply IH; left; reflexivity | apply Rmin_l].
    + eapply Rle_trans; [apply IH; left; reflexivity | apply Rmin_r].
    + apply IH. right. exact Hy.
Qed.

Lemma fold_left_Rmax_ge (t : list R) :
  forall x y, In y (x :: t) -> y <= fold_left Rmax t x.
Proof.
  induction t as [|a t IH]; intros x y Hy; cbn [fold_left].
  - destruct Hy as [<- | []]. lra.
  - destruct Hy as [<- | [<- | Hy]].
    + eapply Rle_trans; [apply Rmax_l | apply IH; left; reflexivity].
    + eapply Rle_trans; [apply Rmax_r | apply IH; left; reflexivity].
    + apply IH. right. exact Hy.
Qed.

Lemma Rsum_between (lo hi : R) (l : list R) :
  (forall y, In y l -> lo <= y <= hi) ->
  INR (List.length l) * lo <= Rsum l <= INR (List.length l) * hi.
Proof.
  induction l as [|x l IH]; intros H.
  - simpl. lra.
  - cbn [Rsum fold_right List.length]. fold (Rsum l). rewrite S_INR.
    pose proof (H x (or_introl eq_refl)).
    assert (IH' : INR (List.length l) * lo <= Rsum l <= INR (List.length l) * hi).
    { apply IH. intros y Hy. apply H. right. exact Hy. }
    lra.
Qed.

Lemma In_insert_sorted (x y : R) (l : list R) :
  In y (insert_sorted x l) <-> y = x \/ In y l.
Proof.
  induction l as [|a l IH]; cbn [insert_sorted In].
  - intuition.
  - destruct (Rleb x a); cbn [In]; [intuition | rewrite IH; intuition].
Qed.

Lemma In_sorted_values (y : R) (l : list R) :
  In y (sorted_values l) <-> In y l.
Proof.
  induction l as [|a l IH]; [reflexivity|].
  unfold sorted_values in *. cbn [fold_right]. rewrite In_insert_sorted, IH.
  cbn [In]. intuition.
Qed.

Lemma length_insert_sorted (x : R) (l : list R) :
  List.length (insert_sorted x l) = S (List.length l).
Proof.
  induction l as [|a l IH]; [reflexivity|]. cbn [insert_sorted].
  destruct (Rleb x a); cbn [List.length]; [reflexivity | rewrite IH; reflexivity].
Qed.

Lemma length_sorted_values (l : list R) :
  List.length (sorted_values l) = List.length l.
Proof.
  induction l as [|a l IH]; [reflexivity|].
  unfold sorted_values in *. cbn [fold_right]. rewrite length_insert_sorted, IH.
  reflexivity.
Qed.

(** Minimum, mean, median and maximum of a column, in this order. *)
Lemma Series_order (xs : list (option R)) (lo hi m md : R) :
  Series_min xs = Some lo -> Series_max xs = Some hi ->
  Series_mean xs = Some m -> Series_median xs = Some md ->
  lo <= m <= hi /\ lo <= md <= hi.
Proof.
  unfold Series_min, Series_max, Series_mean, Series_median.
  destruct (dropna_values xs) as [|x t] eqn:Ev; [discriminate|].
  intros Hlo Hhi Hm Hmd. injection Hlo as <-. injection Hhi as <-.
  assert (Em : m = Rsum (x :: t) / INR (List.length (x :: t)))
    by (injection Hm as <-; reflexivity).
  clear Hm.
  assert (Hb : forall y, In y (x :: t) ->
                         fold_left Rmin t x <= y <= fold_left Rmax t x).
  { intros y Hy. split; [apply fold_left_Rmin_le | apply fold_left_Rmax_ge]; exact Hy. }
  split.
  - pose proof (Rsum_between _ _ _ Hb) as Hs.
    assert (Hn : 0 < INR (List.length (x :: t))) by (apply lt_0_INR; simpl; lia).
    set (n := INR (List.length (x :: t))) in *. set (S1 := Rsum (x :: t)) in *.
    rewrite Em. split.
    + apply Rmult_le_reg_l with n; [exact Hn|].
      replace (n * (S1 / n)) with S1 by (field; lra). exact (proj1 Hs).
    + apply Rmult_le_reg_l with n; [exact Hn|].
      replace (n * (S1 / n)) with S1 by (field; lra). exact (proj2 Hs).
  - assert (Hs : forall i, (i < List.length (x :: t))%nat ->
               fold_left Rmin t x <= getR (sorted_values (x :: t)) i
                                  <= fold_left Rmax t x).
    { intros i Hi. apply Hb. apply In_sorted_values. unfold getR.
      apply nth_In. rewrite length_sorted_values. exact Hi. }
    rewrite length_sorted_values in Hmd.
    set (n := List.length (x :: t)) in *.
    assert (Hn : (0 < n)%nat) by (unfold n; simpl; lia).
    destruct n as [|n'] eqn:En; [lia|].
    assert (Hhalf : (S n' / 2 < S n')%nat) by (apply Nat.div_lt; lia).
    destruct (Nat.even (S n')) eqn:Eev.
    + assert (Emd : md = (getR (sorted_values (x :: t)) (S n' / 2 - 1)
                          + getR (sorted_values (x :: t)) (S n' / 2)) / 2)
        by (injection Hmd as <-; reflexivity).
      pose proof (Hs (S n' / 2 - 1)%nat ltac:(lia)).
      pose proof (Hs (S n' / 2)%nat Hhalf). lra.
    + assert (Emd : md = getR (sorted_values (x :: t)) (S n' / 2))
        by (injection Hmd as <-; reflexivity).
      rewrite Emd. apply Hs. exact Hhalf.
Qed.

(** ** Invariants of the statistics *)

Lemma filter_filter {A} (f g : A -> bool) (l : list A) :
  filter f (filter g l) = filter (fun x => g x && f x) l.
Proof.
  induction l as [|x l IH]; [reflexivity|]. cbn [filter].
  destruct (g x); cbn [filter andb]; [destruct (f x)|]; rewrite IH; reflexivity.
Qed.

Lemma add_errors_defined (r : row) :
  is_some (Epicenter_Error_km (add_errors r))
  = is_some (EEW_Lat r) && is_some (EEW_Lon r).
Proof.
  unfold add_errors. cbn [Epicenter_Error_km].
  destruct (EEW_Lat r), (EEW_Lon r); reflexivity.
Qed.

(** The records the statistics are taken over, seen from the frame. *)
Lemma detected_of_rows (rows : list row) :
  filter (fun a => is_some (Epicenter_Error_km a))
    (map add_errors (filter (fun r => contains "Y" (Type_ r)) rows))
  = map add_errors (filter counted_detected rows).
Proof.
  rewrite filter_map_swap, filter_filter. f_equal.
  apply filter_ext. intros r. unfold counted_detected.
  rewrite add_errors_defined, andb_assoc. reflexivity.
Qed.

Ltac run_get_statistics Ha Hd Hn :=
  unfold get_statistics; rewrite Ha; unfold bind at 1; rewrite Ha, Hd;
  unfold truediv, bind;
  match goal with
  | |- context [len ?all] =>
      let E := fresh "Elen" in destruct (len all) eqn:E; [contradiction|]
  end;
  eexists; split; [reflexivity|];
  cbn [total_earthquakes eew_detected missed_events detection_rate
       epicenter_error_mean_km epicenter_error_std_km epicenter_error_median_km
       epicenter_error_max_km epicenter_error_min_km
       magnitude_error_mean magnitude_error_std magnitude_error_rms
       depth_error_mean_km depth_error_std_km
       processing_time_mean_s processing_time_std_s processing_time_median_s
       processing_time_max_s processing_time_min_s inland_offshore].

Section StatisticsInvariants.

Variable float : string -> option R.

(** What a successful [calculate_errors] leaves behind. *)
Lemma calculate_errors_result (self0 self : EEWSAnalyzer) (analyzed : list arow) :
  calculate_errors float self0 = Ok (analyzed, self) ->
  exists rows,
    df self = Some (Frame rows)
    /\ analyzed = map add_errors (filter (fun r => contains "Y" (Type_ r)) rows)
    /\ df_analyzed self = Some analyzed.
Proof.
  intros Hc. unfold calculate_errors, bind in Hc.
  destruct (match df self0 with
            | Some _ => Ok self0
            | None => match load_data float self0 with
                      | Ok a => Ok (snd a)
                      | Raise e => Raise e
                      end
            end) as [s0|]; [|discriminate Hc].
  destruct (df s0) as [[|rows]|] eqn:Ed; try discriminate Hc.
  injection Hc as <- <-. exists rows. cbn [df df_analyzed]. repeat split.
Qed.

(** X8. After [calculate_errors] on a non-empty frame, [get_statistics]
    returns counts that add up: the total is the number of rows of the
    frame, the detected events are the rows whose type contains [Y] and whose
    alert coordinates are present (a [Y] row without alert fields counts as
    missed), the missed events are all the others, and the detection rate
    lies between 0 and 100. *)
Theorem statistics_counts (self0 self : EEWSAnalyzer) (analyzed : list arow)
    (rows : list row) :
  calculate_errors float self0 = Ok (analyzed, self) ->
  df self = Some (Frame rows) -> rows <> [] ->
  exists s,
    get_statistics float self = Ok (s, self)
    /\ total_earthquakes s = List.length rows
    /\ eew_detected s = List.length (filter counted_detected rows)
    /\ missed_events s
       = Z.of_nat (List.length (filter (fun r => negb (counted_detected r)) rows))
    /\ 0 <= detection_rate s <= 100.
Proof.
  intros Hc Hd Hne.
  destruct (calculate_errors_result _ _ _ Hc) as [rows' [Hd' [-> Ha]]].
  rewrite Hd in Hd'. injection Hd' as <-.
  assert (Hn : len (Frame rows) <> O) by (destruct rows; [contradiction | discriminate]).
  run_get_statistics Ha Hd Hn.
  rewrite detected_of_rows, length_map.
  cbn [len] in Elen. rewrite <- Elen.
  pose proof (filter_length counted_detected rows) as Hfl.
  pose proof (filter_length_le counted_detected rows) as Hle.
  split; [reflexivity|]. split; [reflexivity|]. split; [lia|].
  assert (Hpos : 0 < INR (List.length rows)) by (apply lt_0_INR; lia).
  pose proof (pos_INR (List.length (filter counted_detected rows))) as H0.
  apply le_INR in Hle.
  set (k := INR (List.length (filter counted_detected rows))) in *.
  set (m := INR (List.length rows)) in *.
  assert (0 <= k / m <= 1); [|lra].
  split.
  - apply Rmult_le_reg_l with m; [exact Hpos|].
    replace (m * (k / m)) with k by (field; lra). lra.
  - apply Rmult_le_reg_l with m; [exact Hpos|].
    replace (m * (k / m)) with k by (field; lra). lra.
Qed.

(** X9. [get_statistics] never recomputes the error columns once they
    exist: when a caller assigns another frame to [self.df] after
    [calculate_errors], the detected count is still that of the earlier
    analysis and only the total follows the new frame, so a frame with fewer
    rows than detected events gives a negative number of missed events and a
    detection rate above 100. *)
Theorem get_statistics_reuses_analysis (self0 self : EEWSAnalyzer)
    (analyzed : list arow) (d' : DataFrame) :
  calculate_errors float self0 = Ok (analyzed, self) ->
  len d' <> O ->
  exists s,
    get_statistics float (set_df d' self) = Ok (s, set_df d' self)
    /\ total_earthquakes s = len d'
    /\ eew_detected s
       = List.length (filter (fun a => is_some (Epicenter_Error_km a)) analyzed)
    /\ ((len d' < eew_detected s)%nat ->
        (missed_events s < 0)%Z /\ 100 < detection_rate s).
Proof.
  intros Hc Hn.
  destruct (calculate_errors_result _ _ _ Hc) as [rows [_ [_ Ha]]].
  assert (Ha' : df_analyzed (set_df d' self) = Some analyzed) by exact Ha.
  assert (Hd' : df (set_df d' self) = Some d') by reflexivity.
  run_get_statistics Ha' Hd' Hn.
  split; [reflexivity|]. split; [reflexivity|].
  set (k := List.length (filter (fun a => is_some (Epicenter_Error_km a)) analyzed)).
  intros Hlt. split; [lia|].
  assert (Hpos : 0 < INR (S n)) by (apply lt_0_INR; lia).
  apply lt_INR in Hlt.
  assert (1 < INR k / INR (S n)); [|lra].
  apply Rmult_lt_reg_l with (INR (S n)); [exact Hpos|].
  replace (INR (S n) * (INR k / INR (S n))) with (INR k) by (field; lra). lra.
Qed.

(** X10. The root mean square of the magnitude error is never below its
    mean: whenever [get_statistics] reports a mean magnitude error [m] it
    reports an RMS [r] with [|m| <= r]. *)
Theorem magnitude_rms_at_least_mean (self : EEWSAnalyzer) (analyzed : list arow)
    (all : DataFrame) :
  df_analyzed self = Some analyzed -> df self = Some all -> len all <> O ->
  exists s,
    get_statistics float self = Ok (s, self)
    /\ forall m, magnitude_error_mean s = Some m ->
                 exists r, magnitude_error_rms s = Some r /\ Rabs m <= r.
Proof.
  intros Ha Hd Hn. run_get_statistics Ha Hd Hn.
  set (xs := map Magnitude_Error
               (filter (fun a => is_some (Epicenter_Error_km a)) analyzed)).
  unfold rms, Series_mean. rewrite dropna_values_map.
  destruct (dropna_values xs) as [|x t] eqn:Ev; [discriminate|].
  intros m Hm.
  assert (Em : m = Rsum (x :: t) / INR (List.length (x :: t)))
    by (injection Hm as <-; reflexivity).
  exists (sqrt (Rsum (map (fun x0 => x0 * x0) (x :: t)) / INR (List.length (x :: t)))).
  split.
  - cbn [map nan_sqrt option_map List.length]. rewrite length_map. reflexivity.
  - rewrite Em. apply abs_mean_le_rms. discriminate.
Qed.

(** X11. For the epicenter error and for the processing time the reported
    minimum, mean, median and maximum are consistent: the mean and the
    median lie between the minimum and the maximum. *)
Theorem statistics_order (self : EEWSAnalyzer) (analyzed : list arow)
    (all : DataFrame) :
  df_analyzed self = Some analyzed -> df self = Some all -> len all <> O ->
  exists s,
    get_statistics float self = Ok (s, self)
    /\ (forall lo hi m md,
          epicenter_error_min_km s = Some lo -> epicenter_error_max_km s = Some hi ->
          epicenter_error_mean_km s = Some m -> epicenter_error_median_km s = Some md ->
          lo <= m <= hi /\ lo <= md <= hi)
    /\ (forall lo hi m md,
          processing_time_min_s s = Some lo -> processing_time_max_s s = Some hi ->
          processing_time_mean_s s = Some m -> processing_time_median_s s = Some md ->
          lo <= m <= hi /\ lo <= md <= hi).
Proof.
  intros Ha Hd Hn. run_get_statistics Ha Hd Hn.
  split; intros lo hi m md; apply Series_order.
Qed.

(** X12. A non-empty record set without any detected event is no error:
    [get_statistics] returns a detection rate of 0 and leaves every error
    statistic undefined ([np.nan]), with no inland or offshore entries. *)
Theorem statistics_without_detections (self : EEWSAnalyzer)
    (analyzed : list arow) (all : DataFrame) :
  df_analyzed self = Some analyzed -> df self = Some all -> len all <> O ->
  filter (fun a => is_some (Epicenter_Error_km a)) analyzed = [] ->
  exists s,
    get_statistics float self = Ok (s, self)
    /\ eew_detected s = O /\ detection_rate s = 0
    /\ missed_events s = Z.of_nat (total_earthquakes s)
    /\ (forall dim, reported_mean dim s = None /\ reported_std dim s = None)
    /\ magnitude_error_rms s = None
    /\ epicenter_error_median_km s = None /\ epicenter_error_max_km s = None
    /\ epicenter_error_min_km s = None /\ processing_time_median_s s = None
    /\ processing_time_max_s s = None /\ processing_time_min_s s = None
    /\ inland_offshore s = None.
Proof.
  intros Ha Hd Hn He. run_get_statistics Ha Hd Hn. rewrite He.
  cbn [List.length map existsb INR]. repeat split; try lia.
  - unfold Rdiv. rewrite Rmult_0_l. lra.
  - destruct dim; reflexivity.
  - destruct dim; reflexivity.
Qed.

(** X13. With exactly one defined value in a dimension the reported mean
    is that value and the reported standard deviation is undefined
    ([np.nan]): the sample deviation needs two values. *)
Theorem statistics_of_single_value (self : EEWSAnalyzer) (analyzed : list arow)
    (all : DataFrame) (dim : dimension) (x : R) :
  df_analyzed self = Some analyzed -> df self = Some all -> len all <> O ->
  defined_values dim analyzed = [x] ->
  exists s,
    get_statistics float self = Ok (s, self)
    /\ reported_mean dim s = Some x /\ reported_std dim s = None.
Proof.
  intros Ha Hd Hn Hx. run_get_statistics Ha Hd Hn.
  unfold defined_values in Hx.
  assert (Hm : Series_mean
                 (map (column dim)
                    (filter (fun a => is_some (Epicenter_Error_km a)) analyzed))
               = Some x).
  { unfold Series_mean. rewrite Hx. cbn [Rsum fold_right List.length INR].
    f_equal. field. }
  assert (Hs : Series_std
                 (map (column dim)
                    (filter (fun a => is_some (Epicenter_Error_km a)) analyzed))
               = None).
  { unfold Series_std. rewrite Hx. reflexivity. }
  destruct dim; cbn [reported_mean reported_std column] in *;
    split; assumption.
Qed.

End StatisticsInvariants.

Lemma missed_line_parses :
  parse_line decimal_float missed_line = Ok (Some missed_record).
Proof.
  assert (H : exists r, parse_line decimal_float missed_line = Ok (Some r)
                        /\ r = missed_record).
  { eexists. split; [vm_compute; reflexivity|].
    unfold missed_record. repeat f_equal; lra. }
  destruct H as [r [H ->]]. exact H.
Qed.

Lemma only_missed_run :
  calculate_errors decimal_float
    (new_analyzer [header_line; missed_line] no_boundary)
  = Ok ([], only_missed).
Proof.
  unfold calculate_errors. cbn [new_analyzer df].
  fold (new_analyzer [header_line; missed_line] no_boundary).
  rewrite load_data_no_boundary by reflexivity.
  cbn [new_analyzer data_lines tl read_rows]. rewrite missed_line_parses.
  reflexivity.
Qed.

Lemma one_record_run :
  calculate_errors decimal_float
    (new_analyzer [header_line; detected_line] no_boundary)
  = Ok ([add_errors scenario_record], one_record).
Proof.
  unfold calculate_errors. cbn [new_analyzer df].
  fold (new_analyzer [header_line; detected_line] no_boundary).
  rewrite load_data_no_boundary by reflexivity.
  cbn [new_analyzer data_lines tl read_rows]. rewrite detected_line_parses.
  reflexivity.
Qed.

Lemma statistics_counts_witness :
  exists s,
    get_statistics decimal_float two_records = Ok (s, two_records)
    /\ total_earthquakes s = List.length [scenario_record; second_record]
    /\ eew_detected s
       = List.length (filter counted_detected [scenario_record; second_record])
    /\ missed_events s
       = Z.of_nat (List.length (filter (fun r => negb (counted_detected r))
                                  [scenario_record; second_record]))
    /\ 0 <= detection_rate s <= 100.
Proof.
  apply (statistics_counts decimal_float (new_analyzer two_lines no_boundary)
           two_records _ [scenario_record; second_record] two_lines_run eq_refl).
  discriminate.
Defined.

Lemma get_statistics_reuses_analysis_witness :
  exists s,
    get_statistics decimal_float (set_df (Frame [scenario_record]) two_records)
    = Ok (s, set_df (Frame [scenario_record]) two_records)
    /\ total_earthquakes s = len (Frame [scenario_record])
    /\ eew_detected s
       = List.length (filter (fun a => is_some (Epicenter_Error_km a))
                        [add_errors scenario_record; add_errors second_record])
    /\ ((len (Frame [scenario_record]) < eew_detected s)%nat ->
        (missed_events s < 0)%Z /\ 100 < detection_rate s).
Proof.
  apply (get_statistics_reuses_analysis decimal_float
           (new_analyzer two_lines no_boundary) two_records _
           (Frame [scenario_record]) two_lines_run).
  discriminate.
Defined.

Lemma magnitude_rms_at_least_mean_witness :
  exists s,
    get_statistics decimal_float two_records = Ok (s, two_records)
    /\ forall m, magnitude_error_mean s = Some m ->
                 exists r, magnitude_error_rms s = Some r /\ Rabs m <= r.
Proof.
  apply (magnitude_rms_at_least_mean decimal_float two_records _
           (Frame [scenario_record; second_record]) eq_refl eq_refl).
  discriminate.
Defined.

Lemma statistics_order_witness :
  exists s,
    get_statistics decimal_float two_records = Ok (s, two_records)
    /\ (forall lo hi m md,
          epicenter_error_min_km s = Some lo -> epicenter_error_max_km s = Some hi ->
          epicenter_error_mean_km s = Some m -> epicenter_error_median_km s = Some md ->
          lo <= m <= hi /\ lo <= md <= hi)
    /\ (forall lo hi m md,
          processing_time_min_s s = Some lo -> processing_time_max_s s = Some hi ->
          processing_time_mean_s s = Some m -> processing_time_median_s s = Some md ->
          lo <= m <= hi /\ lo <= md <= hi).
Proof.
  apply (statistics_order decimal_float two_records _
           (Frame [scenario_record; second_record]) eq_refl eq_refl).
  discriminate.
Defined.

Lemma statistics_without_detections_witness :
  exists s,
    get_statistics decimal_float only_missed = Ok (s, only_missed)
    /\ eew_detected s = O /\ detection_rate s = 0
    /\ missed_events s = Z.of_nat (total_earthquakes s)
    /\ (forall dim, reported_mean dim s = None /\ reported_std dim s = None)
    /\ magnitude_error_rms s = None
    /\ epicenter_error_median_km s = None /\ epicenter_error_max_km s = None
    /\ epicenter_error_min_km s = None /\ processing_time_median_s s = None
    /\ processing_time_max_s s = None /\ processing_time_min_s s = None
    /\ inland_offshore s = None.
Proof.
  apply (statistics_without_detections decimal_float only_missed []
           (Frame [missed_record]) eq_refl eq_refl).
  - discriminate.
  - reflexivity.
Defined.

Lemma statistics_of_single_value_witness :
  exists s,
    get_statistics decimal_float one_record = Ok (s, one_record)
    /\ reported_mean ProcessingTime s = Some 8.0
    /\ reported_std ProcessingTime s = None.
Proof.
  apply (statistics_of_single_value decimal_float one_record
           [add_errors scenario_record] (Frame [scenario_record])
           ProcessingTime 8.0 eq_refl eq_refl).
  - discriminate.
  - reflexivity.
Defined.

(** ** Inland and offshore subsets *)

Lemma stats_of_subset_none (l : list arow) :
  stats_of_subset l = None <-> List.length l = O.
Proof. destruct l; simpl; split; intros H; try reflexivity; discriminate. Qed.

Lemma classified_partition (d : list arow) :
  Forall (fun a => is_some (Is_Inland (base a)) = true) d ->
  (List.length (filter (is_inland_eq true) d)
   + List.length (filter (is_inland_eq false) d))%nat = List.length d.
Proof.
  intros H. rewrite <- (filter_length (is_inland_eq true) d). f_equal. f_equal.
  apply filter_ext_in. intros a Ha. rewrite Forall_forall in H.
  specialize (H a Ha). unfold is_inland_eq.
  destruct (Is_Inland (base a)) as [[|]|]; [reflexivity | reflexivity | discriminate].
Qed.

Section Breakdown.

Variable float : string -> option R.

Lemma load_data_classified (self self' : EEWSAnalyzer) (d : DataFrame) :
  boundary_lons (boundary self) <> [] ->
  load_data float self = Ok (d, self') ->
  Forall (fun r => Is_Inland r = check_inland (boundary self) (Cat_Lon r) (Cat_Lat r)
                   /\ is_some (Is_Inland r) = true) (rows_of d)
  /\ df self' = Some d.
Proof.
  intros Hb H. unfold load_data, bind in H.
  destruct (read_rows float (tl (data_lines self))) as [data|]; [|discriminate H].
  destruct (boundary_lons (boundary self)) as [|x lons] eqn:Eb; [contradiction|].
  destruct (DataFrame_of data) as [|rows]; cbn [add_Is_Inland] in H; [discriminate H|].
  injection H as <- <-. split; [|reflexivity]. cbn [rows_of].
  apply Forall_forall. intros r Hr. apply in_map_iff in Hr.
  destruct Hr as [r0 [<- _]]. cbn [set_Is_Inland Is_Inland Cat_Lon Cat_Lat].
  split; [reflexivity|]. unfold check_inland. rewrite Eb. reflexivity.
Qed.

Lemma breakdown_of_classified (self : EEWSAnalyzer) (analyzed : list arow)
    (all : DataFrame) :
  df_analyzed self = Some analyzed -> df self = Some all -> len all <> O ->
  Forall (fun a => is_some (Is_Inland (base a)) = true) analyzed ->
  exists s,
    get_statistics float self = Ok (s, self)
    /\ ((eew_detected s = O /\ inland_offshore s = None)
        \/ exists bd,
             inland_offshore s = Some bd
             /\ (inland_count bd + offshore_count bd)%nat = eew_detected s
             /\ (inland bd = None <-> inland_count bd = O)
             /\ (offshore bd = None <-> offshore_count bd = O)).
Proof.
  intros Ha Hd Hn Hc. run_get_statistics Ha Hd Hn.
  assert (Hcd : Forall (fun a => is_some (Is_Inland (base a)) = true)
                  (filter (fun a => is_some (Epicenter_Error_km a)) analyzed)).
  { apply Forall_forall. intros a Hin. apply filter_In in Hin.
    rewrite Forall_forall in Hc. apply Hc. apply Hin. }
  destruct (filter (fun a => is_some (Epicenter_Error_km a)) analyzed)
    as [|a d] eqn:Ed.
  - left. split; reflexivity.
  - right. assert (Hex : existsb (fun a0 => is_some (Is_Inland (base a0))) (a :: d) = true).
    { cbn [existsb]. inversion Hcd as [|? ? Hx _]; subst. rewrite Hx. reflexivity. }
    rewrite Hex. eexists. split; [reflexivity|].
    cbn [inland_count offshore_count inland offshore].
    split; [apply classified_partition; exact Hcd|].
    split; apply stats_of_subset_none.
Qed.

(** X14. In a run with a boundary, the inland and offshore counts that
    [get_statistics] reports add up to the number of detected events, and the
    statistics of a subset are present exactly when the subset is not empty;
    when there is no detected event the inland and offshore entries are
    absent altogether. *)
Theorem inland_offshore_partition (lines : list string) (b : Boundary)
    (s : stats) (self' : EEWSAnalyzer) :
  boundary_lons b <> [] ->
  get_statistics float (new_analyzer lines b) = Ok (s, self') ->
  (eew_detected s = O /\ inland_offshore s = None)
  \/ exists bd,
       inland_offshore s = Some bd
       /\ (inland_count bd + offshore_count bd)%nat = eew_detected s
       /\ (inland bd = None <-> inland_count bd = O)
       /\ (offshore bd = None <-> offshore_count bd = O).
Proof.
  intros Hb H.
  destruct (calculate_errors float (new_analyzer lines b)) as [[analyzed self1]|] eqn:Hc.
  2:{ unfold get_statistics in H. cbn [new_analyzer df_analyzed] in H.
      fold (new_analyzer lines b) in H. rewrite Hc in H. discriminate H. }
  rewrite (get_statistics_fresh float (new_analyzer lines b) self1 analyzed
             eq_refl Hc) in H.
  destruct (calculate_errors_result float _ _ _ Hc) as [rows [Hd [-> Ha]]].
  assert (Hrows : Forall (fun r => is_some (Is_Inland r) = true) rows).
  { unfold calculate_errors, bind in Hc. cbn [new_analyzer df] in Hc.
    fold (new_analyzer lines b) in Hc.
    destruct (load_data float (new_analyzer lines b)) as [[d s1]|] eqn:El;
      [|discriminate Hc].
    destruct (load_data_classified (new_analyzer lines b) s1 d Hb El) as [Hf Hdf].
    cbn [snd] in Hc. rewrite Hdf in Hc. destruct d as [|rows']; [discriminate Hc|].
    injection Hc as _ <-. cbn [df] in Hd.
    injection Hd as <-. cbn [rows_of] in Hf.
    eapply Forall_impl; [|exact Hf]. intros r [_ Hr]. exact Hr. }
  assert (Hcl : Forall (fun a => is_some (Is_Inland (base a)) = true)
                  (map add_errors (filter (fun r => contains "Y" (Type_ r)) rows))).
  { apply Forall_forall. intros a Hin. apply in_map_iff in Hin.
    destruct Hin as [r [<- Hr]]. apply filter_In in Hr. cbn [add_errors base].
    rewrite Forall_forall in Hrows. apply Hrows. apply Hr. }
  assert (Hn : len (Frame rows) <> O).
  { intros E. rewrite (get_statistics_no_records float self1 _ _ Ha Hd E) in H.
    discriminate H. }
  destruct (breakdown_of_classified self1 _ _ Ha Hd Hn Hcl) as [s0 [Hs0 Hres]].
  rewrite Hs0 in H. injection H as <- _. exact Hres.
Qed.

End Breakdown.

Lemma inland_offshore_partition_witness :
  exists s self',
    get_statistics decimal_float
      (new_analyzer [header_line; detected_line] (boundary_of square))
    = Ok (s, self')
    /\ ((eew_detected s = O /\ inland_offshore s = None)
        \/ exists bd,
             inland_offshore s = Some bd
             /\ (inland_count bd + offshore_count bd)%nat = eew_detected s
             /\ (inland bd = None <-> inland_count bd = O)
             /\ (offshore bd = None <-> offshore_count bd = O)).
Proof.
  assert (H : {p | get_statistics decimal_float
                     (new_analyzer [header_line; detected_line] (boundary_of square))
                   = Ok p}).
  { eexists. reflexivity. }
  destruct H as [[s self'] H]. exists s, self'. split; [exact H|].
  apply (inland_offshore_partition decimal_float
           [header_line; detected_line] (boundary_of square) s self');
    [discriminate | exact H].
Defined.

(** ** Filters and event lists *)

Section QueryFacts.

Variable float : string -> option R.

Lemma query_loaded (mask : row -> bool) (self : EEWSAnalyzer) (rows : list row) :
  df self = Some (Frame rows) ->
  query float mask self = Ok (Frame (filter mask rows), self).
Proof. intros H. unfold query, bind. rewrite H. cbn [df]. rewrite H. reflexivity. Qed.

Lemma query_set_df (mask : row -> bool) (self : EEWSAnalyzer) (rows : list row) :
  query float mask (set_df (Frame rows) self)
  = Ok (Frame (filter mask rows), set_df (Frame rows) self).
Proof. apply query_loaded. reflexivity. Qed.

(** X15. Chaining the magnitude filter and the depth filter through
    [analyzer.df], as the command-line scripts do, leaves the frame of the
    rows that pass both conditions, in file order, whichever filter comes
    first; the rows of the result are rows of the frame before. *)
Theorem filters_chain (self : EEWSAnalyzer) (rows : list row)
    (min_mag max_mag max_depth : R) :
  df self = Some (Frame rows) ->
  let both := filter (fun r => magnitude_mask min_mag max_mag r
                               && depth_mask max_depth r) rows in
  magnitude_then_depth float self min_mag max_mag max_depth
  = Ok (set_df (Frame both) self)
  /\ depth_then_magnitude float self min_mag max_mag max_depth
     = Ok (set_df (Frame both) self)
  /\ incl both rows
  /\ Forall (fun r => min_mag <= Cat_Mag r <= max_mag /\ Cat_Depth r <= max_depth)
       both.
Proof.
  intros H both. unfold magnitude_then_depth, depth_then_magnitude,
    filter_by_magnitude, filter_by_depth.
  rewrite !(query_loaded _ self rows H). unfold bind. cbn [fst snd].
  rewrite !query_set_df. cbn [fst snd].
  rewrite !filter_filter. unfold set_df. cbn [data_lines boundary df_analyzed].
  split; [reflexivity|]. split.
  - do 4 f_equal. apply filter_ext. intros r. apply andb_comm.
  - split; [apply incl_filter|]. apply Forall_forall. intros r Hr.
    apply filter_In in Hr. destruct Hr as [_ Hr].
    unfold magnitude_mask, depth_mask in Hr.
    rewrite !andb_true_iff, !Rleb_true in Hr. lra.
Qed.

(** X16. Loading a data file without any record succeeds (when there is no
    boundary), but the frame it leaves has no columns: every filter and both
    event lists then raise [KeyError] instead of returning an empty frame. *)
Theorem queries_on_empty_file (lines : list string) (b : Boundary)
    (mask : row -> bool) :
  boundary_lons b = [] ->
  Forall (fun l => enough_tokens l = false) (tl lines) ->
  exists self',
    load_data float (new_analyzer lines b) = Ok (NoColumns, self')
    /\ query float mask self' = Raise KeyError
    /\ query float mask (new_analyzer lines b) = Raise KeyError
    /\ calculate_errors float self' = Raise KeyError.
Proof.
  intros Hb Hl.
  assert (E : read_rows float (tl lines) = Ok []).
  { induction (tl lines) as [|l rest IH]; [reflexivity|].
    inversion Hl as [|? ? Hk Hrest]; subst. cbn [read_rows]. unfold bind.
    destruct (parse_line_cases float l) as [[_ Ep] | [[Hk' _] | [Hk' _]]];
      try congruence.
    rewrite Ep, (IH Hrest). reflexivity. }
  assert (El : load_data float (new_analyzer lines b)
               = Ok (NoColumns, mkAnalyzer lines b (Some NoColumns) None)).
  { rewrite load_data_no_boundary by exact Hb.
    cbn [new_analyzer data_lines boundary df_analyzed]. rewrite E. reflexivity. }
  eexists. split; [exact El|]. split; [reflexivity|]. split.
  - unfold query. cbn [new_analyzer df]. fold (new_analyzer lines b).
    rewrite El. reflexivity.
  - reflexivity.
Qed.

(** X17. The detected events (type contains [Y]) and the missed events
    (type contains [N] or [L]) are counted independently: their numbers add
    up to the number of rows plus the rows that are in both lists minus the
    rows that are in neither.  They split the frame (their numbers add up
    to the number of rows, and every row is in one of them and not in the
    other) exactly when every type code contains [Y] or one of [N], [L], but
    not both. *)
Theorem detected_and_missed_counts (self : EEWSAnalyzer) (rows : list row) :
  df self = Some (Frame rows) ->
  exists det mis,
    get_detected_events float self = Ok (Frame det, self)
    /\ get_missed_events float self = Ok (Frame mis, self)
    /\ (List.length det + List.length mis
        + List.length (filter (fun r => negb (detected_mask r) && negb (missed_mask r)) rows)
        = List.length rows
          + List.length (filter (fun r => detected_mask r && missed_mask r) rows))%nat
    /\ (Forall (fun r => xorb (detected_mask r) (missed_mask r) = true) rows
        <-> ((List.length det + List.length mis)%nat = List.length rows
             /\ forall r, In r rows -> (In r det <-> ~ In r mis))).
Proof.
  intros H. unfold get_detected_events, get_missed_events.
  rewrite !(query_loaded _ self rows H).
  eexists. eexists. split; [reflexivity|]. split; [reflexivity|]. split.
  - clear H. induction rows as [|r rows IH]; [reflexivity|].
    cbn [filter]. destruct (detected_mask r), (missed_mask r);
      cbn [andb negb List.length]; lia.
  - split.
    + intros Hx. split.
      * clear H. induction rows as [|r rows IH]; [reflexivity|].
        inversion Hx as [|? ? Hr Hrest]; subst. specialize (IH Hrest).
        cbn [filter]. destruct (detected_mask r), (missed_mask r);
          cbn [xorb] in Hr; try discriminate Hr; cbn [List.length]; lia.
      * intros r Hr. rewrite Forall_forall in Hx. specialize (Hx r Hr).
        rewrite !filter_In. destruct (detected_mask r), (missed_mask r);
          cbn [xorb] in Hx; try discriminate Hx; intuition congruence.
    + intros [_ Hm]. apply Forall_forall. intros r Hr.
      specialize (Hm r Hr). rewrite !filter_In in Hm.
      destruct (detected_mask r), (missed_mask r); cbn [xorb];
        try reflexivity; exfalso.
      * destruct Hm as [Hm _]. apply Hm; split; [exact Hr | reflexivity |
                                                  exact Hr | reflexivity].
      * destruct Hm as [_ Hm].
        assert (Hn : ~ (In r rows /\ false = true)) by (intros [_ E]; discriminate E).
        destruct (Hm Hn) as [_ E]. discriminate E.
Qed.

End QueryFacts.

Lemma filters_chain_witness :
  let both := filter (fun r => magnitude_mask 5 10 r && depth_mask 40 r)
                [scenario_record; second_record] in
  magnitude_then_depth decimal_float two_records 5 10 40
  = Ok (set_df (Frame both) two_records)
  /\ depth_then_magnitude decimal_float two_records 5 10 40
     = Ok (set_df (Frame both) two_records)
  /\ incl both [scenario_record; second_record]
  /\ Forall (fun r => 5 <= Cat_Mag r <= 10 /\ Cat_Depth r <= 40) both.
Proof.
  apply (filters_chain decimal_float two_records
           [scenario_record; second_record] 5 10 40 eq_refl).
Defined.

Lemma queries_on_empty_file_witness :
  exists self',
    load_data decimal_float (new_analyzer [header_line] no_boundary)
    = Ok (NoColumns, self')
    /\ query decimal_float detected_mask self' = Raise KeyError
    /\ query decimal_float detected_mask (new_analyzer [header_line] no_boundary)
       = Raise KeyError
    /\ calculate_errors decimal_float self' = Raise KeyError.
Proof.
  apply (queries_on_empty_file decimal_float [header_line] no_boundary
           detected_mask eq_refl).
  constructor.
Defined.

Lemma detected_and_missed_counts_witness :
  exists det mis,
    get_detected_events decimal_float two_records = Ok (Frame det, two_records)
    /\ get_missed_events decimal_float two_records = Ok (Frame mis, two_records)
    /\ (List.length det + List.length mis
        + List.length (filter (fun r => negb (detected_mask r) && negb (missed_mask r))
                         [scenario_record; second_record])
        = List.length [scenario_record; second_record]
          + List.length (filter (fun r => detected_mask r && missed_mask r)
                           [scenario_record; second_record]))%nat
    /\ (Forall (fun r => xorb (detected_mask r) (missed_mask r) = true)
          [scenario_record; second_record]
        <-> ((List.length det + List.length mis)%nat
             = List.length [scenario_record; second_record]
             /\ forall r, In r [scenario_record; second_record] ->
                          (In r det <-> ~ In r mis))).
Proof.
  apply (detected_and_missed_counts decimal_float two_records
           [scenario_record; second_record] eq_refl).
Defined.

(** ** The loop of ana_forplot.py *)

Lemma time_files_single (pro_time : R) : exists f, time_files pro_time = [f].
Proof.
  destruct (Rle_lt_dec pro_time 10);
    [|destruct (Rle_lt_dec pro_time 15);
      [|destruct (Rle_lt_dec pro_time 20);
        [|destruct (Rle_lt_dec pro_time 25);
          [|destruct (Rle_lt_dec pro_time 30)]]]];
    eexists; unfold time_files; Rdecide; reflexivity.
Qed.

(** X18. Every processing time is written to exactly one of the six
    processing-time files: the six conditions split the real line into
    [<= 10], [(10, 15]], [(15, 20]], [(20, 25]], [(25, 30]] and [> 30]. *)
Theorem time_files_exactly_one (pro_time : R) :
  exists f, time_files pro_time = [f]
            /\ (f = pro_time_05 <-> pro_time <= 10)
            /\ (f = pro_time_10 <-> 10 < pro_time <= 15)
            /\ (f = pro_time_15 <-> 15 < pro_time <= 20)
            /\ (f = pro_time_20 <-> 20 < pro_time <= 25)
            /\ (f = pro_time_25 <-> 25 < pro_time <= 30)
            /\ (f = pro_time_30 <-> 30 < pro_time).
Proof.
  destruct (Rle_lt_dec pro_time 10);
    [exists pro_time_05
    | destruct (Rle_lt_dec pro_time 15);
      [exists pro_time_10
      | destruct (Rle_lt_dec pro_time 20);
        [exists pro_time_15
        | destruct (Rle_lt_dec pro_time 25);
          [exists pro_time_20
          | destruct (Rle_lt_dec pro_time 30);
            [exists pro_time_25 | exists pro_time_30]]]]];
    (split; [unfold time_files; Rdecide; reflexivity|]);
    repeat split; intros;
    first [reflexivity | congruence | lra | exfalso; lra].
Qed.

Section ScriptFacts.

Variable float : string -> option R.
Variables (tlon tlat : list R) (num_boundary : nat).

Lemma write_time_files_same (lon1 lat1 pro_time : R) (st : script_state) :
  counters (write_time_files lon1 lat1 pro_time st) = counters st
  /\ lists (write_time_files lon1 lat1 pro_time st) = lists st
  /\ data_dat (write_time_files lon1 lat1 pro_time st) = data_dat st
  /\ files (write_time_files lon1 lat1 pro_time st) yes = files st yes
  /\ files (write_time_files lon1 lat1 pro_time st) no = files st no
  /\ files (write_time_files lon1 lat1 pro_time st) miss = files st miss
  /\ total_time_lines (write_time_files lon1 lat1 pro_time st)
     = S (total_time_lines st).
Proof.
  destruct (time_files_single pro_time) as [f E].
  unfold write_time_files. rewrite E. cbn [fold_left].
  repeat split.
  unfold total_time_lines. destruct f; simpl; rewrite length_app; simpl; lia.
Qed.

Ltac bind_case H :=
  match type of H with
  | context [script_bind ?m _] =>
      let E := fresh "E" in
      destruct m eqn:E; cbn [script_bind] in H; [|discriminate H]
  end.

Ltac keep_or_go H :=
  match type of H with
  | (if ?c then Returns ?s else _) = Returns _ =>
      let C := fresh "C" in
      destruct c eqn:C; [injection H as <-; left; reflexivity|]
  end.

Lemma branch_Y_effect (rr : string) (st st' : script_state) :
  branch_Y float tlon tlat num_boundary rr st = Returns st' ->
  st' = st \/ adds_detected rr st st'.
Proof.
  intros H. unfold branch_Y in H.
  do 7 bind_case H.
  do 6 keep_or_go H.
  do 2 bind_case H.
  right. injection H as <-.
  unfold Rgtb in *. rewrite Rltb_false in *.
  match goal with
  | |- context [write_time_files ?x ?y ?z ?s] =>
      destruct (write_time_files_same x y z s) as [Wc [Wl [Wd [Wy [Wn [Wm Wt]]]]]];
      remember (write_time_files x y z s) as w eqn:Ew; clear Ew
  end.
  unfold total_time_lines in *. simpl in Wt.
  exists a, a0, a2, a1, (delaz a0 a a4 a3), (Rabs (a1 - a5)), a6.
  destruct (check_seis_r tlon tlat a a0 num_boundary 1.0 =? 1)%Z;
    destruct (Rltb a7 0.1); cbn [negb];
    repeat match goal with
           | |- _ /\ _ => split
           end;
    try lra;
    try (simpl; rewrite ?Wc, ?Wl, ?Wd, ?Wy, ?Wn, ?Wm; simpl; reflexivity);
    try (simpl; exact Wt);
    try (first [ left; split; simpl; rewrite ?Wl; simpl; reflexivity
               | right; split; simpl; rewrite ?Wl; simpl; reflexivity ]);
    first [ left; repeat split; simpl; rewrite ?Wl; simpl; reflexivity
          | right; exists a7; split; [simpl; rewrite ?Wl; simpl; reflexivity|];
            first [ left; split; simpl; rewrite ?Wl; simpl; reflexivity
                  | right; split; simpl; rewrite ?Wl; simpl; reflexivity ] ].
Qed.

(** The four things one round can do. *)
Lemma script_step_effect (rr : string) (st st' : script_state) :
  script_step float tlon tlat num_boundary rr st = Returns st' ->
  st' = st \/ adds_detected rr st st' \/ adds_no st st' \/ adds_miss st st'.
Proof.
  intros H. unfold script_step in H.
  do 4 bind_case H.
  destruct (Rltb a1 5.0) eqn:Cm; [injection H as <-; left; reflexivity|].
  destruct (Rgtb a2 40.0) eqn:Cd; [injection H as <-; left; reflexivity|].
  unfold Rgtb in Cd. rewrite Rltb_false in Cm, Cd.
  bind_case H.
  destruct (Ascii.eqb a3 "Y") eqn:CY.
  - apply Ascii.eqb_eq in CY. subst a3. cbn [Ascii.eqb Bool.eqb andb] in H.
    bind_case H. cbn [script_bind] in H. injection H as <-.
    destruct (branch_Y_effect _ _ _ E4) as [-> | Hy]; [left; reflexivity|].
    right. left. exact Hy.
  - cbn [script_bind] in H. destruct (Ascii.eqb a3 "N") eqn:CN.
    + apply Ascii.eqb_eq in CN. subst a3. cbn [Ascii.eqb Bool.eqb andb] in H.
      bind_case H. injection H as <-. unfold branch_N in E4.
      rewrite E, E0, E1, E2 in E4. cbn [script_bind] in E4. injection E4 as <-.
      right. right. left. exists a, a0, a2, a1.
      repeat split; try lra; try reflexivity; simpl; reflexivity.
    + cbn [script_bind] in H. destruct (Ascii.eqb a3 "L") eqn:CL.
      * unfold branch_L in H. rewrite E, E0, E1, E2 in H.
        cbn [script_bind] in H. injection H as <-.
        right. right. right. exists a, a0, a2, a1.
        repeat split; try lra; try reflexivity; try (simpl; reflexivity).
        intros v Hv1 Hv2. simpl.
        destruct (list_var_eq_dec v miss_dep); [contradiction|].
        destruct (list_var_eq_dec v miss_mag); [contradiction|]. reflexivity.
      * injection H as <-. left. reflexivity.
Qed.

Lemma script_start_invariant : script_invariant script_start.
Proof. constructor; simpl; repeat split; try reflexivity; lia. Qed.

Lemma script_start_filtered : script_filtered script_start.
Proof. constructor; simpl; constructor. Qed.

Lemma script_step_invariant (rr : string) (st st' : script_state) :
  script_invariant st ->
  script_step float tlon tlat num_boundary rr st = Returns st' ->
  script_invariant st'.
Proof.
  intros [I1 I2 I3 I4 I5 I6 I7 [I8 I8'] I9 [I10 [I11 I12]] I13] H.
  destruct (script_step_effect _ _ _ H) as [-> | [Hy | [Hn | Hl]]].
  - constructor; auto.
  - destruct Hy as (lon1 & lat1 & dep1 & mag1 & dis & diff & pro_time
                    & Hc & HcN & HcL & Hat & Hle & Hme & Hsq & Hyes & Hdd & _
                    & Hsplit & Htl & Hf42 & Hno & Hmiss & Hmm & Hmd).
    constructor; rewrite ?Hc, ?HcN, ?HcL, ?Hat, ?Hle, ?Hme, ?Hsq, ?Hyes, ?Hdd,
                   ?Htl, ?Hno, ?Hmiss, ?Hmm, ?Hmd, ?length_app; cbn [List.length];
      try lia; auto.
    + destruct Hsplit as [[-> ->] | [-> ->]]; rewrite length_app; cbn [List.length]; lia.
    + destruct Hf42 as [[-> [-> ->]] | [t1 [-> [[-> ->] | [-> ->]]]]];
        rewrite ?length_app; cbn [List.length]; lia.
    + rewrite map_app, I13. reflexivity.
  - destruct Hn as (lon1 & lat1 & dep1 & mag1 & _ & _ & Hc & HcY & HcL & Hl & Hdd
                    & Hno & Hyes & Hmiss & Htl).
    constructor; rewrite ?Hc, ?HcY, ?HcL, ?Hl, ?Hdd, ?Hno, ?Hyes, ?Hmiss, ?Htl,
                   ?length_app; cbn [List.length]; try lia; auto.
  - destruct Hl as (lon1 & lat1 & dep1 & mag1 & _ & _ & Hc & HcY & HcN & Hmm & Hmd
                    & Hother & Hdd & Hmiss & Hyes & Hno & Htl).
    constructor;
      rewrite ?Hc, ?HcY, ?HcN, ?Hmm, ?Hmd, ?Hdd, ?Hmiss, ?Hyes, ?Hno, ?Htl,
        ?(Hother all_time), ?(Hother loc_err), ?(Hother mag_err),
        ?(Hother inland_time), ?(Hother offshore_time), ?(Hother all_time_f42),
        ?(Hother inland_time_f42), ?(Hother offshore_time_f42),
        ?(Hother arrmag_sd), ?length_app by discriminate;
      cbn [List.length]; try lia; auto.
Qed.

Lemma script_step_filtered (rr : string) (st st' : script_state) :
  script_filtered st ->
  script_step float tlon tlat num_boundary rr st = Returns st' ->
  script_filtered st'.
Proof.
  intros [F1 F2 F3] H.
  destruct (script_step_effect _ _ _ H) as [-> | [Hy | [Hn | Hl]]].
  - constructor; auto.
  - destruct Hy as (lon1 & lat1 & dep1 & mag1 & dis & diff & pro_time
                    & _ & _ & _ & _ & _ & _ & _ & Hyes & _ & Hr
                    & _ & _ & _ & Hno & Hmiss & _).
    constructor; rewrite ?Hyes, ?Hno, ?Hmiss; auto.
    apply Forall_app. split; [exact F1|]. constructor; [|constructor].
    split; exists lon1, lat1, dep1, mag1; (split; [reflexivity | lra]).
  - destruct Hn as (lon1 & lat1 & dep1 & mag1 & Hm & Hd & _ & _ & _ & _ & _
                    & Hno & Hyes & Hmiss & _).
    constructor; rewrite ?Hyes, ?Hno, ?Hmiss; auto.
    apply Forall_app. split; [exact F2|]. constructor; [|constructor].
    exists lon1, lat1, dep1, mag1. split; [reflexivity | lra].
  - destruct Hl as (lon1 & lat1 & dep1 & mag1 & Hm & Hd & _ & _ & _ & _ & _
                    & _ & _ & Hmiss & Hyes & Hno & _).
    constructor; rewrite ?Hyes, ?Hno, ?Hmiss; auto.
    apply Forall_app. split; [exact F3|]. constructor; [|constructor].
    exists lon1, lat1, dep1, mag1. split; [reflexivity | lra].
Qed.

Lemma script_loop_keeps (P : script_state -> Prop) :
  (forall rr st st', P st ->
      script_step float tlon tlat num_boundary rr st = Returns st' -> P st') ->
  forall lines st st',
    P st -> script_loop float tlon tlat num_boundary lines st = Returns st' -> P st'.
Proof.
  intros Hstep. induction lines as [|rr rest IH]; intros st st' HP H;
    cbn [script_loop] in H.
  - injection H as <-. exact HP.
  - destruct (script_step float tlon tlat num_boundary rr st) as [st1|] eqn:E;
      cbn [script_bind] in H; [|discriminate H].
    exact (IH _ _ (Hstep _ _ _ HP E) H).
Qed.

(** X19. Whenever the script's loop runs to its end, its counters, lists
    and files agree: [count_Y] is the length of [all_time], [loc_err],
    [mag_err] and of the file [yes], and the number of lines appended to
    [data.dat]; the inland and offshore lists split the detected events;
    every detected event has one line in the six processing-time files;
    [count_N] and [count_L] are the lengths of [no], [miss] and the
    missed-event lists; and [arrmag_sd] holds the squares of [mag_err], so
    the value [ss2] written to [mag_line_std] is the root mean square of the
    magnitude errors. *)
Theorem script_run_invariant (lines : list string) (st : script_state) :
  script_run float tlon tlat num_boundary lines = Returns st ->
  script_invariant st
  /\ ss2 st = nan_sqrt (numpy_mean (map (fun d => d * d) (lists st mag_err))).
Proof.
  intros H.
  assert (I : script_invariant st).
  { exact (script_loop_keeps script_invariant script_step_invariant
             lines script_start st script_start_invariant H). }
  split; [exact I|]. unfold ss2. rewrite (inv_squares st I). reflexivity.
Qed.

(** X20. Every event the loop writes to [yes], [no] or [miss] has magnitude
    at least 5 and depth at most 40 km, and every event written to [yes]
    lies in the box 119..123 degrees of longitude by 21..26 degrees of
    latitude. *)
Theorem script_run_filtered (lines : list string) (st : script_state) :
  script_run float tlon tlat num_boundary lines = Returns st ->
  script_filtered st.
Proof.
  intros H.
  exact (script_loop_keeps script_filtered script_step_filtered
           lines script_start st script_start_filtered H).
Qed.

(** X21. The loop reads every line as an event: there is no header to
    skip, no blank line to pass over and no exception handler.  A line on
    which one of the tokens 3 to 6 is missing or is not a number, wherever it
    stands in the file, makes the run end in an exception. *)
Theorem script_run_unreadable_line (lines : list string) :
  Exists (fun rr => exists i, (3 <= i <= 6)%nat
                     /\ forall v, number_at float (split rr) i <> Returns v) lines ->
  exists e, script_run float tlon tlat num_boundary lines = Raises e.
Proof.
  unfold script_run. generalize script_start.
  induction lines as [|rr rest IH]; intros st H; [inversion H|].
  cbn [script_loop].
  destruct (script_step float tlon tlat num_boundary rr st) as [st1|e] eqn:E;
    cbn [script_bind]; [|exists e; reflexivity].
  inversion H as [? ? Hbad | ? ? Hrest]; subst; [|exact (IH st1 Hrest)].
  exfalso. destruct Hbad as [i [Hi Hv]].
  unfold script_step in E. do 4 bind_case E.
  assert (Ei : (i = 3 \/ i = 4 \/ i = 5 \/ i = 6)%nat) by lia.
  destruct Ei as [-> | [-> | [-> | ->]]]; eapply Hv; eassumption.
Qed.

(** Rounds that do count: a readable line above the thresholds with [N]
    as its second character, and a readable line in the box with [Y]. *)
Lemma script_step_no (rr : string) (st : script_state) (lon1 lat1 mag1 dep1 : R) :
  number_at float (split rr) 3 = Returns lon1 ->
  number_at float (split rr) 4 = Returns lat1 ->
  number_at float (split rr) 5 = Returns mag1 ->
  number_at float (split rr) 6 = Returns dep1 ->
  String.get 1 rr = Some "N"%char ->
  5 <= mag1 -> dep1 <= 40 ->
  script_step float tlon tlat num_boundary rr st
  = Returns (write no [lon1; lat1; dep1; mag1] (incr count_N st)).
Proof.
  intros N3 N4 N5 N6 Hc Hm Hd.
  unfold script_step, branch_N, char_at.
  rewrite N3, N4, N5, N6, Hc. cbn [script_bind]. Rdecide.
  cbn [script_bind Ascii.eqb Bool.eqb andb]. reflexivity.
Qed.

Lemma script_step_detected (rr : string) (st : script_state)
    (lon1 lat1 mag1 dep1 lon2 lat2 mag2 pro_time : R) :
  number_at float (split rr) 3 = Returns lon1 ->
  number_at float (split rr) 4 = Returns lat1 ->
  number_at float (split rr) 5 = Returns mag1 ->
  number_at float (split rr) 6 = Returns dep1 ->
  number_at float (split rr) 7 = Returns lon2 ->
  number_at float (split rr) 8 = Returns lat2 ->
  number_at float (split rr) 9 = Returns mag2 ->
  number_at float (split rr) 11 = Returns pro_time ->
  (12 <? List.length (split rr))%nat = false ->
  String.get 1 rr = Some "Y"%char ->
  5 <= mag1 -> dep1 <= 40 -> 119 <= lon1 <= 123 -> 21 <= lat1 <= 26 ->
  exists st',
    script_step float tlon tlat num_boundary rr st = Returns st'
    /\ counters st' count_Y = S (counters st count_Y)
    /\ counters st' count_N = counters st count_N.
Proof.
  intros N3 N4 N5 N6 N7 N8 N9 N11 Hlen Hc Hm Hd Hlon Hlat.
  unfold script_step, branch_Y, char_at.
  rewrite N3, N4, N5, N6, N7, N8, N9, N11, Hlen, Hc. cbn [script_bind]. Rdecide.
  cbn [script_bind Ascii.eqb Bool.eqb andb]. Rdecide.
  cbn [script_bind Ascii.eqb Bool.eqb andb]. Rdecide.
  eexists. split; [reflexivity|].
  destruct (check_seis_r _ _ _ _ _ _ =? 1)%Z; cbn [negb counters append];
    rewrite (proj1 (write_time_files_same _ _ _ _));
    cbn [counters write write_data_dat incr append];
    (split; [destruct (counter_var_eq_dec count_Y count_Y); [reflexivity|contradiction]
            |destruct (counter_var_eq_dec count_N count_Y); [discriminate|reflexivity]]).
Qed.

Lemma script_run_two (rr1 rr2 : string) (st1 st2 : script_state) :
  script_step float tlon tlat num_boundary rr1 script_start = Returns st1 ->
  script_step float tlon tlat num_boundary rr2 st1 = Returns st2 ->
  script_run float tlon tlat num_boundary [rr1; rr2] = Returns st2.
Proof.
  intros H1 H2. unfold script_run. cbn [script_loop].
  rewrite H1. cbn [script_bind]. rewrite H2. reflexivity.
Qed.

End ScriptFacts.

Lemma script_line_numbers :
  (number_at decimal_float (split detected_line) 3 = Returns 121
   /\ number_at decimal_float (split detected_line) 4 = Returns 23
   /\ number_at decimal_float (split detected_line) 5 = Returns 5.5
   /\ number_at decimal_float (split detected_line) 6 = Returns 10)
  /\ (number_at decimal_float (split detected_line) 7 = Returns 121.1
      /\ number_at decimal_float (split detected_line) 8 = Returns 23.05
      /\ number_at decimal_float (split detected_line) 9 = Returns 5.3
      /\ number_at decimal_float (split detected_line) 11 = Returns 8)
  /\ (number_at decimal_float (split missed_line) 3 = Returns 121.67
      /\ number_at decimal_float (split missed_line) 4 = Returns 23.77
      /\ number_at decimal_float (split missed_line) 5 = Returns 7.2
      /\ number_at decimal_float (split missed_line) 6 = Returns 15.5).
Proof.
  repeat split;
    match goal with
    | |- ?m = Returns ?v =>
        let H := fresh in
        assert (H : exists r, m = Returns r /\ r = v)
          by (eexists; split; [vm_compute; reflexivity | lra]);
        destruct H as [r [H <-]]; exact H
    end.
Qed.

(** A file of two events, one detected and one without alert, runs to its
    end and counts one of each. *)
Lemma script_two_events_run :
  exists st,
    script_run decimal_float [120; 122; 122; 120; 120] [22; 22; 24; 24; 22] 5
      [detected_line; missed_line] = Returns st
    /\ counters st count_Y = 1%nat /\ counters st count_N = 1%nat.
Proof.
  destruct script_line_numbers
    as ((N3 & N4 & N5 & N6) & (N7 & N8 & N9 & N11) & (M3 & M4 & M5 & M6)).
  destruct (script_step_detected decimal_float
              [120; 122; 122; 120; 120] [22; 22; 24; 24; 22] 5
              detected_line script_start _ _ _ _ _ _ _ _
              N3 N4 N5 N6 N7 N8 N9 N11)
    as (s1 & E1 & Y1 & Y2);
    [vm_compute; reflexivity | vm_compute; reflexivity | lra | lra | lra | lra |].
  eexists. split.
  - apply (script_run_two _ _ _ _ _ _ _ _ E1).
    apply (script_step_no _ _ _ _ _ _ _ _ _ _ M3 M4 M5 M6);
      [vm_compute; reflexivity | lra | lra].
  - cbn [counters write incr]. rewrite Y1, Y2. cbn [counters script_start].
    split.
    + destruct (counter_var_eq_dec count_Y count_N); [discriminate | reflexivity].
    + destruct (counter_var_eq_dec count_N count_N); [reflexivity | contradiction].
Qed.

Lemma script_run_invariant_witness :
  exists st,
    script_run decimal_float [120; 122; 122; 120; 120] [22; 22; 24; 24; 22] 5
      [detected_line; missed_line] = Returns st
    /\ script_invariant st
    /\ ss2 st = nan_sqrt (numpy_mean (map (fun d => d * d) (lists st mag_err))).
Proof.
  destruct script_two_events_run as (st & E & _).
  exists st. split; [exact E|].
  exact (script_run_invariant decimal_float _ _ _ _ st E).
Defined.

Lemma script_run_filtered_witness :
  exists st,
    script_run decimal_float [120; 122; 122; 120; 120] [22; 22; 24; 24; 22] 5
      [detected_line; missed_line] = Returns st
    /\ script_filtered st.
Proof.
  destruct script_two_events_run as (st & E & _).
  exists st. split; [exact E|].
  exact (script_run_filtered decimal_float _ _ _ _ st E).
Defined.

Lemma script_run_unreadable_line_witness :
  exists e,
    script_run decimal_float [120; 122; 122; 120; 120] [22; 22; 24; 24; 22] 5
      [header_line; detected_line] = Raises e.
Proof.
  apply script_run_unreadable_line.
  apply Exists_cons_hd. exists 3%nat. split; [lia|].
  intros v H. vm_compute in H. discriminate H.
Defined.

(** ** The analyzer cache of the server *)

Lemma filter_true {A} (l : list A) : filter (fun _ => true) l = l.
Proof.
  induction l as [|x l IH]; [reflexivity|]. cbn [filter]. rewrite IH. reflexivity.
Qed.

Lemma requested_all_condition (file : string) (call : tool * arguments)
    (rest : list (tool * arguments)) (rows : list row) :
  filter (requested_all file rest) (filter (condition file call) rows)
  = filter (requested_all file (call :: rest)) rows.
Proof. rewrite filter_filter. reflexivity. Qed.

Lemma requested_rows (args : arguments) (rows : list row) :
  let rows1 :=
    if is_some (min_magnitude args) || is_some (max_magnitude args)
    then filter (magnitude_mask (get_default (min_magnitude args) 0.0)
                                (get_default (max_magnitude args) 10.0)) rows
    else rows in
  match max_depth args with
  | Some d => filter (depth_mask d) rows1
  | None => rows1
  end = filter (requested args) rows.
Proof.
  unfold requested.
  destruct (is_some (min_magnitude args) || is_some (max_magnitude args)),
    (max_depth args) as [d|]; cbv zeta.
  - apply filter_filter.
  - apply filter_ext. intros r. rewrite andb_true_r. reflexivity.
  - apply filter_ext. intros r. reflexivity.
  - symmetry. apply filter_true.
Qed.

Section ServerFacts.

Variable float : string -> option R.
Variable read_lines : string -> list string.
Variable taiwan : Boundary.

Lemma load_data_df (self self' : EEWSAnalyzer) (d : DataFrame) :
  load_data float self = Ok (d, self') -> df self' = Some d.
Proof.
  unfold load_data, bind. intros H.
  destruct (read_rows float (tl (data_lines self))); [|discriminate H].
  destruct (match boundary_lons (boundary self) with
            | [] => Ok (DataFrame_of a)
            | _ :: _ => add_Is_Inland (boundary self) (DataFrame_of a)
            end); [|discriminate H].
  injection H as <- <-. reflexivity.
Qed.

Lemma calculate_errors_frame (self : EEWSAnalyzer) (rows : list row) :
  df self = Some (Frame rows) ->
  calculate_errors float self
  = Ok (analysis_of rows,
        mkAnalyzer (data_lines self) (boundary self) (Some (Frame rows))
                   (Some (analysis_of rows))).
Proof.
  intros H. unfold calculate_errors, bind. rewrite H. cbn [df]. rewrite H.
  reflexivity.
Qed.

Lemma calculate_errors_no_columns (self : EEWSAnalyzer) :
  df self = Some NoColumns -> calculate_errors float self = Raise KeyError.
Proof.
  intros H. unfold calculate_errors, bind. rewrite H. cbn [df]. rewrite H.
  reflexivity.
Qed.

Lemma narrow_frame (mask : row -> bool) (analyzer : EEWSAnalyzer)
    (rows : list row) :
  df analyzer = Some (Frame rows) ->
  exists analyzer',
    narrow float (query float mask) analyzer = (Ok tt, analyzer')
    /\ df analyzer' = Some (Frame (filter mask rows))
    /\ df_analyzed analyzer' = Some (analysis_of (filter mask rows)).
Proof.
  intros H. unfold narrow. rewrite (query_loaded float mask analyzer rows H).
  rewrite (calculate_errors_frame (set_df (Frame (filter mask rows)) analyzer)
             (filter mask rows) eq_refl).
  eexists. split; [reflexivity|]. split; reflexivity.
Qed.

(** The statistics of an analyzer that holds a frame and its error
    columns. *)
Lemma get_statistics_consistent (analyzer : EEWSAnalyzer) (rows : list row) :
  df analyzer = Some (Frame rows) ->
  df_analyzed analyzer = Some (analysis_of rows) ->
  (rows = [] /\ get_statistics float analyzer = Raise ZeroDivisionError)
  \/ (rows <> []
      /\ exists s,
           get_statistics float analyzer = Ok (s, analyzer)
           /\ total_earthquakes s = List.length rows
           /\ eew_detected s = List.length (filter counted_detected rows)).
Proof.
  intros Hd Ha. destruct rows as [|r rows].
  - left. split; [reflexivity|].
    exact (get_statistics_no_records float analyzer _ _ Ha Hd eq_refl).
  - right. split; [discriminate|].
    destruct (get_statistics_loaded float analyzer _ _ Ha Hd)
      as (s & Hs & Ht & He & _); [discriminate|].
    exists s. split; [exact Hs|]. split; [exact Ht|].
    rewrite He. unfold analysis_of. rewrite detected_of_rows, length_map.
    reflexivity.
Qed.

Lemma rows_served_cached (c : cache) (file : string) (analyzer : EEWSAnalyzer)
    (rows : list row) :
  c file = Some analyzer -> df analyzer = Some (Frame rows) ->
  rows_served float read_lines taiwan c file = Some rows.
Proof. intros Hc Hd. unfold rows_served. rewrite Hc, Hd. reflexivity. Qed.

Lemma rows_served_same (c c' : cache) (file : string) :
  c' file = c file ->
  rows_served float read_lines taiwan c' file
  = rows_served float read_lines taiwan c file.
Proof. intros H. unfold rows_served. rewrite H. reflexivity. Qed.

Lemma store_same (file : string) (analyzer : EEWSAnalyzer) (c : cache) :
  store file analyzer c file = Some analyzer.
Proof. unfold store. rewrite String.eqb_refl. reflexivity. Qed.

Lemma store_other (file g : string) (analyzer : EEWSAnalyzer) (c : cache) :
  g <> file -> store file analyzer c g = c g.
Proof.
  intros H. unfold store. destruct (String.eqb_spec g file); [contradiction|].
  reflexivity.
Qed.

Lemma store_consistent (file : string) (analyzer : EEWSAnalyzer) (c : cache)
    (rows : list row) :
  consistent c ->
  df analyzer = Some (Frame rows) ->
  df_analyzed analyzer = Some (analysis_of rows) ->
  consistent (store file analyzer c).
Proof.
  intros Hc Hd Ha g a. unfold store.
  destruct (String.eqb_spec g file) as [->|Hne].
  - intros [= <-]. exists rows. split; assumption.
  - apply Hc.
Qed.

(** [get_analyzer] on a consistent cache: it raises, and the file gives no
    frame with columns, or it returns a consistent analyzer that the cache
    now holds. *)
Lemma get_analyzer_cases (c : cache) (file : string) :
  consistent c ->
  (rows_served float read_lines taiwan c file = None
   /\ exists e, get_analyzer float read_lines taiwan file c = Raise e)
  \/ (exists analyzer c0 rows,
        get_analyzer float read_lines taiwan file c = Ok (analyzer, c0)
        /\ rows_served float read_lines taiwan c file = Some rows
        /\ df analyzer = Some (Frame rows)
        /\ df_analyzed analyzer = Some (analysis_of rows)
        /\ c0 file = Some analyzer
        /\ (forall g, g <> file -> c0 g = c g)
        /\ consistent c0).
Proof.
  intros Hc. unfold get_analyzer, rows_served.
  destruct (c file) as [a|] eqn:Ec.
  - destruct (Hc _ _ Ec) as (rows & Hd & Ha). right.
    exists a, c, rows. rewrite Hd. repeat split; auto.
  - destruct (load_data float (new_analyzer (read_lines file) taiwan))
      as [[d a1]|e] eqn:El; cbn [bind snd].
    + pose proof (load_data_df _ _ _ El) as Hd. destruct d as [|rows].
      * left. split; [reflexivity|]. exists KeyError.
        rewrite (calculate_errors_no_columns a1 Hd). reflexivity.
      * right. rewrite (calculate_errors_frame a1 rows Hd). cbn [bind snd].
        eexists. eexists. exists rows.
        split; [reflexivity|]. split; [reflexivity|].
        split; [reflexivity|]. split; [reflexivity|].
        split; [apply store_same|]. split; [intros g Hg; apply store_other; exact Hg|].
        apply (store_consistent _ _ _ rows Hc); reflexivity.
    + left. split; [reflexivity|]. exists e. reflexivity.
Qed.

(** What a call does to the cache and what it answers. *)
Lemma call_tool_outcome (name : tool) (args : arguments) (c : cache)
    (file : string) :
  consistent c -> data_file args = Some file ->
  let out := call_tool float read_lines taiwan name args c in
  (rows_served float read_lines taiwan c file = None
   /\ snd out = c /\ exists e, fst out = Error e)
  \/ (exists rows analyzer,
        rows_served float read_lines taiwan c file = Some rows
        /\ let rows' := filter (condition file (name, args)) rows in
           snd out file = Some analyzer
           /\ (forall g, g <> file -> snd out g = c g)
           /\ consistent (snd out)
           /\ df analyzer = Some (Frame rows')
           /\ (rows' = [] -> fst out = Error ZeroDivisionError)
           /\ (rows' <> [] ->
               exists s, fst out = Text s
                         /\ total_earthquakes s = List.length rows'
                         /\ eew_detected s
                            = List.length (filter counted_detected rows'))).
Proof.
  intros Hc Hf. cbv zeta. unfold call_tool. rewrite Hf.
  destruct (get_analyzer_cases c file Hc)
    as [[Hn [e He]] | (a & c0 & rows & Hg & Hr & Hd & Ha & Hc0 & Hother & Hcons)].
  - left. rewrite He. cbn [fst snd]. split; [exact Hn|]. split; [reflexivity|].
    exists e. reflexivity.
  - right. rewrite Hg. exists rows. destruct name.
    + (* analyze_eews_data *)
      assert (Hcond : filter (condition file (analyze_eews_data, args)) rows
                      = filter (requested args) rows).
      { unfold condition, asks_on. rewrite Hf, String.eqb_refl. reflexivity. }
      rewrite Hcond. rewrite <- (requested_rows args rows). cbv zeta.
      set (rows1 := if is_some (min_magnitude args) || is_some (max_magnitude args)
                    then filter _ rows else rows).
      assert (S1 : exists a1,
                 (if is_some (min_magnitude args) || is_some (max_magnitude args)
                  then narrow float
                         (fun a0 => filter_by_magnitude float a0
                                      (get_default (min_magnitude args) 0.0)
                                      (get_default (max_magnitude args) 10.0)) a
                  else (Ok tt, a)) = (Ok tt, a1)
                 /\ df a1 = Some (Frame rows1)
                 /\ df_analyzed a1 = Some (analysis_of rows1)).
      { unfold rows1.
        destruct (is_some (min_magnitude args) || is_some (max_magnitude args)).
        - exact (narrow_frame _ a rows Hd).
        - exists a. repeat split; assumption. }
      destruct S1 as (a1 & -> & Hd1 & Ha1).
      set (rows2 := match max_depth args with
                    | Some d => filter (depth_mask d) rows1
                    | None => rows1
                    end).
      assert (S2 : exists a2,
                 match max_depth args with
                 | Some d => narrow float (fun a0 => filter_by_depth float a0 d) a1
                 | None => (Ok tt, a1)
                 end = (Ok tt, a2)
                 /\ df a2 = Some (Frame rows2)
                 /\ df_analyzed a2 = Some (analysis_of rows2)).
      { unfold rows2. destruct (max_depth args) as [d|].
        - exact (narrow_frame _ a1 rows1 Hd1).
        - exists a1. repeat split; assumption. }
      destruct S2 as (a2 & -> & Hd2 & Ha2).
      destruct (get_statistics_consistent a2 rows2 Hd2 Ha2)
        as [[He Hs] | [Hne (s & Hs & Ht & Hdet)]]; rewrite Hs; cbn [fst snd].
      * exists a2. split; [exact Hr|].
        split; [apply store_same|].
        split; [intros g Hg'; rewrite store_other by exact Hg'; apply Hother; exact Hg'|].
        split; [exact (store_consistent _ _ _ rows2 Hcons Hd2 Ha2)|].
        split; [exact Hd2|]. split; [reflexivity|].
        intros Hne. contradiction.
      * exists a2. split; [exact Hr|].
        split; [apply store_same|].
        split; [intros g Hg'; rewrite store_other by exact Hg'; apply Hother; exact Hg'|].
        split; [exact (store_consistent _ _ _ rows2 Hcons Hd2 Ha2)|].
        split; [exact Hd2|]. split; [intros He; contradiction|].
        intros _. exists s. repeat split; assumption.
    + (* the statistics tools *)
      assert (Hcond : filter (condition file (get_statistics_tool, args)) rows = rows).
      { unfold condition, asks_on. apply filter_true. }
      rewrite Hcond. cbv zeta.
      destruct (get_statistics_consistent a rows Hd Ha)
        as [[He Hs] | [Hne (s & Hs & Ht & Hdet)]]; rewrite Hs; cbn [fst snd].
      * exists a. split; [exact Hr|]. split; [exact Hc0|].
        split; [exact Hother|]. split; [exact Hcons|].
        split; [exact Hd|]. split; [reflexivity|]. intros Hne. contradiction.
      * exists a. split; [exact Hr|].
        split; [apply store_same|].
        split; [intros g Hg'; rewrite store_other by exact Hg'; apply Hother; exact Hg'|].
        split; [exact (store_consistent _ _ _ rows Hcons Hd Ha)|].
        split; [exact Hd|]. split; [intros He; contradiction|].
        intros _. exists s. repeat split; assumption.
Qed.

Lemma call_tool_no_file (name : tool) (args : arguments) (c : cache) :
  data_file args = None ->
  call_tool float read_lines taiwan name args c = (Error KeyError, c).
Proof. intros H. unfold call_tool. rewrite H. reflexivity. Qed.

Lemma condition_other (file f : string) (name : tool) (args : arguments)
    (rows : list row) :
  data_file args <> Some file ->
  filter (condition file (name, args)) rows = rows.
Proof.
  intros H. unfold condition, asks_on.
  destruct name; [|apply filter_true].
  destruct (data_file args) as [g|]; [|apply filter_true].
  destruct (String.eqb_spec g file) as [->|]; [contradiction H; reflexivity|].
  apply filter_true.
Qed.

(** One call keeps the cache consistent and narrows the records served
    for each file by the condition it puts on that file. *)
Lemma call_tool_step (name : tool) (args : arguments) (c : cache) :
  consistent c ->
  consistent (snd (call_tool float read_lines taiwan name args c))
  /\ forall file rows,
       rows_served float read_lines taiwan c file = Some rows ->
       rows_served float read_lines taiwan
         (snd (call_tool float read_lines taiwan name args c)) file
       = Some (filter (condition file (name, args)) rows).
Proof.
  intros Hc. destruct (data_file args) as [f|] eqn:Ef.
  - destruct (call_tool_outcome name args c f Hc Ef)
      as [(Hn & Hs & _) | (rows0 & a & Hr0 & Ha & Hother & Hcons & Hd & _)];
      cbv zeta in *.
    + rewrite Hs. split; [exact Hc|]. intros file rows Hr.
      rewrite (condition_other file f) by (intros E; rewrite Ef in E;
        injection E as ->; rewrite Hn in Hr; discriminate Hr).
      exact Hr.
    + split; [exact Hcons|]. intros file rows Hr.
      destruct (String.eqb_spec file f) as [->|Hne].
      * rewrite Hr0 in Hr. injection Hr as <-.
        exact (rows_served_cached _ _ _ _ Ha Hd).
      * rewrite (rows_served_same c _ file (Hother file Hne)).
        rewrite (condition_other file f)
          by (rewrite Ef; intros [= E]; apply Hne; symmetry; exact E).
        exact Hr.
  - rewrite (call_tool_no_file name args c Ef). cbn [snd].
    split; [exact Hc|]. intros file rows Hr.
    rewrite (condition_other file file) by (rewrite Ef; discriminate).
    exact Hr.
Qed.

Lemma serve_step (calls : list (tool * arguments)) :
  forall c, consistent c ->
  consistent (snd (serve float read_lines taiwan calls c))
  /\ forall file rows,
       rows_served float read_lines taiwan c file = Some rows ->
       rows_served float read_lines taiwan
         (snd (serve float read_lines taiwan calls c)) file
       = Some (filter (requested_all file calls) rows).
Proof.
  induction calls as [|[name args] rest IH]; intros c Hc.
  - split; [exact Hc|]. intros file rows Hr. cbn [serve snd requested_all].
    rewrite filter_true. exact Hr.
  - cbn [serve].
    destruct (call_tool float read_lines taiwan name args c) as [r c1] eqn:E1.
    destruct (serve float read_lines taiwan rest c1) as [rs c2] eqn:E2.
    cbn [snd].
    destruct (call_tool_step name args c Hc) as [Hc1 Hrows1].
    rewrite E1 in Hc1, Hrows1. cbn [snd] in Hc1, Hrows1.
    destruct (IH c1 Hc1) as [Hc2 Hrows2].
    rewrite E2 in Hc2, Hrows2. cbn [snd] in Hc2, Hrows2.
    split; [exact Hc2|]. intros file rows Hr.
    rewrite (Hrows2 file _ (Hrows1 file rows Hr)).
    rewrite requested_all_condition. reflexivity.
Qed.

Lemma empty_cache_consistent : consistent empty_cache.
Proof. intros file a H. discriminate H. Qed.

Lemma rows_served_empty_cache (file : string) (rows : list row)
    (analyzer : EEWSAnalyzer) :
  load_data float (new_analyzer (read_lines file) taiwan)
  = Ok (Frame rows, analyzer) ->
  rows_served float read_lines taiwan empty_cache file = Some rows.
Proof. intros H. unfold rows_served, empty_cache. rewrite H. reflexivity. Qed.

(** X22. The filters of [analyze_eews_data] stay in the cached analyzer:
    after any session of statistics calls, started with an empty cache, the
    records the server holds for a file are the records of that file that
    pass the filters of every [analyze_eews_data] call made on it so far; a
    call on another file, a statistics call without filters and a call that
    ends in an error text restore nothing. *)
Theorem session_filters_accumulate (calls : list (tool * arguments))
    (file : string) (rows : list row) (analyzer : EEWSAnalyzer) :
  load_data float (new_analyzer (read_lines file) taiwan)
  = Ok (Frame rows, analyzer) ->
  rows_served float read_lines taiwan
    (snd (serve float read_lines taiwan calls empty_cache)) file
  = Some (filter (requested_all file calls) rows).
Proof.
  intros H.
  exact (proj2 (serve_step calls empty_cache empty_cache_consistent)
           file rows (rows_served_empty_cache file rows analyzer H)).
Qed.

(** X23. A statistics call that follows a session reports on the records
    left by the filters of the session, not on the file: the total it
    prints is their number and the detected count is the number of detected
    records among them; when the filters left no record the answer is the
    error text of a division by zero. *)
Theorem statistics_after_session (calls : list (tool * arguments))
    (file : string) (rows : list row) (analyzer : EEWSAnalyzer) :
  load_data float (new_analyzer (read_lines file) taiwan)
  = Ok (Frame rows, analyzer) ->
  let kept := filter (requested_all file calls) rows in
  let answer :=
    fst (call_tool float read_lines taiwan get_statistics_tool (statistics_of file)
           (snd (serve float read_lines taiwan calls empty_cache))) in
  (kept = [] -> answer = Error ZeroDivisionError)
  /\ (kept <> [] ->
      exists s, answer = Text s
                /\ total_earthquakes s = List.length kept
                /\ eew_detected s = List.length (filter counted_detected kept)).
Proof.
  intros H. cbv zeta.
  destruct (serve_step calls empty_cache empty_cache_consistent) as [Hc Hrows].
  pose proof (Hrows file rows (rows_served_empty_cache file rows analyzer H)) as Hr.
  destruct (call_tool_outcome get_statistics_tool (statistics_of file) _ file Hc eq_refl)
    as [(Hn & _) | (rows0 & a & Hr0 & Hout)]; cbv zeta in *.
  - rewrite Hr in Hn. discriminate Hn.
  - rewrite Hr in Hr0. injection Hr0 as <-.
    assert (Hcond : filter (condition file (get_statistics_tool, statistics_of file))
                      (filter (requested_all file calls) rows)
                    = filter (requested_all file calls) rows) by apply filter_true.
    rewrite Hcond in Hout.
    destruct Hout as (_ & _ & _ & _ & Hempty & Hsome).
    split; [exact Hempty | exact Hsome].
Qed.

(** X24. The server never answers from error columns of another frame:
    after any session started with an empty cache, every cached analyzer
    holds a frame with columns and the error columns computed from exactly
    that frame. *)
Theorem session_cache_consistent (calls : list (tool * arguments)) :
  consistent (snd (serve float read_lines taiwan calls empty_cache)).
Proof. exact (proj1 (serve_step calls empty_cache empty_cache_consistent)). Qed.

End ServerFacts.

(** A session on the file of [two_lines]: one analysis with a lower bound on
    the magnitude. *)
Lemma two_lines_load :
  load_data decimal_float (new_analyzer two_lines no_boundary)
  = Ok (Frame [scenario_record; second_record],
        mkAnalyzer two_lines no_boundary
          (Some (Frame [scenario_record; second_record])) None).
Proof.
  rewrite load_data_no_boundary by reflexivity.
  cbn [new_analyzer data_lines two_lines tl read_rows].
  rewrite detected_line_parses, second_line_parses. reflexivity.
Qed.

Lemma session_filters_accumulate_witness :
  rows_served decimal_float (fun _ => two_lines) no_boundary
    (snd (serve decimal_float (fun _ => two_lines) no_boundary
            [(analyze_eews_data,
              mkArguments (Some "EEW_ALL-2014-2025.txt"%string) (Some 5.2) None None)]
            empty_cache))
    "EEW_ALL-2014-2025.txt"
  = Some (filter (requested_all "EEW_ALL-2014-2025.txt"
                    [(analyze_eews_data,
                      mkArguments (Some "EEW_ALL-2014-2025.txt"%string)
                        (Some 5.2) None None)])
                 [scenario_record; second_record]).
Proof.
  exact (session_filters_accumulate decimal_float (fun _ => two_lines) no_boundary
           _ "EEW_ALL-2014-2025.txt" _ _ two_lines_load).
Defined.

Lemma statistics_after_session_witness :
  let calls := [(analyze_eews_data,
                 mkArguments (Some "EEW_ALL-2014-2025.txt"%string)
                   (Some 5.2) None None)] in
  let kept := filter (requested_all "EEW_ALL-2014-2025.txt" calls)
                [scenario_record; second_record] in
  let answer :=
    fst (call_tool decimal_float (fun _ => two_lines) no_boundary
           get_statistics_tool (statistics_of "EEW_ALL-2014-2025.txt")
           (snd (serve decimal_float (fun _ => two_lines) no_boundary calls
                   empty_cache))) in
  (kept = [] -> answer = Error ZeroDivisionError)
  /\ (kept <> [] ->
      exists s, answer = Text s
                /\ total_earthquakes s = List.length kept
                /\ eew_detected s = List.length (filter counted_detected kept)).
Proof.
  exact (statistics_after_session decimal_float (fun _ => two_lines) no_boundary
           _ "EEW_ALL-2014-2025.txt" _ _ two_lines_load).
Defined.

(** ** The dashboard and the summary script *)

Section CallerFacts.

Variable float : string -> option R.

Lemma load_data_keeps_analysis (self self' : EEWSAnalyzer) (d : DataFrame) :
  load_data float self = Ok (d, self') ->
  df self' = Some d /\ df_analyzed self' = df_analyzed self
  /\ boundary self' = boundary self.
Proof.
  unfold load_data, bind. intros H.
  destruct (read_rows float (tl (data_lines self))); [|discriminate H].
  destruct (match boundary_lons (boundary self) with
            | [] => Ok (DataFrame_of a)
            | _ :: _ => add_Is_Inland (boundary self) (DataFrame_of a)
            end); [|discriminate H].
  injection H as <- <-. repeat split.
Qed.

(** X25. On a file that loads, [load_and_analyze_data] returns exactly
    when some record passes the seven conditions, and then with the frame of
    those records and their statistics; when no record passes, it ends in
    the division by zero of [get_statistics].  On such a file it never
    returns an analyzer with an empty frame, so the test
    [len(analyzer.df) == 0] of the page is never true after it. *)
Theorem dashboard_selection (lines : list string) (taiwan : Boundary)
    (min_mag max_mag max_depth min_lon max_lon min_lat max_lat : R)
    (rows : list row) (loaded : EEWSAnalyzer) :
  load_data float (new_analyzer lines taiwan) = Ok (Frame rows, loaded) ->
  let kept := filter (dashboard_mask min_mag max_mag max_depth
                        min_lon max_lon min_lat max_lat) rows in
  let result := load_and_analyze_data float (Some lines) taiwan
                  min_mag max_mag max_depth min_lon max_lon min_lat max_lat in
  (kept = [] -> result = Raise ZeroDivisionError)
  /\ (kept <> [] ->
      exists analyzer s,
        result = Ok (Some (analyzer, s))
        /\ df analyzer = Some (Frame kept)
        /\ total_earthquakes s = List.length kept
        /\ eew_detected s = List.length (filter counted_detected kept)).
Proof.
  intros Hl. cbv zeta. unfold load_and_analyze_data. rewrite Hl.
  destruct (load_data_keeps_analysis _ _ _ Hl) as (Hd & _ & _).
  cbn [bind snd fst]. rewrite Hd. cbn [select bind].
  set (kept := filter _ rows).
  rewrite (calculate_errors_frame float (set_df (Frame kept) loaded) kept eq_refl).
  cbn [bind snd fst].
  set (a := mkAnalyzer _ _ _ _).
  destruct (get_statistics_consistent float a kept eq_refl eq_refl)
    as [[He Hs] | [Hne (s & Hs & Ht & Hdet)]]; rewrite Hs; cbn [bind snd fst].
  - split; [reflexivity | intros Hne; contradiction].
  - split; [intros He; contradiction|]. intros _.
    exists a, s. repeat split; assumption.
Qed.

Lemma detected_at_least_counted (rows : list row) :
  (List.length (filter counted_detected rows)
   <= List.length (filter detected_mask rows))%nat
  /\ (List.length (filter counted_detected rows)
      = List.length (filter detected_mask rows)
      <-> Forall (fun r => detected_mask r = true ->
                           is_some (EEW_Lat r) && is_some (EEW_Lon r) = true) rows).
Proof.
  induction rows as [|r rows [IHle IHeq]].
  - split; [apply Nat.le_refl|]. split; [constructor | reflexivity].
  - assert (Ec : counted_detected r
                 = detected_mask r && (is_some (EEW_Lat r) && is_some (EEW_Lon r)))
      by (unfold counted_detected, detected_mask; rewrite andb_assoc; reflexivity).
    cbn [filter]. rewrite Ec, Forall_cons_iff.
    destruct (detected_mask r); cbn [andb].
    + destruct (is_some (EEW_Lat r) && is_some (EEW_Lon r)); cbn [List.length].
      * split; [lia|]. split.
        -- intros H. split; [intros _; reflexivity|]. apply IHeq. lia.
        -- intros [_ H]. f_equal. apply IHeq, H.
      * split; [lia|]. split.
        -- intros H. exfalso. lia.
        -- intros [H _]. specialize (H eq_refl). discriminate H.
    + split; [exact IHle|]. split.
      * intros H. split; [intros Hx; discriminate Hx|]. apply IHeq, H.
      * intros [_ H]. apply IHeq, H.
Qed.

(** X26. On a file that loads, the summary script never divides by zero:
    when no record passes its filters it returns after the warning.
    Otherwise it counts as alerts every selected record whose type contains
    [Y], with or without alert fields, so that its alert count is at least
    the detected count [get_statistics] gives for the same frame, and equal
    to it exactly when every such record has its alert position; its alert
    rate lies between 0 and 100, and with a boundary its inland and offshore
    alerts add up to the alerts. *)
Theorem summary_counts (lines : list string) (taiwan : Boundary)
    (rows : list row) (loaded : EEWSAnalyzer) :
  load_data float (new_analyzer lines taiwan) = Ok (Frame rows, loaded) ->
  let kept := filter summary_mask rows in
  (kept = [] -> summary_main float lines taiwan = Ok None)
  /\ (kept <> [] ->
      exists rep s self',
        summary_main float lines taiwan = Ok (Some rep)
        /\ filtered_count rep = List.length kept
        /\ alerts_issued rep = List.length (filter detected_mask kept)
        /\ alerts_missed rep
           = Z.of_nat (List.length (filter (fun r => negb (detected_mask r)) kept))
        /\ 0 <= alert_rate rep <= 100
        /\ (boundary_lons taiwan <> [] ->
            (inland_alerts rep + offshore_alerts rep)%nat = alerts_issued rep)
        /\ get_statistics float (set_df (Frame kept) loaded) = Ok (s, self')
        /\ (eew_detected s <= alerts_issued rep)%nat
        /\ (eew_detected s = alerts_issued rep
            <-> Forall (fun r => detected_mask r = true ->
                                 is_some (EEW_Lat r) && is_some (EEW_Lon r) = true)
                       kept)).
Proof.
  intros Hl. cbv zeta. unfold summary_main. rewrite Hl.
  destruct (load_data_keeps_analysis _ _ _ Hl) as (Hd & Hna & Hb).
  cbn [new_analyzer df_analyzed boundary] in Hna, Hb.
  cbn [bind snd fst]. rewrite Hd. cbn [select bind len].
  set (kept := filter summary_mask rows).
  destruct kept as [|r0 kept0] eqn:Ek.
  - split; [reflexivity | intros Hne; contradiction].
  - split; [intros He; discriminate He|]. intros _. rewrite <- Ek.
    replace (List.length kept =? 0)%nat with false
      by (rewrite Ek; reflexivity).
    rewrite (calculate_errors_frame float (set_df (Frame kept) loaded) kept eq_refl).
    cbn [bind snd fst df_analyzed boundary set_df].
    assert (Hlen : List.length (analysis_of kept)
                   = List.length (filter detected_mask kept)).
    { unfold analysis_of. rewrite length_map. reflexivity. }
    pose proof (filter_length detected_mask kept) as Hfl.
    pose proof (filter_length_le detected_mask kept) as Hle.
    assert (Hk : List.length kept = S (List.length kept0)) by (rewrite Ek; reflexivity).
    assert (Ht : truediv (List.length (analysis_of kept)) (List.length kept)
                 = Ok (INR (List.length (analysis_of kept)) / INR (List.length kept)))
      by (rewrite Hk; reflexivity).
    rewrite Ht. cbn [bind].
    (* the statistics of the same frame *)
    assert (Hs : exists s self',
               get_statistics float (set_df (Frame kept) loaded) = Ok (s, self')
               /\ eew_detected s = List.length (filter counted_detected kept)).
    { rewrite (get_statistics_fresh float (set_df (Frame kept) loaded) _ _ Hna
                 (calculate_errors_frame float (set_df (Frame kept) loaded) kept eq_refl)).
      set (a := mkAnalyzer _ _ _ _).
      destruct (get_statistics_consistent float a kept eq_refl eq_refl)
        as [[He _] | [_ (s & Hs & _ & Hdet)]].
      - rewrite Ek in He. discriminate He.
      - exists s, a. split; assumption. }
    destruct Hs as (s & self' & Hs & Hdet).
    destruct (detected_at_least_counted kept) as [Hcle Hceq].
    eexists. exists s, self'. split; [reflexivity|].
    cbn [filtered_count alerts_issued alerts_missed alert_rate
           inland_alerts offshore_alerts].
    rewrite Hlen, Hdet.
    split; [reflexivity|]. split; [reflexivity|]. split; [lia|].
    split.
    { assert (Hpos : 0 < INR (List.length kept)) by (apply lt_0_INR; lia).
      pose proof (pos_INR (List.length (filter detected_mask kept))) as H0.
      apply le_INR in Hle.
      set (k := INR (List.length (filter detected_mask kept))) in *.
      set (m := INR (List.length kept)) in *.
      assert (0 <= k / m <= 1); [|lra].
      split.
      - apply Rmult_le_reg_l with m; [exact Hpos|].
        replace (m * (k / m)) with k by (field; lra). lra.
      - apply Rmult_le_reg_l with m; [exact Hpos|].
        replace (m * (k / m)) with k by (field; lra). lra. }
    split.
    { intros Hbn. rewrite Hb.
      destruct (boundary_lons taiwan) as [|x lons] eqn:Eb; [contradiction|].
      rewrite <- Hlen. apply classified_partition.
      assert (Hb' : boundary_lons (boundary (new_analyzer lines taiwan)) <> [])
        by (cbn [new_analyzer boundary]; rewrite Eb; discriminate).
      destruct (load_data_classified float _ _ _ Hb' Hl) as [Hc _].
      cbn [rows_of] in Hc. rewrite Forall_forall in Hc.
      apply Forall_forall. intros a Ha. unfold analysis_of in Ha.
      apply in_map_iff in Ha. destruct Ha as (r & <- & Hr).
      apply filter_In in Hr. destruct Hr as [Hr _].
      unfold kept in Hr. apply filter_In in Hr. destruct Hr as [Hr _].
      destruct (Hc r Hr) as [_ Hsome]. exact Hsome. }
    split; [exact Hs|]. split; [exact Hcle | exact Hceq].
Qed.

End CallerFacts.

Lemma dashboard_selection_witness :
  let kept := filter (dashboard_mask 4 10 100 119 123 21 26)
                [scenario_record; second_record] in
  let result := load_and_analyze_data decimal_float (Some two_lines) no_boundary
                  4 10 100 119 123 21 26 in
  (kept = [] -> result = Raise ZeroDivisionError)
  /\ (kept <> [] ->
      exists analyzer s,
        result = Ok (Some (analyzer, s))
        /\ df analyzer = Some (Frame kept)
        /\ total_earthquakes s = List.length kept
        /\ eew_detected s = List.length (filter counted_detected kept)).
Proof.
  exact (dashboard_selection decimal_float two_lines no_boundary
           4 10 100 119 123 21 26 _ _ two_lines_load).
Defined.

Lemma summary_counts_witness :
  let kept := filter summary_mask [scenario_record; second_record] in
  (kept = [] -> summary_main decimal_float two_lines no_boundary = Ok None)
  /\ (kept <> [] ->
      exists rep s self',
        summary_main decimal_float two_lines no_boundary = Ok (Some rep)
        /\ filtered_count rep = List.length kept
        /\ alerts_issued rep = List.length (filter detected_mask kept)
        /\ alerts_missed rep
           = Z.of_nat (List.length (filter (fun r => negb (detected_mask r)) kept))
        /\ 0 <= alert_rate rep <= 100
        /\ (boundary_lons no_boundary <> [] ->
            (inland_alerts rep + offshore_alerts rep)%nat = alerts_issued rep)
        /\ get_statistics decimal_float
             (set_df (Frame kept)
                (mkAnalyzer two_lines no_boundary
                   (Some (Frame [scenario_record; second_record])) None))
           = Ok (s, self')
        /\ (eew_detected s <= alerts_issued rep)%nat
        /\ (eew_detected s = alerts_issued rep
            <-> Forall (fun r => detected_mask r = true ->
                                 is_some (EEW_Lat r) && is_some (EEW_Lon r) = true)
                       kept)).
Proof.
  exact (summary_counts decimal_float two_lines no_boundary _ _ two_lines_load).
Defined.
